(* ===== verification/_CoqProject ===== *)
-Q . S2P
Prelude.v
Metrics.v
Parser.v
Http.v
Timeout.v
Config.v
Admission.v
Runtime.v
Handlers.v
Server.v
Health.v
Exposition.v
Reaper.v
App.v
