(* ===== verification/Prelude.v ===== *)
(** * A verification development for fskhttp ([src/fskhttp.py])

    fskhttp is one Flask module: two rate-limited routes, [/encode] (text
    to an FSK-modulated WAV file through the [ggwave-to-file] binary) and
    [/decode] (a WAV upload to text through [ggwave-from-file], whose
    textual report [parse_ggwave_output] turns into JSON), a shared
    [Metrics] registry, a [/health] and a [/metrics] endpoint, and a
    background thread that deletes stale temp files.  A request goes
    through [rate_limit_decorator]'s wrapper (a non-blocking semaphore
    acquire or an immediate 503, then [metrics.increment_total()]), then
    the handler's [try]/[except]/[finally] body, which runs the binaries
    with [subprocess.run], calls [metrics.decrement_active] and removes
    its temp file, then the wrapper's [semaphore.release()].

    ** Files, in dependency order

    - [Prelude] (this file): Python [str] operations on ASCII strings
      ([str.strip], [startswith], [endswith], [in]), decimal digits and
      their value ([int()] of a digit string) and printing ([to_dec]), the
      string lemmas every component shares, and the hint databases [fsk]
      and [fsk_str].
    - [Metrics] ([Module Metrics]): [class Metrics] (lines 54-97) as a
      record of [Z] counters; [init], [increment_total],
      [decrement_active], [get_stats] one function each (the lock makes
      each call atomic); [MetricOp]/[run_ops] are sequences of calls, and
      [counts_consistent] the consistency of the counters that the spec's
      section 3 asks for.
    - [Parser] ([Module Parser]): [parse_ggwave_output] (lines 164-219)
      with the semantics of its regular expressions: leftmost search,
      a greedy group up to the last quote of a line, [re.findall] quote pairing,
      [max(key=len)], [int()] with CPython's 4300-digit limit and the
      [except] clause.
    - [Http] ([Module Http]): responses as a status and a JSON, file or
      text body, and the shape the spec asks of every answer.
    - [Timeout] ([Module Timeout]): [timeout_decorator] (lines 122-137)
      over a run on the [executor] pool, given by its waiting time,
      running time and end (the decorator is applied to no route).
    - [Config] ([Module Config]): the [Config] class as a record, its
      defaults, and [startup], the reading of the environment (lines
      17-39: [os.getenv], [int()] with its literal syntax and digit limit,
      [.lower() == 'true']) followed by the [LOG_LEVEL] lookup of line 45.
    - [Admission] ([Module Admission]): the semaphore interface (classes
      [NonBlockingSemaphore], [SemaphoreLaws]), CPython's
      [threading.Semaphore] as an instance, and [rate_limit_wrapper], the
      decorator's [wrapper] run without interleaving.
    - [Runtime] ([Module Runtime], stdpp): the monad [PyM] (state and
      Python exceptions over [HState]: file system as a [gmap], registry,
      log of registry calls, log of launched processes, the handler's temp
      file variable) with [try_except]/[try_finally], [subprocess.run]
      over an arbitrary [External] binary, [NamedTemporaryFile],
      [send_file], the [finally] cleanup, and Hoare triples over [PyM].
    - [Handlers] ([Module Handlers], stdpp): [encode] (lines 221-300) and
      [decode] (lines 302-384), each the composition of its [try] block,
      [except] clauses and [finally] block, parametrised by the binaries
      and the configuration.
    - [Server] ([Module Server]): the two decorated routes under
      concurrent threads as a step relation whose atomic steps are the
      acquire (or 503), [increment_total], the handler's registry calls
      and the release, over any implementation of the semaphore interface.
    - [Health] ([Module Health]): [health] (lines 386-446) as a function of
      the host readings [Probe] (or the exception raised taking them), the
      configuration and the registry.
    - [Exposition] ([Module Exposition]): [get_metrics] (lines 448-487), the
      f-string line by line, and a scraper ([split_nl], [sample],
      [parse_sample_int]) to read it.
    - [Reaper] ([Module Reaper], stdpp): [safe_temp_file_cleanup]'s worker
      (lines 139-162) over a [gmap] of directory entries: [visit] is the
      body of the [for] loop, [sweep] the [for] loop, [cleanup_iteration]
      one iteration of [while True], and [reaper_turn] a step of the
      worker: a sleep, the request threads' changes, an iteration; with a
      negative interval [time.sleep] raises and the turn only logs.
    - [App] ([Module App], stdpp): the Flask application.  [url_map] is
      the [/static/<path:filename>] rule [Flask(__name__)] registers
      (line 41) followed by the four [@app.route] rules, each with Flask's
      automatic OPTIONS and HEAD; [match_rules] is one pass of Werkzeug's
      matcher and [dispatch] the two passes, the second on the path with
      merged slashes ([merge_slashes]) that redirects with 308; then a 405
      when some rule matched the path only, else a 404.  [app_handle]
      routes one request to such an answer, to the static view, to a
      view, or through [rate_limit_wrapper] to [encode] or [decode] over
      one state [AppState] (the two semaphores and the handlers' world);
      [serve] answers requests one after the other.  [load_module] is the import (lines 17-101: [Config], the
      log level, [ThreadPoolExecutor], [Metrics()], the two semaphores),
      each step of which can raise, and [main] the [__main__] block
      (lines 489-502).

    ** What is proved

    - Admission and concurrency ([Server], [Admission]): a request is
      admitted exactly when its route has fewer than
      [MAX_CONCURRENT_REQUESTS] permits out; the bound holds in every
      reachable state; the per-route semaphores allow twice that many
      requests at once; [active_requests] counts the running handlers when
      each handler decrements once, and becomes negative with the calls
      [encode] really makes when [send_file] raises; the registry's
      counters stay consistent ([counts_consistent]: active is total
      minus successes and failures, and the per-type counts add up to
      successes plus failures) in every reachable state; the wrapper
      rejects with 503 or admits and gives its permit back.
    - Handlers ([Handlers]): the registry calls of each handler on every
      path; no temp file left behind with binaries confined to the files
      named in their arguments; the first tier, the stdout fallback, the
      500 when neither yields audio, the timeout (504), the validation
      errors (400) of [encode]; the 200 answer of [decode] on a
      well-formed report, its 500 answers on a non-zero exit (with the
      process's streams) and on a parse failure; every process either
      handler starts has [timeout=REQUEST_TIMEOUT], at most two for
      [encode] and one for [decode].  The gateway's handler contract is
      discharged by these lemmas ([handlers_meet_contract]).
    - Parser ([Parser]): a printed report parses back to its fields; the
      success flag is exactly "marker present and no [int()] error"; an
      over-long number yields a failure with the error; the fallback's
      quote pairing and first-longest choice.
    - Registry ([Metrics]): the counters after any sequence of calls, and
      [requests_per_second] is never negative (lemmas the endpoints use).
    - Endpoints ([Health], [Exposition]): [/health] answers 200 exactly
      under its thresholds, and reports [degraded] in a reachable gateway
      state that still admits requests; the [_gb] gauges of its answer
      are within half a hundredth of the exact value, ties to even; a
      scraper reads every counter of [/metrics] back, sees
      the eight [fskhttp_*] names, and can read an active count of -1.
    - Reaper ([Reaper]): a sweep deletes exactly the old [tmp*.wav] files
      it can stat and unlink, whatever the listing order; it never deletes
      anything else; the handlers' temp files are names it looks for; and
      (liveness, for a non-negative interval) a leaked file is gone after
      the first turn that lists the directory once the file is 600 s old,
      a turn whose number is bounded by the sleep interval, whatever the
      request threads do.
    - Answers ([Handlers]): no exception escapes either handler and every
      answer is a success or a JSON object with a string [error] field.
    - Configuration ([Config]): a configuration printed into the
      environment is read back.
    - Application ([App]): the routing of every method and path (404,
      405, OPTIONS, the static view, the 308 redirect of merged slashes,
      and only POSTs to [/encode] and [/decode] change state); requests
      served one at a time are never refused with 503, their answers
      being those of the unguarded views; the import fails with
      [ValueError] for [MAX_WORKERS <= 0] or a negative
      [MAX_CONCURRENT_REQUESTS], and [0] refuses every encode and decode.

    ** Bounds and fuel

    Counters and times are unbounded [Z], as Python integers are; times
    are microseconds (registry) or milliseconds (response) given as
    inputs.  [to_dec] prints [n] with fuel [S n], enough since each digit
    divides by ten.  The 4300-digit limit is CPython 3.11's default
    [sys.int_info.default_max_str_digits].  Strings are 8-bit: text
    outside Latin-1 is not modelled.  [mkstemp] draws its names from a
    finite list given with the request, which stands for the random names
    [tempfile] tries.  Python floats (readings of [psutil], [ctime],
    [requests_per_second]) are the rationals [Q] they denote: rounding
    errors of float arithmetic are not modelled, except [round(x, 2)],
    which rounds the exact binary value half to even as CPython does.
    The reaper's liveness counts turns ([nsteps]); no fuel is involved.

    ** Not modelled

    The [ThreadPoolExecutor]'s queue and worker threads (standard-library
    code the module only calls; [timeout_decorator] is modelled on the
    outcome of [future.result]); Flask's request context, which
    [timeout_decorator] would lose on a pool thread; the body of
    [send_static_file] (a parameter of [App]); the repr of floats (a parameter of [Exposition]) and the
    text of Werkzeug's HTML error pages (a parameter of [App]); log
    records (only the messages of [__main__] are modelled), HTTP headers
    other than the content type, the removal of a HEAD answer's body by
    the server, and [jsonify]'s key sorting: I/O with no state of the
    program's own.  [main] records the reaper's interval; the reaper
    thread's behaviour is [Reaper]'s [reaper_turn]. *)

From Stdlib Require Import String Ascii List ZArith Lia Bool Arith.
Import ListNotations.

Declare Scope fsk_scope.
Delimit Scope fsk_scope with fsk.


Create HintDb fsk.
Create Rewrite HintDb fsk_str.

(** ** Python [str] operations on ASCII strings

    A Python [str] (and a [bytes] value) is a Stdlib [string]: a character
    is an 8-bit [ascii], read as a code point below 256. *)

(** [str.isspace] restricted to code points below 256. *)
Definition is_py_space (c : ascii) : bool :=
  let n := nat_of_ascii c in
  ((9 <=? n) && (n <=? 13)) || ((28 <=? n) && (n <=? 32))
  || (n =? 133) || (n =? 160).

Fixpoint py_lstrip (s : string) : string :=
  match s with
  | EmptyString => EmptyString
  | String c s' => if is_py_space c then py_lstrip s' else s
  end.

Fixpoint py_rstrip (s : string) : string :=
  match s with
  | EmptyString => EmptyString
  | String c s' =>
      match py_rstrip s' with
      | EmptyString => if is_py_space c then EmptyString else String c EmptyString
      | r => String c r
      end
  end.

(** [s.strip()] *)
Definition py_strip (s : string) : string := py_rstrip (py_lstrip s).

(** [s.startswith(p)] *)
Definition py_startswith (s p : string) : bool := String.prefix p s.

(** [s.endswith(suf)] *)
Definition py_endswith (s suf : string) : bool :=
  let n := String.length s in
  let m := String.length suf in
  (m <=? n) && String.eqb (substring (n - m) m s) suf.

(** [needle in s] *)
Fixpoint py_contains (needle s : string) : bool :=
  String.prefix needle s ||
  match s with
  | EmptyString => false
  | String _ s' => py_contains needle s'
  end.

Notation "n 'in_str' s" := (py_contains n s) (at level 70) : fsk_scope.

(** The regular-expression class [\d], on ASCII. *)
Definition is_digit (c : ascii) : bool :=
  let n := nat_of_ascii c in (48 <=? n) && (n <=? 57).

(** The longest prefix of digits and the rest: what a greedy [(\d+)] consumes. *)
Fixpoint span_digits (s : string) : string * string :=
  match s with
  | EmptyString => (EmptyString, EmptyString)
  | String c s' =>
      if is_digit c then let (d, r) := span_digits s' in (String c d, r)
      else (EmptyString, s)
  end.

Definition digit_value (c : ascii) : Z := Z.of_nat (nat_of_ascii c - 48).

Fixpoint digits_value_acc (acc : Z) (s : string) : Z :=
  match s with
  | EmptyString => acc
  | String c s' => digits_value_acc (acc * 10 + digit_value c) s'
  end.

(** [int(d)] for a string of decimal digits (the length limit of CPython's
    conversion is added where [int] is called, in [Parser]). *)
Definition digits_value (s : string) : Z := digits_value_acc 0 s.

(** [str(n)] for a natural number: decimal digits, most significant first. *)
Fixpoint to_dec_aux (fuel n : nat) (acc : string) : string :=
  match fuel with
  | O => acc
  | S f =>
      let acc' := String (ascii_of_nat (48 + n mod 10)) acc in
      if n <? 10 then acc' else to_dec_aux f (n / 10) acc'
  end.

Definition to_dec (n : nat) : string := to_dec_aux (S n) n EmptyString.

(** [str(z)] of a Python int. *)
Definition py_str_int (z : Z) : string :=
  if (z <? 0)%Z then ("-" ++ to_dec (Z.to_nat (- z)))%string else to_dec (Z.to_nat z).

Fixpoint all_chars (p : ascii -> bool) (s : string) : bool :=
  match s with
  | EmptyString => true
  | String c s' => p c && all_chars p s'
  end.

Definition first_char_not (p : ascii -> bool) (s : string) : bool :=
  match s with
  | EmptyString => true
  | String c _ => negb (p c)
  end.

(** [s[n:]] *)
Fixpoint str_drop (n : nat) (s : string) : string :=
  match n, s with
  | O, _ => s
  | S _, EmptyString => EmptyString
  | S n', String _ s' => str_drop n' s'
  end.

(** [c not in s] for one character. *)
Definition lacks_char (c : ascii) (s : string) : bool :=
  all_chars (fun x => negb (Ascii.eqb x c)) s.

Definition newline : ascii := Ascii.ascii_of_nat 10.
Definition quote : ascii := "'"%char.

(** The one-character string ["\n"]. *)
Definition nl : string := String newline EmptyString.

(** ** Generic lemmas on strings *)

Lemma append_assoc_str (a b c : string) : ((a ++ b) ++ c = a ++ (b ++ c))%string.
Proof. induction a as [|x a IH]; simpl; [reflexivity | now rewrite IH]. Qed.

(** The two equations of [String.append], for files where a library has
    made it opaque to [simpl] and [cbn]. *)
Lemma append_nil_l_str (b : string) : (EmptyString ++ b)%string = b.
Proof. reflexivity. Qed.

Lemma append_cons_str (c : ascii) (a b : string) : (String c a ++ b)%string = String c (a ++ b).
Proof. reflexivity. Qed.

Lemma nl_app (b : string) : (nl ++ b)%string = String newline b.
Proof. reflexivity. Qed.

Lemma append_nil_r_str (a : string) : (a ++ EmptyString)%string = a.
Proof. induction a as [|x a IH]; simpl; [reflexivity | now rewrite IH]. Qed.

Lemma length_append_str (a b : string) :
  String.length (a ++ b)%string = String.length a + String.length b.
Proof. induction a as [|x a IH]; simpl; [reflexivity | now rewrite IH]. Qed.

Lemma prefix_append (p s : string) : String.prefix p (p ++ s)%string = true.
Proof.
  induction p as [|c p IH]; simpl.
  - destruct s; reflexivity.
  - destruct (ascii_dec c c); [exact IH | congruence].
Qed.

Lemma py_contains_prefix (n s : string) : String.prefix n s = true -> py_contains n s = true.
Proof. destruct s; simpl; intros ->; reflexivity. Qed.

Lemma py_contains_append_r (n s t : string) :
  py_contains n t = true -> py_contains n (s ++ t)%string = true.
Proof.
  induction s as [|c s IH]; simpl; intros H; [exact H|].
  rewrite (IH H). apply orb_true_r.
Qed.

Lemma py_contains_append_l (n s : string) :
  py_contains n (n ++ s)%string = true.
Proof. apply py_contains_prefix, prefix_append. Qed.

Lemma span_digits_app (d r : string) :
  all_chars is_digit d = true -> first_char_not is_digit r = true ->
  span_digits (d ++ r)%string = (d, r).
Proof.
  induction d as [|c d IH]; simpl; intros Hd Hr.
  - destruct r as [|c r]; simpl in *; [reflexivity|].
    now destruct (is_digit c).
  - apply andb_prop in Hd as [-> Hd]. now rewrite (IH Hd Hr).
Qed.

Lemma prefix_app_iff (p s : string) :
  String.prefix p s = true <-> exists z, s = (p ++ z)%string.
Proof.
  revert s; induction p as [|c p IH]; intros s; simpl.
  - split; [intros _; now exists s | intros _; now destruct s].
  - destruct s as [|d s]; cbn [String.prefix].
    + split; [discriminate | intros [z Hz]; discriminate].
    + destruct (ascii_dec c d) as [<-|Hne].
      * rewrite IH. split; intros [z Hz]; exists z; [now rewrite Hz | now injection Hz].
      * split; [discriminate | intros [z Hz]; injection Hz; intros; congruence].
Qed.

Lemma str_drop_app (p s : string) : str_drop (String.length p) (p ++ s)%string = s.
Proof. induction p as [|c p IH]; simpl; [now destruct s | exact IH]. Qed.

Lemma all_chars_app (f : ascii -> bool) (a b : string) :
  all_chars f (a ++ b)%string = all_chars f a && all_chars f b.
Proof. induction a as [|c a IH]; simpl; [reflexivity | now rewrite IH, andb_assoc]. Qed.

Lemma lacks_char_app (c : ascii) (a b : string) :
  lacks_char c (a ++ b)%string = lacks_char c a && lacks_char c b.
Proof. apply all_chars_app. Qed.

(** Where a character [c] absent from [u] first appears in [u ++ v], it
    cannot come before the end of [u]. *)
Lemma app_char_split (x y u v : string) (c : ascii) :
  (x ++ String c y)%string = (u ++ v)%string -> lacks_char c u = true ->
  String.length u <= String.length x.
Proof.
  revert x; induction u as [|d u IH]; intros x Heq Hu; simpl; [lia|].
  unfold lacks_char in Hu; simpl in Hu; apply andb_prop in Hu as [Hd Hu].
  destruct x as [|e x]; simpl in Heq; injection Heq; intros Ht Hh.
  - subst d. rewrite Ascii.eqb_refl in Hd. discriminate.
  - simpl. apply le_n_S, (IH x Ht Hu).
Qed.

(** A label whose character [c] does not occur before it in the label
    cannot start inside a text [p] free of [c] and end inside a following
    occurrence of the label. *)
Lemma prefix_no_cross (a b p y : string) (c : ascii) :
  p <> EmptyString -> lacks_char c p = true -> lacks_char c a = true ->
  String.prefix (a ++ String c b) (p ++ (a ++ String c b) ++ y)%string = false.
Proof.
  intros Hp Hcp Hca.
  destruct (String.prefix _ _) eqn:E; [|reflexivity].
  apply prefix_app_iff in E as [z Hz].
  rewrite !append_assoc_str in Hz. simpl in Hz.
  rewrite <- append_assoc_str in Hz. symmetry in Hz.
  apply (app_char_split a (b ++ z) (p ++ a) _ c) in Hz;
    [|now rewrite lacks_char_app, Hcp, Hca].
  rewrite length_append_str in Hz.
  destruct p; [congruence | simpl in Hz; lia].
Qed.

Lemma digits_value_acc_app (a : Z) (s t : string) :
  digits_value_acc a (s ++ t)%string = digits_value_acc (digits_value_acc a s) t.
Proof. revert a; induction s as [|c s IH]; intros a; simpl; [reflexivity | apply IH]. Qed.

Lemma to_dec_aux_app (f n : nat) (acc : string) :
  to_dec_aux f n acc = (to_dec_aux f n EmptyString ++ acc)%string.
Proof.
  revert n acc; induction f as [|f IH]; intros n acc; simpl; [reflexivity|].
  destruct (n <? 10); [reflexivity|].
  rewrite (IH _ (String _ acc)), (IH _ (String _ EmptyString)).
  now rewrite append_assoc_str.
Qed.

Lemma digit_char_value (k : nat) :
  k < 10 -> digit_value (ascii_of_nat (48 + k)) = Z.of_nat k.
Proof.
  intros Hk. unfold digit_value. rewrite nat_ascii_embedding by lia. f_equal. lia.
Qed.

Lemma digit_char_is_digit (k : nat) : k < 10 -> is_digit (ascii_of_nat (48 + k)) = true.
Proof.
  intros Hk. unfold is_digit. rewrite nat_ascii_embedding by lia.
  apply andb_true_intro; split; apply Nat.leb_le; lia.
Qed.

Lemma to_dec_aux_value (f n : nat) :
  n < f -> digits_value (to_dec_aux f n EmptyString) = Z.of_nat n.
Proof.
  revert n; induction f as [|f IH]; intros n Hn; [lia|]. cbn [to_dec_aux].
  pose proof (Nat.mod_upper_bound n 10 ltac:(lia)) as Hm.
  destruct (Nat.ltb_spec n 10) as [Hlt|Hge].
  - unfold digits_value; cbn [digits_value_acc]. rewrite digit_char_value by lia.
    rewrite Nat.mod_small by lia. lia.
  - rewrite to_dec_aux_app. unfold digits_value in *.
    rewrite digits_value_acc_app, IH by (pose proof (Nat.div_lt n 10); lia).
    cbn [digits_value_acc]. rewrite digit_char_value by lia.
    pose proof (Nat.div_mod_eq n 10). lia.
Qed.

Lemma to_dec_aux_digits (f n : nat) (acc : string) :
  all_chars is_digit acc = true -> all_chars is_digit (to_dec_aux f n acc) = true.
Proof.
  revert n acc; induction f as [|f IH]; intros n acc Hacc; cbn [to_dec_aux]; [exact Hacc|].
  assert (Hd : all_chars is_digit (String (ascii_of_nat (48 + n mod 10)) acc) = true)
    by (cbn [all_chars]; rewrite digit_char_is_digit by (apply Nat.mod_upper_bound; lia); exact Hacc).
  destruct (n <? 10); [exact Hd | apply IH, Hd].
Qed.

Lemma to_dec_aux_length (f n : nat) (acc : string) :
  S (String.length acc) <= String.length (to_dec_aux (S f) n acc).
Proof.
  revert n acc; induction f as [|f IH]; intros n acc; simpl to_dec_aux.
  - destruct (n <? 10); simpl; lia.
  - destruct (n <? 10); [simpl; lia|].
    specialize (IH (n / 10) (String (ascii_of_nat (48 + n mod 10)) acc)); simpl in IH; lia.
Qed.

(** [str(n)] read back by [int()] gives [n]. *)
Lemma to_dec_value (n : nat) : digits_value (to_dec n) = Z.of_nat n.
Proof. apply to_dec_aux_value; lia. Qed.

Lemma to_dec_digits (n : nat) : all_chars is_digit (to_dec n) = true.
Proof. apply to_dec_aux_digits; reflexivity. Qed.

Lemma to_dec_nonempty (n : nat) : to_dec n <> EmptyString.
Proof.
  intros H. pose proof (to_dec_aux_length n n EmptyString) as Hl.
  unfold to_dec in H. rewrite H in Hl. simpl in Hl. lia.
Qed.

(** A digit-free character is absent from a string of digits. *)
Lemma lacks_char_digits (c : ascii) (s : string) :
  is_digit c = false -> all_chars is_digit s = true -> lacks_char c s = true.
Proof.
  intros Hc; induction s as [|d s IH]; simpl; [reflexivity|].
  unfold lacks_char in *; simpl.
  intros Hs; apply andb_prop in Hs as [Hd Hs].
  destruct (Ascii.eqb_spec d c); [subst; congruence|]. now rewrite IH.
Qed.

Lemma py_rstrip_app (x y : string) :
  py_rstrip y <> EmptyString -> py_rstrip (x ++ y)%string = (x ++ py_rstrip y)%string.
Proof.
  intros Hy. induction x as [|c x IH]; simpl; [reflexivity|].
  rewrite IH. destruct (x ++ py_rstrip y)%string eqn:E; [|reflexivity].
  destruct x; simpl in E; [congruence | discriminate].
Qed.

Lemma py_lstrip_nonspace (c : ascii) (s : string) :
  is_py_space c = false -> py_lstrip (String c s) = String c s.
Proof. intros H; simpl; now rewrite H. Qed.

Lemma substring_full (b : string) : substring 0 (String.length b) b = b.
Proof. induction b as [|c b IH]; simpl; [reflexivity | now rewrite IH]. Qed.

Lemma substring_app_r (a b : string) :
  substring (String.length a) (String.length b) (a ++ b)%string = b.
Proof. induction a as [|c a IH]; simpl; [apply substring_full | exact IH]. Qed.

(** [(a + suf).endswith(suf)] *)
Lemma py_endswith_app (a suf : string) : py_endswith (a ++ suf)%string suf = true.
Proof.
  unfold py_endswith. rewrite length_append_str.
  replace (String.length a + String.length suf - String.length suf)%nat
    with (String.length a) by lia.
  rewrite substring_app_r, String.eqb_refl, andb_true_r. apply Nat.leb_le. lia.
Qed.

Lemma to_dec_aux_length_le (f n : nat) (acc : string) :
  String.length (to_dec_aux f n acc) <= f + String.length acc.
Proof.
  revert n acc; induction f as [|f IH]; intros n acc; simpl to_dec_aux; [lia|].
  destruct (n <? 10); [simpl; lia|]. etransitivity; [apply IH|]. simpl; lia.
Qed.

(** [str(n)] has at most [n + 1] digits. *)
Lemma to_dec_length_le (n : nat) : String.length (to_dec n) <= S n.
Proof. unfold to_dec. pose proof (to_dec_aux_length_le (S n) n EmptyString). simpl in *; lia. Qed.

Lemma digit_not_space (c : ascii) : is_digit c = true -> is_py_space c = false.
Proof.
  unfold is_digit, is_py_space. set (n := nat_of_ascii c). intros H.
  apply andb_prop in H as [H1 H2]. apply Nat.leb_le in H1, H2.
  repeat match goal with
  | |- context [?a <=? ?b] => destruct (Nat.leb_spec a b)
  | |- context [?a =? ?b] => destruct (Nat.eqb_spec a b)
  end; cbn; lia.
Qed.

(** A string without white space is its own [strip()]. *)
Lemma py_strip_nospace (s : string) :
  all_chars (fun c => negb (is_py_space c)) s = true -> py_strip s = s.
Proof.
  unfold py_strip. intros H. destruct s as [|c r]; [reflexivity|].
  cbn [all_chars] in H. apply andb_prop in H as [Hc Hr]. apply negb_true_iff in Hc.
  rewrite py_lstrip_nonspace by exact Hc. revert c Hc.
  induction r as [|d r IH]; intros c Hc; cbn [py_rstrip]; [now rewrite Hc|].
  cbn [all_chars] in Hr. apply andb_prop in Hr as [Hd Hr]. apply negb_true_iff in Hd.
  cbn [py_rstrip] in IH. rewrite (IH Hr d Hd). reflexivity.
Qed.

Lemma to_dec_head (n : nat) : exists c r, to_dec n = String c r /\ is_digit c = true.
Proof.
  pose proof (to_dec_digits n) as Hd. pose proof (to_dec_nonempty n) as Hn.
  destruct (to_dec n) as [|c r]; [contradiction|].
  exists c, r. split; [reflexivity|]. cbn in Hd. now apply andb_prop in Hd as [-> _].
Qed.

Lemma all_chars_impl (f g : ascii -> bool) (s : string) :
  (forall c, f c = true -> g c = true) -> all_chars f s = true -> all_chars g s = true.
Proof.
  intros Hfg. induction s as [|c s IH]; cbn [all_chars]; [auto|].
  intros H. apply andb_prop in H as [Hc Hs]. now rewrite (Hfg c Hc), IH.
Qed.

#[export] Hint Resolve prefix_append py_endswith_app py_contains_append_l py_contains_append_r : fsk.
#[export] Hint Rewrite append_assoc_str append_nil_r_str length_append_str : fsk_str.
