(* ===== verification/Metrics.v ===== *)
(** * The metrics registry ([class Metrics], src/fskhttp.py lines 54-97)

    One record of unbounded Python integers ([Z]) guarded by one lock: each
    method is one atomic function on the record.  Wall-clock readings
    ([datetime.now()]) are microseconds since the epoch, given as arguments.
    The file proves the counting invariant every method preserves and the
    closed form of the counters after any sequence of calls. *)

From S2P Require Import Prelude.
From Stdlib Require Import String ZArith QArith List Lia Bool.
Import ListNotations.
Local Open Scope Z_scope.

Module Metrics.

Record Metrics := mkMetrics {
  total_requests : Z;
  active_requests : Z;
  successful_requests : Z;
  failed_requests : Z;
  encode_requests : Z;
  decode_requests : Z;
  start_time : Z
}.

(** [Metrics.__init__]: every counter at zero, [start_time = datetime.now()]. *)
Definition init (now : Z) : Metrics := mkMetrics 0 0 0 0 0 0 now.

(** [increment_total] *)
Definition increment_total (m : Metrics) : Metrics :=
  {| total_requests := total_requests m + 1;
     active_requests := active_requests m + 1;
     successful_requests := successful_requests m;
     failed_requests := failed_requests m;
     encode_requests := encode_requests m;
     decode_requests := decode_requests m;
     start_time := start_time m |}.

(** [decrement_active(success, request_type)]: [request_type] is the Python
    string compared with ['encode'] and ['decode']. *)
Definition decrement_active (success : bool) (request_type : string) (m : Metrics) : Metrics :=
  let is_enc := String.eqb request_type "encode" in
  let is_dec := negb is_enc && String.eqb request_type "decode" in
  {| total_requests := total_requests m;
     active_requests := active_requests m - 1;
     successful_requests := successful_requests m + (if success then 1 else 0);
     failed_requests := failed_requests m + (if success then 0 else 1);
     encode_requests := encode_requests m + (if is_enc then 1 else 0);
     decode_requests := decode_requests m + (if is_dec then 1 else 0);
     start_time := start_time m |}.

(** The dictionary [get_stats] returns. *)
Record Stats := mkStats {
  st_total_requests : Z;
  st_active_requests : Z;
  st_successful_requests : Z;
  st_failed_requests : Z;
  st_encode_requests : Z;
  st_decode_requests : Z;
  st_uptime_us : Z;
  st_requests_per_second : Q
}.

(** [get_stats(now)]: uptime in microseconds, and
    [total_requests / uptime if uptime > 0 else 0] with uptime in seconds. *)
Definition get_stats (now : Z) (m : Metrics) : Stats :=
  let uptime := now - start_time m in
  {| st_total_requests := total_requests m;
     st_active_requests := active_requests m;
     st_successful_requests := successful_requests m;
     st_failed_requests := failed_requests m;
     st_encode_requests := encode_requests m;
     st_decode_requests := decode_requests m;
     st_uptime_us := uptime;
     st_requests_per_second :=
       if (0 <? uptime)%Z
       then (inject_Z (total_requests m * 1000000) / inject_Z uptime)%Q
       else 0%Q |}.

(** The calls other components make on the registry, in the order they
    take the lock. *)
Inductive MetricOp :=
| IncTotal
| DecActive (success : bool) (request_type : string).

Definition apply_op (m : Metrics) (op : MetricOp) : Metrics :=
  match op with
  | IncTotal => increment_total m
  | DecActive s t => decrement_active s t m
  end.

Definition run_ops (ops : list MetricOp) (m : Metrics) : Metrics :=
  fold_left apply_op ops m.

(** Counting functions over a call sequence. *)
Definition op_count (p : MetricOp -> bool) (ops : list MetricOp) : Z :=
  Z.of_nat (length (filter p ops)).

Definition is_inc (op : MetricOp) : bool :=
  match op with IncTotal => true | _ => false end.
Definition is_dec (op : MetricOp) : bool :=
  match op with DecActive _ _ => true | _ => false end.
Definition is_dec_ok (op : MetricOp) : bool :=
  match op with DecActive s _ => s | _ => false end.
Definition is_dec_fail (op : MetricOp) : bool :=
  match op with DecActive s _ => negb s | _ => false end.
Definition is_dec_type (t : string) (op : MetricOp) : bool :=
  match op with DecActive _ t' => String.eqb t' t | _ => false end.



(** ** Lemmas on call sequences *)

Lemma op_count_nil p : op_count p [] = 0.
Proof. reflexivity. Qed.

Lemma op_count_cons p x l :
  op_count p (x :: l) = (if p x then 1 else 0) + op_count p l.
Proof. unfold op_count; simpl; destruct (p x); simpl length; lia. Qed.

Lemma op_count_app p l1 l2 : op_count p (l1 ++ l2) = op_count p l1 + op_count p l2.
Proof. unfold op_count. rewrite filter_app, length_app. lia. Qed.

Lemma op_count_concat_repeat p l k :
  op_count p (concat (repeat l k)) = Z.of_nat k * op_count p l.
Proof.
  induction k as [|k IH]; [reflexivity|]. simpl repeat; simpl concat.
  rewrite op_count_app, IH, Nat2Z.inj_succ. ring.
Qed.

Lemma run_ops_app l1 l2 m : run_ops (l1 ++ l2) m = run_ops l2 (run_ops l1 m).
Proof. apply fold_left_app. Qed.

(** [decrement_active] counts a request type as decode exactly when it is
    the string ['decode']. *)
Lemma decode_test_eqb (t : string) :
  negb (String.eqb t "encode") && String.eqb t "decode" = String.eqb t "decode".
Proof. destruct (String.eqb_spec t "decode") as [->|]; [reflexivity | apply andb_false_r]. Qed.

Ltac metrics_simpl :=
  cbn [apply_op increment_total decrement_active total_requests active_requests
       successful_requests failed_requests encode_requests decode_requests start_time
       is_inc is_dec is_dec_ok is_dec_fail is_dec_type negb andb] in *.

#[export] Hint Rewrite op_count_nil op_count_cons op_count_app op_count_concat_repeat
  decode_test_eqb : fsk_str.

(** ** Theorems *)

(** Closed form of the registry after any call sequence: each counter is
    its start value plus the number of calls that touch it. *)
Lemma run_ops_closed (ops : list MetricOp) (m : Metrics) :
  let m' := run_ops ops m in
  total_requests m' = total_requests m + op_count is_inc ops
  /\ active_requests m' = active_requests m + op_count is_inc ops - op_count is_dec ops
  /\ successful_requests m' = successful_requests m + op_count is_dec_ok ops
  /\ failed_requests m' = failed_requests m + op_count is_dec_fail ops
  /\ encode_requests m' = encode_requests m + op_count (is_dec_type "encode") ops
  /\ decode_requests m' = decode_requests m + op_count (is_dec_type "decode") ops
  /\ start_time m' = start_time m.
Proof.
  revert m; induction ops as [|op ops IH]; intros m; unfold run_ops; simpl.
  - rewrite !op_count_nil. lia.
  - destruct (IH (apply_op m op)) as (H1 & H2 & H3 & H4 & H5 & H6 & H7).
    unfold run_ops in *. rewrite H1, H2, H3, H4, H5, H6, H7.
    rewrite !op_count_cons.
    destruct op as [|s t]; metrics_simpl; [lia|].
    rewrite decode_test_eqb.
    destruct s, (String.eqb t "encode"), (String.eqb t "decode"); cbv beta iota delta [negb]; lia.
Qed.


(** The spec's consistency of the counters (its section 3): every exit is
    counted once as a success or a failure and once under its operation
    type, which holds when every [decrement_active] names ['encode'] or
    ['decode']. *)
Definition counts_consistent (m : Metrics) : Prop :=
  active_requests m = total_requests m - successful_requests m - failed_requests m
  /\ encode_requests m + decode_requests m = successful_requests m + failed_requests m.

Definition typed_op (op : MetricOp) : bool :=
  match op with
  | IncTotal => true
  | DecActive _ t => String.eqb t "encode" || String.eqb t "decode"
  end.

Lemma apply_op_consistent (m : Metrics) (op : MetricOp) :
  typed_op op = true -> counts_consistent m -> counts_consistent (apply_op m op).
Proof.
  unfold counts_consistent; intros Ht (H1 & H2).
  destruct op as [|b ty]; metrics_simpl; [lia|]. cbn in Ht.
  destruct (String.eqb ty "encode"), (String.eqb ty "decode"); cbn in *;
    [destruct b; lia .. | discriminate].
Qed.

Lemma run_ops_consistent (ops : list MetricOp) (m : Metrics) :
  forallb typed_op ops = true -> counts_consistent m -> counts_consistent (run_ops ops m).
Proof.
  revert m; induction ops as [|op ops IH]; intros m Ht H; [exact H|].
  cbn in Ht. apply andb_true_iff in Ht as [Ht1 Ht2].
  apply IH; [exact Ht2|]. apply apply_op_consistent; assumption.
Qed.

Lemma init_consistent (now : Z) : counts_consistent (init now).
Proof. unfold counts_consistent, init; simpl; lia. Qed.

(** The spec's counting property: after [K] successful encodes and [M]
    failed decodes from a fresh registry, in this order, the counters are
    [K + M], [K], [M], [K], [M] and no request is active. *)
Theorem counters_after_requests (K M : nat) (now : Z) :
  let ops := concat (repeat [IncTotal; DecActive true "encode"] K)
             ++ concat (repeat [IncTotal; DecActive false "decode"] M) in
  let m := run_ops ops (init now) in
  total_requests m = Z.of_nat K + Z.of_nat M
  /\ encode_requests m = Z.of_nat K /\ decode_requests m = Z.of_nat M
  /\ successful_requests m = Z.of_nat K /\ failed_requests m = Z.of_nat M
  /\ active_requests m = 0.
Proof.
  cbv zeta. destruct (run_ops_closed
    (concat (repeat [IncTotal; DecActive true "encode"] K)
     ++ concat (repeat [IncTotal; DecActive false "decode"] M)) (init now))
    as (H1 & H2 & H3 & H4 & H5 & H6 & _).
  rewrite H1, H2, H3, H4, H5, H6.
  autorewrite with fsk_str.
  cbv beta iota delta [is_inc is_dec is_dec_ok is_dec_fail is_dec_type
    String.eqb Ascii.eqb Bool.eqb negb andb init total_requests active_requests
    successful_requests failed_requests encode_requests decode_requests]. lia.
Qed.

(** [requests_per_second] is never negative, and it is [0] whenever the
    wall clock reads at or before [start_time]. *)
Theorem get_stats_rps_nonneg (now : Z) (m : Metrics) :
  0 <= total_requests m -> (0 <= st_requests_per_second (get_stats now m))%Q.
Proof.
  intros Ht. unfold get_stats; simpl.
  destruct (Z.ltb_spec 0 (now - start_time m)) as [Hu|Hu]; [|apply Qle_refl].
  apply Qle_shift_div_l.
  - change 0%Q with (inject_Z 0). rewrite <- Zlt_Qlt. exact Hu.
  - rewrite Qmult_0_l. change 0%Q with (inject_Z 0). rewrite <- Zle_Qle. lia.
Qed.


(** ** Witnesses *)

Lemma get_stats_rps_nonneg_witness :
  (0 <= st_requests_per_second (get_stats 5000000 (increment_total (init 0))))%Q.
Proof. apply get_stats_rps_nonneg. simpl. lia. Defined.

End Metrics.
