(* ===== verification/Parser.v ===== *)
(** * The ggwave output parser ([parse_ggwave_output], src/fskhttp.py lines 164-219)

    Each [re.search] of the source is a leftmost scan ([search_first]) of a
    matcher anchored at one position; [re.findall] of the pattern quote, [[^']*], quote is a
    two-state scanner; [max(..., key=len)] keeps the first longest element;
    [int()] raises [ValueError] beyond CPython's 4300-digit limit, which the
    source's [except Exception] turns into a failure result. *)

From S2P Require Import Prelude.
From Stdlib Require Import String Ascii List ZArith Lia Bool.
Import ListNotations.
Local Open Scope string_scope.

Module Parser.

(** The leftmost match of an anchored matcher, as [re.search] scans. *)
Fixpoint search_first {A} (f : string -> option A) (s : string) : option A :=
  match f s with
  | Some a => Some a
  | None =>
      match s with
      | EmptyString => None
      | String _ s' => search_first f s'
      end
  end.

(** [label(\d+)] anchored here: the label, then a maximal non-empty run of
    digits, which is group 1. *)
Definition match_int_at (label s : string) : option string :=
  if String.prefix label s then
    match span_digits (str_drop (String.length label) s) with
    | (EmptyString, _) => None
    | (d, _) => Some d
    end
  else None.

(** The group [( .* )] followed by a quote, anchored here, [.] excluding the newline: the longest prefix of
    the line that is followed by a quote. *)
Fixpoint upto_last_quote (s : string) : option string :=
  match s with
  | EmptyString => None
  | String c s' =>
      if Ascii.eqb c newline then None
      else match upto_last_quote s' with
           | Some p => Some (String c p)
           | None => if Ascii.eqb c quote then Some EmptyString else None
           end
  end.

Definition message_label : string := "[+] Decoded message with length ".
Definition done_marker : string := "[+] Done".

(** The message pattern (label, [\d+], a colon, a space, a quote, the
    group [( .* )], a quote) anchored here. *)
Definition match_message_at (s : string) : option string :=
  if String.prefix message_label s then
    match span_digits (str_drop (String.length message_label) s) with
    | (EmptyString, _) => None
    | (_, r) =>
        if String.prefix ": '" r then upto_last_quote (str_drop 3 r) else None
    end
  else None.

(** [re.findall] of quote, [( [^']* )], quote: quotes pair up from the left; an
    unpaired last quote yields nothing. *)
Fixpoint quoted_spans (s : string) (open_acc : option string) : list string :=
  match s with
  | EmptyString => []
  | String c s' =>
      if Ascii.eqb c quote then
        match open_acc with
        | None => quoted_spans s' (Some EmptyString)
        | Some acc => acc :: quoted_spans s' None
        end
      else
        match open_acc with
        | None => quoted_spans s' None
        | Some acc => quoted_spans s' (Some (acc ++ String c EmptyString)%string)
        end
  end.

Definition findall_quoted (s : string) : list string := quoted_spans s None.

(** [max(l, key=len)]: the first element of greatest length. *)
Fixpoint max_len_from (best : string) (l : list string) : string :=
  match l with
  | [] => best
  | x :: l' =>
      if (String.length best <? String.length x)%nat then max_len_from x l'
      else max_len_from best l'
  end.

Definition py_max_len (l : list string) : option string :=
  match l with
  | [] => None
  | x :: l' => Some (max_len_from x l')
  end.

(** [sys.get_int_max_str_digits()] of CPython 3.11 and later. *)
Definition int_max_str_digits : nat := 4300.

(** The exception [int()] raises on a too long digit string. *)
Inductive ParseError :=
| IntLimitExceeded (ndigits : nat).

(** [int(d)] on a string of digits. *)
Definition py_int (d : string) : ParseError + Z :=
  if (String.length d <=? int_max_str_digits)%nat then inr (digits_value d)
  else inl (IntLimitExceeded (String.length d)).

(** [result['audio_info']]: the keys of [regex_map], each present only when
    its pattern matched. *)
Record AudioInfo := mkAudioInfo {
  channels : option Z;
  sample_rate : option Z;
  bps : option Z;
  total_samples : option Z
}.

Definition empty_info : AudioInfo := mkAudioInfo None None None None.

Inductive InfoKey := KChannels | KSampleRate | KBps | KTotalSamples.

Definition set_info (k : InfoKey) (v : Z) (ai : AudioInfo) : AudioInfo :=
  match k with
  | KChannels => mkAudioInfo (Some v) (sample_rate ai) (bps ai) (total_samples ai)
  | KSampleRate => mkAudioInfo (channels ai) (Some v) (bps ai) (total_samples ai)
  | KBps => mkAudioInfo (channels ai) (sample_rate ai) (Some v) (total_samples ai)
  | KTotalSamples => mkAudioInfo (channels ai) (sample_rate ai) (bps ai) (Some v)
  end.

Definition channels_label : string := "[+] Number of channels: ".
Definition sample_rate_label : string := "[+] Sample rate: ".
Definition bps_label : string := "[+] Bits per sample: ".
Definition total_samples_label : string := "[+] Total samples: ".

(** [regex_map], in its insertion order. *)
Definition regex_map : list (InfoKey * string) :=
  [(KChannels, channels_label);
   (KSampleRate, sample_rate_label);
   (KBps, bps_label);
   (KTotalSamples, total_samples_label)].

(** The [for key, pattern in regex_map.items()] loop; it stops at the first
    [int()] that raises, keeping the keys already set. *)
Fixpoint extract_audio_info (keys : list (InfoKey * string)) (raw : string)
    (ai : AudioInfo) : AudioInfo * option ParseError :=
  match keys with
  | [] => (ai, None)
  | (k, label) :: ks =>
      match search_first (match_int_at label) raw with
      | None => extract_audio_info ks raw ai
      | Some d =>
          match py_int d with
          | inl e => (ai, Some e)
          | inr v => extract_audio_info ks raw (set_info k v ai)
          end
      end
  end.

(** The dictionary [parse_ggwave_output] returns (without
    [processing_thread], the worker thread's name). *)
Record ParseResult := mkParseResult {
  success : bool;
  audio_info : AudioInfo;
  decoded_text : string;
  message_length : nat;
  error : option ParseError
}.

(** The decoded message: the labelled line, else the longest quoted span,
    else [''] (the initial value). *)
Definition extract_message (raw : string) : string * nat :=
  match search_first match_message_at raw with
  | Some t => (t, String.length t)
  | None =>
      match py_max_len (findall_quoted raw) with
      | Some t => (t, String.length t)
      | None => (EmptyString, 0)
      end
  end.

Definition parse_ggwave_output (raw : string) : ParseResult :=
  match extract_audio_info regex_map raw empty_info with
  | (ai, Some e) => mkParseResult false ai EmptyString 0 (Some e)
  | (ai, None) =>
      let (text, len) := extract_message raw in
      mkParseResult (py_contains done_marker raw) ai text len None
  end.


(** ** Lemmas on the searches *)

(** A matcher anchored at [label] fails wherever the label does not start. *)
Definition anchored {A} (label : string) (f : string -> option A) : Prop :=
  forall s, String.prefix label s = false -> f s = None.

Lemma match_int_at_anchored (label : string) : anchored label (match_int_at label).
Proof. intros s H. unfold match_int_at. now rewrite H. Qed.

Lemma match_message_at_anchored : anchored message_label match_message_at.
Proof. intros s H. unfold match_message_at. now rewrite H. Qed.

Lemma search_first_here {A} (f : string -> option A) (s : string) (a : A) :
  f s = Some a -> search_first f s = Some a.
Proof. destruct s; simpl; intros ->; reflexivity. Qed.

(** The scan passes over a prefix at none of whose positions [f] matches. *)
Lemma search_first_skip {A} (f : string -> option A) (pre x : string) :
  (forall p1 p2, pre = p1 ++ p2 -> p2 <> EmptyString -> f (p2 ++ x) = None) ->
  search_first f (pre ++ x) = search_first f x.
Proof.
  induction pre as [|c pre IH]; intros H; [reflexivity|].
  pose proof (H EmptyString (String c pre) eq_refl ltac:(discriminate)) as H0.
  simpl in *. rewrite H0.
  apply IH. intros p1 p2 -> Hne. apply (H (String c p1) p2 eq_refl Hne).
Qed.

(** The leftmost match of a label [a ++ c ++ b] in [pre ++ label ++ y],
    when the character [c] occurs neither in [pre] nor in [a], is the one
    at the label. *)
Lemma search_first_at_label {A} (f : string -> option A) (a b pre y : string)
    (c : ascii) (v : A) :
  anchored (a ++ String c b) f -> lacks_char c pre = true -> lacks_char c a = true ->
  f ((a ++ String c b) ++ y) = Some v ->
  search_first f (pre ++ (a ++ String c b) ++ y) = Some v.
Proof.
  intros Hanc Hpre Ha Hf. rewrite search_first_skip.
  - now apply search_first_here.
  - intros p1 p2 -> Hne. apply Hanc, prefix_no_cross; [exact Hne| |exact Ha].
    rewrite lacks_char_app in Hpre. now apply andb_prop in Hpre as [_ ?].
Qed.

Lemma match_int_at_label (label d r : string) :
  all_chars is_digit d = true -> d <> EmptyString -> first_char_not is_digit r = true ->
  match_int_at label (label ++ d ++ r) = Some d.
Proof.
  intros Hd Hne Hr. unfold match_int_at.
  rewrite prefix_append, str_drop_app, span_digits_app by assumption.
  destruct d; [congruence | reflexivity].
Qed.

Definition line_ends_here (r : string) : bool :=
  match r with
  | EmptyString => true
  | String c _ => Ascii.eqb c newline
  end.

(** Greedy [( .* )] then a quote: the group runs to the last quote of the
    line, so quotes inside the message are kept. *)
Lemma upto_last_quote_line (msg r : string) :
  lacks_char newline msg = true -> line_ends_here r = true ->
  upto_last_quote (msg ++ String quote r) = Some msg.
Proof.
  intros Hmsg Hr. induction msg as [|c msg IH]; simpl.
  - destruct r as [|d r]; simpl in *; [reflexivity|].
    now rewrite Hr.
  - unfold lacks_char in Hmsg; simpl in Hmsg; apply andb_prop in Hmsg as [Hc Hmsg].
    apply negb_true_iff in Hc. rewrite Hc, IH by exact Hmsg. reflexivity.
Qed.

Lemma prefix_empty_l (s : string) : String.prefix EmptyString s = true.
Proof. now destruct s. Qed.

Lemma match_message_at_line (d msg r : string) :
  all_chars is_digit d = true -> d <> EmptyString ->
  lacks_char newline msg = true -> line_ends_here r = true ->
  match_message_at (message_label ++ d ++ ": '" ++ msg ++ String quote r) = Some msg.
Proof.
  intros Hd Hne Hmsg Hr. unfold match_message_at.
  rewrite prefix_append, str_drop_app, span_digits_app by (assumption || reflexivity).
  destruct d as [|c0 d]; [congruence|]. cbn [String.prefix str_drop append].
  change (": '" ++ ?x) with (String ":" (String " " (String "'" x))).
  cbn [String.prefix str_drop]. rewrite prefix_empty_l. now apply upto_last_quote_line.
Qed.

#[export] Hint Resolve match_int_at_anchored match_message_at_anchored : fsk.

(** The search for a labelled number, where the label is found after a
    text free of the label's character [c]. *)
Lemma search_int_after (a b pre d r : string) (c : ascii) :
  lacks_char c pre = true -> lacks_char c a = true ->
  all_chars is_digit d = true -> d <> EmptyString -> first_char_not is_digit r = true ->
  search_first (match_int_at (a ++ String c b)) (pre ++ (a ++ String c b) ++ d ++ r)
  = Some d.
Proof.
  intros. apply search_first_at_label; auto using match_int_at_anchored.
  now apply match_int_at_label.
Qed.

Lemma py_int_to_dec (n : nat) :
  String.length (to_dec n) <= int_max_str_digits -> py_int (to_dec n) = inr (Z.of_nat n).
Proof.
  intros H. unfold py_int. apply Nat.leb_le in H. rewrite H, to_dec_value. reflexivity.
Qed.


(** The report of [ggwave-from-file] that the patterns describe: four
    labelled numbers, the message line and the completion marker. *)
Definition ggwave_report (ch sr bits ts : nat) (msg : string) : string :=
  channels_label ++ to_dec ch ++ nl ++
  sample_rate_label ++ to_dec sr ++ nl ++
  bps_label ++ to_dec bits ++ nl ++
  total_samples_label ++ to_dec ts ++ nl ++
  message_label ++ to_dec (String.length msg) ++ ": '" ++ msg ++ String quote nl ++
  done_marker.

Lemma lacks_char_to_dec (c : ascii) (n : nat) :
  is_digit c = false -> lacks_char c (to_dec n) = true.
Proof. intros H. exact (lacks_char_digits c _ H (to_dec_digits n)). Qed.

Ltac lacks_tac :=
  repeat rewrite lacks_char_app;
  repeat rewrite lacks_char_to_dec by reflexivity;
  reflexivity.

Ltac report_split :=
  unfold ggwave_report, channels_label, sample_rate_label, bps_label, total_samples_label,
    message_label, done_marker, nl;
  rewrite ?append_assoc_str; reflexivity.

Lemma first_char_nl (s : string) : first_char_not is_digit (nl ++ s) = true.
Proof. reflexivity. Qed.

Lemma parse_report_fields (ch sr bits ts : nat) (msg : string) :
  lacks_char newline msg = true ->
  String.length (to_dec ch) <= int_max_str_digits ->
  String.length (to_dec sr) <= int_max_str_digits ->
  String.length (to_dec bits) <= int_max_str_digits ->
  String.length (to_dec ts) <= int_max_str_digits ->
  parse_ggwave_output (ggwave_report ch sr bits ts msg) =
  mkParseResult true
    (mkAudioInfo (Some (Z.of_nat ch)) (Some (Z.of_nat sr)) (Some (Z.of_nat bits))
       (Some (Z.of_nat ts)))
    msg (String.length msg) None.
Proof.
  intros Hmsg Hch Hsr Hbits Hts.
  remember (ggwave_report ch sr bits ts msg) as R eqn:ER.
  assert (S1 : search_first (match_int_at channels_label) R = Some (to_dec ch)).
  { assert (E : R = EmptyString ++ ("[+] " ++ String "N" "umber of channels: ")
                    ++ to_dec ch ++ (nl ++ _)) by (subst R; report_split).
    change channels_label with ("[+] " ++ String "N" "umber of channels: "). rewrite E.
    apply (search_int_after "[+] " "umber of channels: " EmptyString _ _ "N"); auto using to_dec_digits, to_dec_nonempty. }
  assert (S2 : search_first (match_int_at sample_rate_label) R = Some (to_dec sr)).
  { assert (E : R = (channels_label ++ to_dec ch ++ nl)
                    ++ ("[+] " ++ String "S" "ample rate: ") ++ to_dec sr ++ (nl ++ _))
      by (subst R; report_split).
    change sample_rate_label with ("[+] " ++ String "S" "ample rate: "). rewrite E.
    apply (search_int_after "[+] " "ample rate: " _ _ _ "S"); auto using to_dec_digits, to_dec_nonempty.
    lacks_tac. }
  assert (S3 : search_first (match_int_at bps_label) R = Some (to_dec bits)).
  { assert (E : R = (channels_label ++ to_dec ch ++ nl ++ sample_rate_label ++ to_dec sr ++ nl)
                    ++ ("[+] " ++ String "B" "its per sample: ") ++ to_dec bits ++ (nl ++ _))
      by (subst R; report_split).
    change bps_label with ("[+] " ++ String "B" "its per sample: "). rewrite E.
    apply (search_int_after "[+] " "its per sample: " _ _ _ "B"); auto using to_dec_digits, to_dec_nonempty.
    lacks_tac. }
  assert (S4 : search_first (match_int_at total_samples_label) R = Some (to_dec ts)).
  { assert (E : R = (channels_label ++ to_dec ch ++ nl ++ sample_rate_label ++ to_dec sr ++ nl
                     ++ bps_label ++ to_dec bits ++ nl)
                    ++ ("[+] " ++ String "T" "otal samples: ") ++ to_dec ts ++ (nl ++ _))
      by (subst R; report_split).
    change total_samples_label with ("[+] " ++ String "T" "otal samples: "). rewrite E.
    apply (search_int_after "[+] " "otal samples: " _ _ _ "T"); auto using to_dec_digits, to_dec_nonempty.
    lacks_tac. }
  assert (S5 : search_first match_message_at R = Some msg).
  { assert (E : R = (channels_label ++ to_dec ch ++ nl ++ sample_rate_label ++ to_dec sr ++ nl
                     ++ bps_label ++ to_dec bits ++ nl ++ total_samples_label ++ to_dec ts ++ nl)
                    ++ ("[+] " ++ String "D" "ecoded message with length ")
                    ++ (to_dec (String.length msg) ++ ": '" ++ msg ++ String quote (nl ++ done_marker)))
      by (subst R; report_split).
    rewrite E. apply (search_first_at_label _ "[+] " "ecoded message with length " _ _ "D");
      [exact match_message_at_anchored | lacks_tac
      | reflexivity |].
    apply match_message_at_line; auto using to_dec_digits, to_dec_nonempty. }
  assert (S6 : py_contains done_marker R = true).
  { assert (E : R = (channels_label ++ to_dec ch ++ nl ++ sample_rate_label ++ to_dec sr ++ nl
                     ++ bps_label ++ to_dec bits ++ nl ++ total_samples_label ++ to_dec ts ++ nl
                     ++ message_label ++ to_dec (String.length msg) ++ ": '" ++ msg
                     ++ String quote nl) ++ done_marker ++ EmptyString)
      by (subst R; rewrite append_nil_r_str; report_split).
    rewrite E. apply py_contains_append_r, py_contains_append_l. }
  unfold parse_ggwave_output, regex_map. cbn [extract_audio_info].
  rewrite S1, py_int_to_dec, S2, py_int_to_dec, S3, py_int_to_dec, S4, py_int_to_dec
    by assumption.
  unfold extract_message. rewrite S5, S6. reflexivity.
Qed.


Lemma strip_framed (c : ascii) (a : string) :
  is_py_space c = false ->
  py_strip (String c a ++ done_marker ++ nl) = String c a ++ done_marker.
Proof.
  intros Hc. unfold py_strip.
  change (String c a ++ done_marker ++ nl) with (String c (a ++ done_marker ++ nl)).
  rewrite py_lstrip_nonspace by exact Hc.
  change (String c (a ++ done_marker ++ nl)) with (String c a ++ (done_marker ++ nl)).
  rewrite py_rstrip_app by (vm_compute; discriminate). reflexivity.
Qed.

(** The handler strips the binary's output first; a report with its final
    newline strips to the report. *)
Lemma ggwave_report_strip (ch sr bits ts : nat) (msg : string) :
  py_strip (ggwave_report ch sr bits ts msg ++ nl) = ggwave_report ch sr bits ts msg.
Proof.
  set (a := "+] Number of channels: " ++ to_dec ch ++ nl ++
            sample_rate_label ++ to_dec sr ++ nl ++
            bps_label ++ to_dec bits ++ nl ++
            total_samples_label ++ to_dec ts ++ nl ++
            message_label ++ to_dec (String.length msg) ++ ": '" ++ msg ++ String quote nl).
  assert (E1 : ggwave_report ch sr bits ts msg = "[" ++ (a ++ done_marker))
    by (unfold ggwave_report, a; rewrite ?append_assoc_str; reflexivity).
  rewrite E1, !append_assoc_str.
  change ("[" ++ (a ++ (done_marker ++ nl))) with (String "[" a ++ done_marker ++ nl).
  rewrite strip_framed by reflexivity. reflexivity.
Qed.

(** C10. The report parses back to its numbers and its message, quotes in the
    message included, and counts as a success. *)
Theorem parse_report_roundtrip (ch sr bits ts : nat) (msg : string) :
  lacks_char newline msg = true ->
  String.length (to_dec ch) <= int_max_str_digits ->
  String.length (to_dec sr) <= int_max_str_digits ->
  String.length (to_dec bits) <= int_max_str_digits ->
  String.length (to_dec ts) <= int_max_str_digits ->
  parse_ggwave_output (ggwave_report ch sr bits ts msg) =
  mkParseResult true
    (mkAudioInfo (Some (Z.of_nat ch)) (Some (Z.of_nat sr)) (Some (Z.of_nat bits))
       (Some (Z.of_nat ts)))
    msg (String.length msg) None.
Proof. exact (parse_report_fields ch sr bits ts msg). Qed.

(** C11. The parse succeeds exactly when the completion marker occurs and no
    [int()] conversion raised: a message line alone is not a success. *)
Theorem parse_success_iff (raw : string) :
  success (parse_ggwave_output raw) = true <->
  py_contains done_marker raw = true
  /\ snd (extract_audio_info regex_map raw empty_info) = None.
Proof.
  unfold parse_ggwave_output.
  destruct (extract_audio_info regex_map raw empty_info) as [ai [e|]]; simpl;
    [split; [intros H; discriminate H | intros [_ H]; discriminate H]|].
  destruct (extract_message raw); simpl. split; [intros H; split; auto | intros [H _]; exact H].
Qed.

(** C18. A sample rate of more than 4300 digits after a valid channel count
    makes [int()] raise inside the audio-info loop: the [except] clause
    answers a failure carrying the conversion error, with the channel count
    parsed before it kept, the sample rate and the keys after it absent,
    and no decoded text. *)
Theorem parse_int_limit_error (ch : nat) (d rest : string) :
  String.length (to_dec ch) <= int_max_str_digits ->
  all_chars is_digit d = true -> int_max_str_digits < String.length d ->
  first_char_not is_digit rest = true ->
  parse_ggwave_output (channels_label ++ to_dec ch ++ nl ++ sample_rate_label ++ d ++ rest)
  = mkParseResult false (mkAudioInfo (Some (Z.of_nat ch)) None None None) EmptyString 0
      (Some (IntLimitExceeded (String.length d))).
Proof.
  intros Hch Hd Hlen Hrest.
  assert (Hne : d <> EmptyString) by (intros ->; simpl in Hlen; unfold int_max_str_digits in Hlen; lia).
  assert (S1 : search_first (match_int_at channels_label)
                 (channels_label ++ to_dec ch ++ nl ++ sample_rate_label ++ d ++ rest)
               = Some (to_dec ch)).
  { apply search_first_here, match_int_at_label;
      auto using to_dec_digits, to_dec_nonempty. }
  assert (S2 : search_first (match_int_at sample_rate_label)
                 (channels_label ++ to_dec ch ++ nl ++ sample_rate_label ++ d ++ rest)
               = Some d).
  {
    replace (channels_label ++ to_dec ch ++ nl ++ sample_rate_label ++ d ++ rest)
      with ((channels_label ++ to_dec ch ++ nl) ++ ("[+] " ++ String "S" "ample rate: ")
            ++ d ++ rest) by (rewrite !append_assoc_str; reflexivity).
    apply (search_int_after "[+] " "ample rate: " _ _ _ "S"); auto. lacks_tac. }
  unfold parse_ggwave_output, regex_map. cbn [extract_audio_info].
  rewrite S1, py_int_to_dec, S2 by exact Hch.
  unfold py_int. apply Nat.leb_gt in Hlen. rewrite Hlen. reflexivity.
Qed.

(** ** The fallback: quoted spans and the longest one *)

Lemma quoted_spans_outside (a s : string) :
  lacks_char quote a = true -> quoted_spans (a ++ s) None = quoted_spans s None.
Proof.
  induction a as [|c a IH]; intros H; [reflexivity|].
  unfold lacks_char in H; simpl in H |- *; apply andb_prop in H as [Hc H].
  apply negb_true_iff in Hc. rewrite Hc. apply IH, H.
Qed.

Lemma quoted_spans_inside (a s acc : string) :
  lacks_char quote a = true ->
  quoted_spans (a ++ s) (Some acc) = quoted_spans s (Some (acc ++ a)).
Proof.
  revert acc; induction a as [|c a IH]; intros acc H; simpl.
  - now rewrite append_nil_r_str.
  - unfold lacks_char in H; simpl in H; apply andb_prop in H as [Hc H].
    apply negb_true_iff in Hc. rewrite Hc, IH by exact H.
    now rewrite append_assoc_str.
Qed.

(** C19. [re.findall] of the quoted-span pattern pairs quotes from the left: the
    text between the first two quotes is the first span and the scan goes
    on after the second; a last unpaired quote contributes nothing. *)
Theorem findall_quoted_pairs (a b c : string) :
  lacks_char quote a = true -> lacks_char quote b = true ->
  findall_quoted (a ++ String quote (b ++ String quote c)) = b :: findall_quoted c
  /\ findall_quoted (a ++ String quote b) = [].
Proof.
  intros Ha Hb. unfold findall_quoted. rewrite !quoted_spans_outside by exact Ha.
  split; simpl.
  - rewrite quoted_spans_inside by exact Hb. reflexivity.
  - rewrite <- (append_nil_r_str b) at 1.
    rewrite quoted_spans_inside by exact Hb. reflexivity.
Qed.

Lemma max_len_from_spec (best x : string) (l : list string) :
  max_len_from best l = x ->
  (x = best /\ Forall (fun y => String.length y <= String.length best) l)
  \/ (String.length best < String.length x
      /\ exists l1 l2, l = (l1 ++ x :: l2)%list
         /\ Forall (fun y => String.length y < String.length x) l1
         /\ Forall (fun y => String.length y <= String.length x) l2).
Proof.
  revert best; induction l as [|y l IH]; intros best H; simpl in H.
  - left; auto.
  - destruct (Nat.ltb_spec (String.length best) (String.length y)) as [Hlt|Hge].
    + right. destruct (IH y H) as [[-> Hall] | (Hyx & l1 & l2 & -> & H1 & H2)].
      * split; [exact Hlt|]. exists [], l. auto.
      * split; [lia|]. exists (y :: l1), l2. split; [reflexivity|].
        split; [constructor; [lia | exact H1] | exact H2].
    + destruct (IH best H) as [[-> Hall] | (Hyx & l1 & l2 & -> & H1 & H2)].
      * left. split; [reflexivity | constructor; [lia | exact Hall]].
      * right. split; [exact Hyx|]. exists (y :: l1), l2. split; [reflexivity|].
        split; [constructor; [lia | exact H1] | exact H2].
Qed.

(** [max(l, key=len)] returns the first element of greatest length: every
    element before it is strictly shorter, none after it is longer. *)
Theorem py_max_len_first_longest (l : list string) (x : string) :
  py_max_len l = Some x ->
  exists l1 l2, l = (l1 ++ x :: l2)%list
    /\ Forall (fun y => String.length y < String.length x) l1
    /\ Forall (fun y => String.length y <= String.length x) l2.
Proof.
  destruct l as [|y l]; simpl; [discriminate|]. intros H; injection H as H.
  destruct (max_len_from_spec y x l H) as [[-> Hall] | (Hyx & l1 & l2 & -> & H1 & H2)].
  - exists [], l. auto.
  - exists (y :: l1), l2. split; [reflexivity|].
    split; [constructor; [exact Hyx | exact H1] | exact H2].
Qed.


(** ** Witnesses *)

Lemma parse_report_roundtrip_witness :
  parse_ggwave_output (ggwave_report 1 48000 16 100 "it's 'ok'") =
  mkParseResult true
    (mkAudioInfo (Some (Z.of_nat 1)) (Some (Z.of_nat 48000)) (Some (Z.of_nat 16))
       (Some (Z.of_nat 100)))
    "it's 'ok'" (String.length "it's 'ok'") None.
Proof. apply parse_report_roundtrip; vm_compute; try reflexivity; lia. Defined.

Definition digits_4301 : string := string_of_list_ascii (repeat "7"%char 4301).

Lemma parse_int_limit_error_witness :
  parse_ggwave_output (channels_label ++ to_dec 2 ++ nl ++ sample_rate_label ++ digits_4301 ++ nl)
  = mkParseResult false (mkAudioInfo (Some (Z.of_nat 2)) None None None) EmptyString 0
      (Some (IntLimitExceeded (String.length digits_4301))).
Proof. apply parse_int_limit_error; vm_compute; try reflexivity; lia. Defined.

Lemma findall_quoted_pairs_witness :
  findall_quoted ("noise " ++ String quote ("ab" ++ String quote " x 'cd' 'e"))
  = "ab" :: findall_quoted " x 'cd' 'e"
  /\ findall_quoted ("noise " ++ String quote "ab") = [].
Proof. apply findall_quoted_pairs; reflexivity. Defined.

(** Two quoted spans of the same length: the first one is taken. *)
Lemma py_max_len_first_longest_witness :
  exists l1 l2, ["ab"; "cd"; "e"] = (l1 ++ "ab" :: l2)%list
    /\ Forall (fun y => String.length y < String.length "ab") l1
    /\ Forall (fun y => String.length y <= String.length "ab") l2.
Proof. apply (py_max_len_first_longest ["ab"; "cd"; "e"] "ab"). reflexivity. Defined.

End Parser.
