(* ===== verification/Http.v ===== *)
(** * HTTP responses of the service (Flask's [jsonify], [send_file] and text
    responses as built in src/fskhttp.py)

    A response is a status and a body: a JSON object, a file sent as an
    attachment, or plain text.  JSON keys keep the order of the source's
    dictionary literals. *)

From S2P Require Import Prelude.
From Stdlib Require Import String ZArith QArith List Bool.
Import ListNotations.
Local Open Scope string_scope.
Local Set Warnings "-register-all".

Module Http.

Inductive Json :=
| JNull
| JBool (b : bool)
| JInt (z : Z)
| JMillis (ms : Z)                     (** a float rounded to 3 decimals, in thousandths *)
| JNum (q : Q)                         (** a float, as the rational it denotes *)
| JStr (s : string)
| JObj (fields : list (string * Json)).

Inductive Response :=
| RJson (status : Z) (body : Json)
| RFile (mimetype download_name content : string)   (** [send_file(..., as_attachment=True)] *)
| RText (status : Z) (content_type body : string).

Definition status (r : Response) : Z :=
  match r with
  | RJson s _ => s
  | RFile _ _ _ => 200
  | RText s _ _ => s
  end.

(** The value of a key of a JSON object (the first binding). *)
Definition json_field (k : string) (j : Json) : option Json :=
  match j with
  | JObj fs =>
      match find (fun p => String.eqb (fst p) k) fs with
      | Some (_, v) => Some v
      | None => None
      end
  | _ => None
  end.

Definition body_field (k : string) (r : Response) : option Json :=
  match r with
  | RJson _ j => json_field k j
  | _ => None
  end.

(** [jsonify({"error": msg}), status] *)
Definition error_response (st : Z) (msg : string) : Response :=
  RJson st (JObj [("error", JStr msg)]).


(** The shape spec section 7 asks of every answer: a success, or a JSON
    object whose ["error"] field is a string. *)
Definition well_formed_response (r : Response) : bool :=
  match r with
  | RFile _ _ _ => true
  | RJson st j =>
      (st =? 200)%Z || match json_field "error" j with Some (JStr _) => true | _ => false end
  | RText st _ _ => (st =? 200)%Z
  end.

Lemma error_response_wf (st : Z) (msg : string) : well_formed_response (error_response st msg) = true.
Proof. cbn. apply orb_true_r. Qed.

End Http.
