(* ===== verification/Timeout.v ===== *)
(** * The request timeout ([timeout_decorator] and [executor],
    src/fskhttp.py lines 50-51 and 122-137)

    [timeout_decorator] submits the view to the module's
    [ThreadPoolExecutor] and waits [future.result(timeout=...)]: the
    view's answer if it ends in time, otherwise a 504 carrying [str(e)] of
    the exception ([TimeoutError()] prints as the empty string).  No route
    of the module is decorated with it.  A run on the pool is its waiting
    time for a free worker, its running time and its end (an exception
    message or a response).  The executor's internals (its queue and
    worker threads) belong to the standard library and are not modelled:
    their effect on the decorator is the waiting time. *)

From S2P Require Import Prelude Http.
From Stdlib Require Import String ZArith QArith List Bool.
Import ListNotations Http.Http.
Local Open Scope string_scope.

Module Timeout.

(** What [future.result(timeout)] sees of the submitted call. *)
Inductive FutureResult :=
| FDone (r : Response)          (** the view returned [r] in time *)
| FRaised (msg : string)        (** the view raised; [msg] is [str(e)] *)
| FTimedOut.                    (** [TimeoutError()], whose [str] is empty *)

(** [wrapper]: the view's answer, or the 504 of the [except] clause. *)
Definition timeout_wrapper (res : FutureResult) : Response :=
  let fail details :=
    RJson 504 (JObj [("error", JStr "Request timeout or processing error");
                     ("details", JStr details)]) in
  match res with
  | FDone r => r
  | FRaised msg => fail msg
  | FTimedOut => fail ""
  end.

(** A call submitted to [executor]: seconds waiting for a free worker of
    the [MAX_WORKERS], seconds running, and how it ends. *)
Record PoolRun := mkPoolRun {
  pr_wait : Q;
  pr_run : Q;
  pr_end : string + Response
}.

(** [future.result(timeout=timeout_seconds)]: the wait starts at
    submission, so queueing counts against the timeout. *)
Definition future_result (timeout : Q) (run : PoolRun) : FutureResult :=
  if Qle_bool (pr_wait run + pr_run run) timeout then
    match pr_end run with inl msg => FRaised msg | inr r => FDone r end
  else FTimedOut.

Definition timeout_decorator (timeout : Q) (run : PoolRun) : Response :=
  timeout_wrapper (future_result timeout run).

(** Every answer of the decorated view has the shape of the spec when the
    view's own answers do. *)
Lemma timeout_decorator_wf timeout run :
  match pr_end run with inr r => well_formed_response r = true | inl _ => True end ->
  well_formed_response (timeout_decorator timeout run) = true.
Proof.
  unfold timeout_decorator, future_result.
  destruct (Qle_bool _ _), (pr_end run); intros H; (exact H || apply orb_true_r).
Qed.

(** A call that needs longer than the timeout, queueing included, is
    answered 504 with empty details, whatever it would have answered. *)
Lemma timeout_decorator_late timeout run :
  Qle_bool (pr_wait run + pr_run run) timeout = false ->
  timeout_decorator timeout run =
  RJson 504 (JObj [("error", JStr "Request timeout or processing error"); ("details", JStr "")]).
Proof. intros H. unfold timeout_decorator, future_result. now rewrite H. Qed.

End Timeout.
