(* ===== verification/Config.v ===== *)
(** * Configuration ([class Config], src/fskhttp.py lines 17-39)

    The settings are read once from the environment.  [Config] is the
    record of resolved values; [default_config] is the value with no
    variable set, as a function of [os.cpu_count()]. *)

From S2P Require Import Prelude.
From Stdlib Require Import String Ascii ZArith List Bool Lia.
Import ListNotations.
Local Open Scope string_scope.
Local Open Scope Z_scope.

Module Config.

Record Config := mkConfig {
  HOST : string;
  PORT : Z;
  DEBUG : bool;
  MAX_WORKERS : Z;
  MAX_CONCURRENT_REQUESTS : Z;
  REQUEST_TIMEOUT : Z;
  GGWAVE_TO_FILE : string;
  GGWAVE_FROM_FILE : string;
  LOG_LEVEL : string;
  HEALTH_CHECK_ENABLED : bool;
  TEMP_FILE_CLEANUP_INTERVAL : Z
}.

(** [min(32, (os.cpu_count() or 1) + 4)]; [cpu_count = None] is [0]. *)
Definition default_max_workers (cpu_count : Z) : Z :=
  Z.min 32 ((if cpu_count =? 0 then 1 else cpu_count) + 4).

Definition default_config (cpu_count : Z) : Config := {|
  HOST := "0.0.0.0";
  PORT := 8080;
  DEBUG := false;
  MAX_WORKERS := default_max_workers cpu_count;
  MAX_CONCURRENT_REQUESTS := 50;
  REQUEST_TIMEOUT := 30;
  GGWAVE_TO_FILE := "/ggwave/build/bin/ggwave-to-file";
  GGWAVE_FROM_FILE := "/ggwave/build/bin/ggwave-from-file";
  LOG_LEVEL := "INFO";
  HEALTH_CHECK_ENABLED := true;
  TEMP_FILE_CLEANUP_INTERVAL := 300
|}.


(** ** Reading the environment *)

(** [os.getenv(k, default)] over the environment as a list of bindings. *)
Definition getenv (env : list (string * string)) (k default : string) : string :=
  match find (fun kv => String.eqb (fst kv) k) env with
  | Some (_, v) => v
  | None => default
  end.

(** The digits of a decimal literal with single underscores between digits,
    underscores removed; [after_digit] says whether the previous character
    was a digit. *)
Fixpoint int_digits (s : string) (after_digit : bool) : option string :=
  match s with
  | EmptyString => if after_digit then Some EmptyString else None
  | String c r =>
      if is_digit c then option_map (String c) (int_digits r true)
      else if Ascii.eqb c "_"%char && after_digit then int_digits r false
      else None
  end.

(** CPython's [sys.int_info.default_max_str_digits]. *)
Definition max_str_digits : nat := 4300.

Definition int_body (s : string) : option Z :=
  match int_digits s false with
  | Some ds => if (String.length ds <=? max_str_digits)%nat then Some (digits_value ds) else None
  | None => None
  end.

(** [int(s)] in base 10 on ASCII text: surrounding white space, a sign,
    digits with single underscores; [None] is [ValueError]. *)
Definition py_int_str (s : string) : option Z :=
  match py_strip s with
  | EmptyString => None
  | String c r =>
      if Ascii.eqb c "-"%char then option_map Z.opp (int_body r)
      else if Ascii.eqb c "+"%char then int_body r
      else int_body (String c r)
  end.

(** [str.lower()] and [str.upper()] on ASCII letters. *)
Definition ascii_lower (c : ascii) : ascii :=
  let n := nat_of_ascii c in
  if ((65 <=? n) && (n <=? 90))%nat then ascii_of_nat (n + 32) else c.
Definition ascii_upper (c : ascii) : ascii :=
  let n := nat_of_ascii c in
  if ((97 <=? n) && (n <=? 122))%nat then ascii_of_nat (n - 32) else c.
Fixpoint py_lower (s : string) : string :=
  match s with EmptyString => EmptyString | String c r => String (ascii_lower c) (py_lower r) end.
Fixpoint py_upper (s : string) : string :=
  match s with EmptyString => EmptyString | String c r => String (ascii_upper c) (py_upper r) end.

(** What stops the module from loading. *)
Inductive ConfigError :=
| EnvValueError (var value : string)     (** [int()] of a variable raised [ValueError] *)
| LogLevelError (value : string).        (** [getattr(logging, ...)] raised [AttributeError] *)

Definition sum_bind {A B} (m : ConfigError + A) (k : A -> ConfigError + B) : ConfigError + B :=
  match m with inl e => inl e | inr a => k a end.

Local Notation "x <-? m ;; k" := (sum_bind m (fun x => k)) (at level 100, m at next level, right associativity).

(** [int(os.getenv(k, default))] *)
Definition int_var (env : list (string * string)) (k default : string) : ConfigError + Z :=
  let v := getenv env k default in
  match py_int_str v with Some z => inr z | None => inl (EnvValueError k v) end.

(** The body of [class Config] (lines 17-39), in its order. *)
Definition config_from_env (env : list (string * string)) (cpu_count : Z) : ConfigError + Config :=
  port <-? int_var env "FLASK_PORT" "8080" ;;
  workers <-? int_var env "MAX_WORKERS" (py_str_int (default_max_workers cpu_count)) ;;
  max_conc <-? int_var env "MAX_CONCURRENT_REQUESTS" "50" ;;
  timeout <-? int_var env "REQUEST_TIMEOUT" "30" ;;
  interval <-? int_var env "TEMP_FILE_CLEANUP_INTERVAL" "300" ;;
  inr {| HOST := getenv env "FLASK_HOST" "0.0.0.0";
         PORT := port;
         DEBUG := String.eqb (py_lower (getenv env "FLASK_DEBUG" "False")) "true";
         MAX_WORKERS := workers;
         MAX_CONCURRENT_REQUESTS := max_conc;
         REQUEST_TIMEOUT := timeout;
         GGWAVE_TO_FILE := getenv env "GGWAVE_TO_FILE" "/ggwave/build/bin/ggwave-to-file";
         GGWAVE_FROM_FILE := getenv env "GGWAVE_FROM_FILE" "/ggwave/build/bin/ggwave-from-file";
         LOG_LEVEL := getenv env "LOG_LEVEL" "INFO";
         HEALTH_CHECK_ENABLED :=
           String.eqb (py_lower (getenv env "HEALTH_CHECK_ENABLED" "True")) "true";
         TEMP_FILE_CLEANUP_INTERVAL := interval |}.

(** The upper-case attributes of the [logging] module that are levels. *)
Definition logging_levels : list string :=
  ["CRITICAL"; "FATAL"; "ERROR"; "WARN"; "WARNING"; "INFO"; "DEBUG"; "NOTSET"].

(** Loading the module: [class Config], then
    [logging.basicConfig(level=getattr(logging, Config.LOG_LEVEL.upper()))]. *)
Definition startup (env : list (string * string)) (cpu_count : Z) : ConfigError + Config :=
  cfg <-? config_from_env env cpu_count ;;
  if existsb (String.eqb (py_upper (LOG_LEVEL cfg))) logging_levels then inr cfg
  else inl (LogLevelError (LOG_LEVEL cfg)).


(** ** [int()] reads back [str()] *)

Lemma int_digits_digits (s : string) (b : bool) :
  all_chars is_digit s = true -> s <> EmptyString -> int_digits s b = Some s.
Proof.
  revert b; induction s as [|c r IH]; intros b H Hne; [congruence|].
  cbn [all_chars] in H. apply andb_prop in H as [Hc Hr]. cbn [int_digits]. rewrite Hc.
  destruct r as [|d r']; [reflexivity|]. rewrite IH by (auto; discriminate). reflexivity.
Qed.

Lemma int_body_to_dec (n : nat) :
  (String.length (to_dec n) <= max_str_digits)%nat -> int_body (to_dec n) = Some (Z.of_nat n).
Proof.
  intros Hl. unfold int_body. rewrite int_digits_digits by (apply to_dec_digits || apply to_dec_nonempty).
  apply Nat.leb_le in Hl. now rewrite Hl, to_dec_value.
Qed.

Lemma to_dec_nospace (n : nat) : all_chars (fun c => negb (is_py_space c)) (to_dec n) = true.
Proof.
  apply (all_chars_impl is_digit); [|apply to_dec_digits].
  intros c Hc. now rewrite digit_not_space.
Qed.

(** [int(str(z)) == z] for every [z] of at most 4300 digits. *)
Lemma py_int_str_py_str_int (z : Z) :
  (String.length (to_dec (Z.abs_nat z)) <= max_str_digits)%nat -> py_int_str (py_str_int z) = Some z.
Proof.
  intros Hl. unfold py_str_int, py_int_str. destruct (Z.ltb_spec z 0).
  - replace (Z.to_nat (- z)) with (Z.abs_nat z) by lia.
    rewrite append_cons_str, append_nil_l_str, py_strip_nospace.
    + rewrite Ascii.eqb_refl, int_body_to_dec by exact Hl. cbn. f_equal. lia.
    + cbn [all_chars]. rewrite to_dec_nospace. reflexivity.
  - replace (Z.to_nat z) with (Z.abs_nat z) by lia.
    rewrite py_strip_nospace by apply to_dec_nospace.
    destruct (to_dec_head (Z.abs_nat z)) as (c & r & E & Hc). rewrite E.
    destruct (Ascii.eqb_spec c "-"%char) as [->|_]; [discriminate|].
    destruct (Ascii.eqb_spec c "+"%char) as [->|_]; [discriminate|].
    rewrite <- E, int_body_to_dec by exact Hl. f_equal. lia.
Qed.


(** ** Startup *)

(** The environment that sets every variable to the printed value of a
    configuration. *)
Definition config_env (cfg : Config) : list (string * string) :=
  [("FLASK_HOST", HOST cfg);
   ("FLASK_PORT", py_str_int (PORT cfg));
   ("FLASK_DEBUG", if DEBUG cfg then "true" else "false");
   ("MAX_WORKERS", py_str_int (MAX_WORKERS cfg));
   ("MAX_CONCURRENT_REQUESTS", py_str_int (MAX_CONCURRENT_REQUESTS cfg));
   ("REQUEST_TIMEOUT", py_str_int (REQUEST_TIMEOUT cfg));
   ("GGWAVE_TO_FILE", GGWAVE_TO_FILE cfg);
   ("GGWAVE_FROM_FILE", GGWAVE_FROM_FILE cfg);
   ("LOG_LEVEL", LOG_LEVEL cfg);
   ("HEALTH_CHECK_ENABLED", if HEALTH_CHECK_ENABLED cfg then "True" else "False");
   ("TEMP_FILE_CLEANUP_INTERVAL", py_str_int (TEMP_FILE_CLEANUP_INTERVAL cfg))].

(** An integer CPython prints and reads back under the digit limit. *)
Definition int_fits (z : Z) : Prop := (String.length (to_dec (Z.abs_nat z)) <= max_str_digits)%nat.

Lemma default_max_workers_range (cpu_count : Z) :
  0 <= cpu_count -> 5 <= default_max_workers cpu_count <= 32.
Proof. intros H. unfold default_max_workers. destruct (Z.eqb_spec cpu_count 0); lia. Qed.

Lemma int_fits_small (z : Z) : 0 <= z <= 4000 -> int_fits z.
Proof.
  intros H. unfold int_fits, max_str_digits.
  pose proof (to_dec_length_le (Z.abs_nat z)). lia.
Qed.

(** With no variable set, loading the module gives [default_config]:
    port 8080, 50 concurrent requests, a 30 s timeout, 300 s between
    sweeps, and [min(32, cpu_count + 4)] workers. *)
Theorem startup_defaults (cpu_count : Z) :
  0 <= cpu_count -> startup [] cpu_count = inr (default_config cpu_count).
Proof.
  intros Hc. unfold startup, config_from_env, int_var, getenv. cbn [find].
  rewrite py_int_str_py_str_int by
    (apply int_fits_small; pose proof (default_max_workers_range cpu_count Hc); lia).
  vm_compute. reflexivity.
Qed.

(** C38. Printing a configuration into the environment and loading the
    module reads it back, when its integers have at most 4300 digits and
    its log level names a [logging] level. *)
Theorem config_env_roundtrip (cfg : Config) (cpu_count : Z) :
  int_fits (PORT cfg) -> int_fits (MAX_WORKERS cfg) -> int_fits (MAX_CONCURRENT_REQUESTS cfg) ->
  int_fits (REQUEST_TIMEOUT cfg) -> int_fits (TEMP_FILE_CLEANUP_INTERVAL cfg) ->
  existsb (String.eqb (py_upper (LOG_LEVEL cfg))) logging_levels = true ->
  startup (config_env cfg) cpu_count = inr cfg.
Proof.
  intros H1 H2 H3 H4 H5 Hl. unfold startup, config_from_env, int_var, getenv, config_env.
  cbn [find fst snd String.eqb Ascii.eqb Bool.eqb].
  rewrite !py_int_str_py_str_int by assumption. cbn [sum_bind LOG_LEVEL]. rewrite Hl.
  destruct cfg as [h p d w m t tf ff l he i]; cbn.
  destruct d, he; reflexivity.
Qed.


(** ** Witnesses *)

Lemma startup_defaults_witness : startup [] 8 = inr (default_config 8).
Proof. apply startup_defaults. lia. Defined.

Lemma config_env_roundtrip_witness :
  startup (config_env (default_config 4)) 2 = inr (default_config 4).
Proof.
  apply config_env_roundtrip; try (unfold int_fits; apply Nat.leb_le); vm_compute; reflexivity.
Defined.

End Config.
