(* ===== verification/Admission.v ===== *)
(** * The admission controller ([rate_limit_decorator], src/fskhttp.py lines 99-120)

    The decorator creates one [threading.Semaphore(max_concurrent)] per
    decorated route and wraps the route: a non-blocking [acquire] that fails
    answers 503 at once; otherwise [increment_total], the handler, and a
    [release] in [finally].  The semaphore is an interface
    ([NonBlockingSemaphore] with its laws); [PySemaphore] is CPython's
    [threading.Semaphore] and discharges the laws. *)

From S2P Require Import Prelude Metrics Http.
From Stdlib Require Import String ZArith List Lia.
Import ListNotations Metrics.Metrics Http.Http.
Local Open Scope string_scope.
Local Open Scope Z_scope.

Module Admission.

(** ** The interface: what the decorator uses of a semaphore *)

Class NonBlockingSemaphore (S : Type) := {
  sem_try_acquire : S -> option S;    (** [acquire(blocking=False)]: [None] is [False] *)
  sem_release : S -> S;
  sem_value : S -> Z                  (** the number of free permits *)
}.

Class SemaphoreLaws (S : Type) `{NonBlockingSemaphore S} := {
  sem_acquire_some : forall s s', 0 <= sem_value s -> sem_try_acquire s = Some s' ->
    0 < sem_value s /\ sem_value s' = sem_value s - 1;
  sem_acquire_none : forall s, sem_try_acquire s = None -> sem_value s = 0;
  sem_acquire_free : forall s, 0 < sem_value s -> exists s', sem_try_acquire s = Some s';
  sem_release_value : forall s, sem_value (sem_release s) = sem_value s + 1
}.

(** ** CPython's [threading.Semaphore] *)

Record PySemaphore := mkPySemaphore { sem_counter : Z }.

(** [threading.Semaphore(value)]: [ValueError] when [value < 0]. *)
Definition py_semaphore_new (value : Z) : option PySemaphore :=
  if value <? 0 then None else Some (mkPySemaphore value).

(** [acquire(blocking=False)]: the [while self._value == 0] loop breaks at
    once when not blocking; otherwise the counter is decremented. *)
Definition py_semaphore_acquire_nb (s : PySemaphore) : option PySemaphore :=
  if sem_counter s =? 0 then None else Some (mkPySemaphore (sem_counter s - 1)).

(** [release()]: increments the counter, with no upper bound. *)
Definition py_semaphore_release (s : PySemaphore) : PySemaphore :=
  mkPySemaphore (sem_counter s + 1).

#[export] Instance py_semaphore_ops : NonBlockingSemaphore PySemaphore := {
  sem_try_acquire := py_semaphore_acquire_nb;
  sem_release := py_semaphore_release;
  sem_value := sem_counter
}.

#[export] Instance py_semaphore_laws : SemaphoreLaws PySemaphore.
Proof.
  split; cbn; unfold py_semaphore_acquire_nb, py_semaphore_release.
  - intros [c] s' Hc; cbn in *. destruct (Z.eqb_spec c 0); [discriminate|].
    intros E; injection E as <-; cbn; lia.
  - intros [c]; cbn. destruct (Z.eqb_spec c 0); [auto | discriminate].
  - intros [c] Hc; cbn in *. destruct (Z.eqb_spec c 0); [lia | eauto].
  - reflexivity.
Qed.

(** ** The decorator *)

(** The 503 body of a rejected request. *)
Definition overload_response (active : Z) : Response :=
  RJson 503 (JObj [("error", JStr "Service temporarily overloaded");
                   ("retry_after_seconds", JInt 5);
                   ("active_requests", JInt active)]).

Section Wrapper.
Context {S : Type} `{NonBlockingSemaphore S}.

(** The state the wrapped handler runs on and the registry inside it. *)
Context {W : Type} (metrics_of : W -> Metrics) (with_metrics : Metrics -> W -> W).

(** [wrapper] run without interleaving: the handler [f] catches
    every exception itself, so it always returns a response. *)
Definition rate_limit_wrapper (f : W -> Response * W) (s : S) (w : W) : Response * S * W :=
  match sem_try_acquire s with
  | None => (overload_response (active_requests (metrics_of w)), s, w)
  | Some s1 =>
      let w1 := with_metrics (increment_total (metrics_of w)) w in
      let (r, w2) := f w1 in
      (r, sem_release s1, w2)
  end.

Context `{!SemaphoreLaws S}.

(** C23. A rejected request leaves the semaphore and the state as they were and
    answers 503 with the retry hint of 5 seconds and the active count. *)
Theorem wrapper_rejects_when_exhausted (f : W -> Response * W) (s : S) (w : W) :
  sem_value s = 0 ->
  rate_limit_wrapper f s w = (overload_response (active_requests (metrics_of w)), s, w).
Proof.
  intros H0. unfold rate_limit_wrapper.
  destruct (sem_try_acquire s) as [s1|] eqn:E; [|reflexivity].
  apply sem_acquire_some in E; lia.
Qed.

(** C24. An admitted request runs the handler on the state with the request
    counted, and the permit it took is given back: the semaphore ends with
    the value it started with. *)
Theorem wrapper_admits_and_releases (f : W -> Response * W) (s : S) (w : W) :
  0 < sem_value s ->
  exists s', sem_value s' = sem_value s
    /\ rate_limit_wrapper f s w =
       (fst (f (with_metrics (increment_total (metrics_of w)) w)), s',
        snd (f (with_metrics (increment_total (metrics_of w)) w))).
Proof.
  intros Hpos. unfold rate_limit_wrapper.
  destruct (sem_acquire_free s Hpos) as [s1 E]. rewrite E.
  apply sem_acquire_some in E as [_ E]; [|lia].
  destruct (f _) as [r w2]. exists (sem_release s1). split; [|reflexivity].
  rewrite sem_release_value. lia.
Qed.

End Wrapper.


(** ** Witnesses *)

Definition demo_handler (m : Metrics) : Response * Metrics := (error_response 200 "ok", m).

Lemma wrapper_rejects_when_exhausted_witness :
  rate_limit_wrapper (fun m => m) (fun m _ => m) demo_handler (mkPySemaphore 0) (init 0)
  = (overload_response (active_requests (init 0)), mkPySemaphore 0, init 0).
Proof. exact (wrapper_rejects_when_exhausted (fun m => m) (fun m _ => m) demo_handler (mkPySemaphore 0) (init 0) eq_refl). Defined.

Lemma wrapper_admits_and_releases_witness :
  exists s', sem_value s' = sem_value (mkPySemaphore 1)
    /\ rate_limit_wrapper (fun m => m) (fun m _ => m) demo_handler (mkPySemaphore 1) (init 0) =
       (fst (demo_handler (increment_total (init 0))), s',
        snd (demo_handler (increment_total (init 0)))).
Proof.
  exact (wrapper_admits_and_releases (fun m => m) (fun m _ => m) demo_handler (mkPySemaphore 1)
           (init 0) eq_refl).
Defined.

End Admission.
