(* ===== verification/Runtime.v ===== *)
(** * The process runner and the request's world (the calls of
    [subprocess.run], [tempfile.NamedTemporaryFile], [os.path], [os.unlink]
    and [send_file] made by the handlers of src/fskhttp.py)

    A handler runs in [PyM]: a state monad over [HState] with Python
    exceptions.  The state holds the file system as a [gmap] from paths to
    contents, the metrics registry with the log of the calls made on it, the
    log of launched processes and the handler's temp-file variable.  The
    external binaries are one function [External] from an invocation and the
    file system to an outcome and the file system after the child exits. *)

From S2P Require Import Prelude Metrics Http.
From Stdlib Require Import String ZArith List.
From stdpp Require Import base gmap strings.
Import Metrics.Metrics Http.Http.
Local Open Scope string_scope.
Local Open Scope Z_scope.

Module Runtime.

(** The exceptions the handlers tell apart. *)
Inductive PyExc :=
| ETimeoutExpired                  (** [subprocess.TimeoutExpired] *)
| EOther (msg : string).           (** any other [Exception], by its [str] *)

(** One [subprocess.run(cmd, input=..., capture_output=True, text=..., timeout=...)]. *)
Record Invocation := mkInvocation {
  inv_cmd : list string;
  inv_input : option string;
  inv_text : bool;
  inv_timeout : Z
}.

Inductive RunOutcome :=
| Completed (returncode : Z) (stdout stderr : string)
| TimedOut                          (** the child was killed at the timeout *)
| LaunchFailed (msg : string).      (** [OSError] from [Popen] *)

Definition External : Type :=
  Invocation -> gmap string string -> RunOutcome * gmap string string.

Record HState := mkHState {
  hs_fs : gmap string string;
  hs_metrics : Metrics;
  hs_mlog : list MetricOp;
  hs_launched : list Invocation;
  hs_tmp : option string
}.

Definition PyM (A : Type) : Type := HState -> (PyExc + A) * HState.

Definition ret {A} (a : A) : PyM A := fun st => (inr a, st).
Definition raise {A} (e : PyExc) : PyM A := fun st => (inl e, st).
Definition bind {A B} (m : PyM A) (k : A -> PyM B) : PyM B :=
  fun st => match m st with
            | (inl e, st') => (inl e, st')
            | (inr a, st') => k a st'
            end.

Declare Scope pym_scope.
Delimit Scope pym_scope with pym.
Notation "x <- m ;; k" := (bind m (fun x => k))
  (at level 100, m at next level, right associativity) : pym_scope.
Notation "m ;; k" := (bind m (fun _ => k))
  (at level 100, right associativity) : pym_scope.
Local Open Scope pym_scope.

(** [try: m except TimeoutExpired: .. except Exception: ..], with one
    handler for both clauses. *)
Definition try_except {A} (m : PyM A) (h : PyExc -> PyM A) : PyM A :=
  fun st => match m st with
            | (inl e, st') => h e st'
            | (inr a, st') => (inr a, st')
            end.

(** [try: m finally: fin]: [fin] runs on every exit; an exception it raises
    replaces the outcome of [m]. *)
Definition try_finally {A} (m : PyM A) (fin : PyM unit) : PyM A :=
  fun st => match m st with
            | (r, st') =>
                match fin st' with
                | (inl e, st'') => (inl e, st'')
                | (inr _, st'') => (r, st'')
                end
            end.

Definition modify (f : HState -> HState) : PyM unit := fun st => (inr tt, f st).
Definition gets {A} (f : HState -> A) : PyM A := fun st => (inr (f st), st).

Definition set_fs (fs : gmap string string) (st : HState) : HState :=
  mkHState fs (hs_metrics st) (hs_mlog st) (hs_launched st) (hs_tmp st).
Definition set_tmp (p : option string) (st : HState) : HState :=
  mkHState (hs_fs st) (hs_metrics st) (hs_mlog st) (hs_launched st) p.

(** [metrics.decrement_active(success, request_type)], logged. *)
Definition m_decrement_active (success : bool) (request_type : string) : PyM unit :=
  modify (fun st => mkHState (hs_fs st)
            (decrement_active success request_type (hs_metrics st))
            (hs_mlog st ++ [DecActive success request_type])%list
            (hs_launched st) (hs_tmp st)).

Section WithExternal.
Variable ggwave : External.

(** [subprocess.run]: the launch is logged; a timeout raises
    [TimeoutExpired], a failed launch raises [OSError]. *)
Definition run_process (inv : Invocation) : PyM (Z * string * string) :=
  fun st =>
    let st1 := mkHState (hs_fs st) (hs_metrics st) (hs_mlog st)
                 (hs_launched st ++ [inv])%list (hs_tmp st) in
    match ggwave inv (hs_fs st1) with
    | (Completed rc out err, fs') => (inr (rc, out, err), set_fs fs' st1)
    | (TimedOut, fs') => (inl ETimeoutExpired, set_fs fs' st1)
    | (LaunchFailed msg, fs') => (inl (EOther msg), set_fs fs' st1)
    end.

End WithExternal.

(** [tempfile.NamedTemporaryFile(suffix=".wav", delete=False)]: [mkstemp]
    tries the random names [tmpXXXXXXXX.wav] of the temp directory in turn
    and creates the first free one, empty; when every name is taken it
    raises [FileExistsError]. *)
Definition temp_dir : string := "/tmp".

Definition temp_path (rand : string) : string := temp_dir ++ "/tmp" ++ rand ++ ".wav".

Fixpoint mkstemp (cands : list string) : PyM string :=
  match cands with
  | [] => raise (EOther "No usable temporary file name found")
  | r :: rs =>
      fun st =>
        let p := temp_path r in
        match hs_fs st !! p with
        | Some _ => mkstemp rs st
        | None => (inr p, set_fs (<[p := EmptyString]> (hs_fs st)) st)
        end
  end.

(** [os.path.exists(p) and os.path.getsize(p) > 0] *)
Definition exists_nonempty (p : string) : PyM bool :=
  gets (fun st => match hs_fs st !! p with
                  | Some c => negb (String.eqb c EmptyString)
                  | None => false
                  end).

(** [open(p, 'wb').write(c)] *)
Definition write_file (p c : string) : PyM unit :=
  modify (fun st => set_fs (<[p := c]> (hs_fs st)) st).

(** [send_file(p, mimetype='audio/wav', as_attachment=True,
    download_name='encoded.wav')]: opens the file at once; [fails] is an
    [open] that raises (for instance when the process is out of file
    descriptors). *)
Definition send_file (fails : bool) (p : string) : PyM Response :=
  fun st =>
    match hs_fs st !! p with
    | Some c => if fails then (inl (EOther "OSError"), st)
                else (inr (RFile "audio/wav" "encoded.wav" c), st)
    | None => (inl (EOther "FileNotFoundError"), st)
    end.

(** The [finally] block of both handlers: [if f and os.path.exists(f)],
    [os.unlink(f)]; a failed unlink is logged and swallowed. *)
Definition cleanup_temp (unlink_fails : bool) : PyM unit :=
  fun st =>
    match hs_tmp st with
    | None => (inr tt, st)
    | Some p =>
        match hs_fs st !! p with
        | None => (inr tt, st)
        | Some _ => if unlink_fails then (inr tt, st)
                    else (inr tt, set_fs (delete p (hs_fs st)) st)
        end
    end.


(** ** Triples over [PyM]

    [triple P m Q X]: from a state satisfying [P], [m] ends in a state
    satisfying [Q a] when it returns [a], and [X] when it raises. *)
Definition triple {A} (P : HState -> Prop) (m : PyM A) (Q : A -> HState -> Prop)
    (X : HState -> Prop) : Prop :=
  forall st, P st -> match m st with
                     | (inr a, st') => Q a st'
                     | (inl _, st') => X st'
                     end.

Section Triples.
Context {A B : Type}.

Lemma triple_ret (P : HState -> Prop) (a : A) (Q : A -> HState -> Prop) X :
  (forall st, P st -> Q a st) -> triple P (ret a) Q X.
Proof. intros H st Hp. exact (H st Hp). Qed.

Lemma triple_raise (P : HState -> Prop) e (Q : A -> HState -> Prop) (X : HState -> Prop) :
  (forall st, P st -> X st) -> triple P (raise e) Q X.
Proof. intros H st Hp. exact (H st Hp). Qed.

Lemma triple_bind P (m : PyM A) (k : A -> PyM B) R Q X :
  triple P m R X -> (forall a, triple (R a) (k a) Q X) -> triple P (bind m k) Q X.
Proof.
  intros Hm Hk st Hp. unfold bind. specialize (Hm st Hp).
  destruct (m st) as [[e|a] st']; [exact Hm | exact (Hk a st' Hm)].
Qed.

Lemma triple_conseq P P' (m : PyM A) (Q Q' : A -> HState -> Prop) (X X' : HState -> Prop) :
  triple P' m Q' X' -> (forall st, P st -> P' st) ->
  (forall a st, Q' a st -> Q a st) -> (forall st, X' st -> X st) -> triple P m Q X.
Proof.
  intros Hm HP HQ HX st Hp. specialize (Hm st (HP st Hp)).
  destruct (m st) as [[e|a] st']; auto.
Qed.

Lemma triple_try_except P (m : PyM A) (h : PyExc -> PyM A) Q Y X :
  triple P m Q Y -> (forall e, triple Y (h e) Q X) -> triple P (try_except m h) Q X.
Proof.
  intros Hm Hh st Hp. unfold try_except. specialize (Hm st Hp).
  destruct (m st) as [[e|a] st']; [exact (Hh e st' Hm) | exact Hm].
Qed.

Lemma triple_try_finally P (m : PyM A) (fin : PyM unit) (M F : HState -> Prop) :
  triple P m (fun _ => M) M -> triple M fin (fun _ => F) F ->
  triple P (try_finally m fin) (fun _ => F) F.
Proof.
  intros Hm Hf st Hp. unfold try_finally. specialize (Hm st Hp).
  destruct (m st) as [r st'].
  assert (HM : M st') by (destruct r; exact Hm).
  specialize (Hf st' HM). destruct (fin st') as [[e|u] st'']; [exact Hf|].
  destruct r; exact Hf.
Qed.

(** A step that does not raise and keeps an invariant. *)
Lemma triple_modify (P : HState -> Prop) (f : HState -> HState) X :
  (forall st, P st -> P (f st)) -> triple P (modify f) (fun _ => P) X.
Proof. intros H st Hp. exact (H st Hp). Qed.

End Triples.

Ltac triple_seq := repeat (apply triple_bind with (R := fun _ => _); [|intros ?]).

(** ** What the external binaries may touch *)

(** An argument names a file: [-f<path>] names [path]. *)
Definition arg_path (a : string) : string :=
  if String.prefix "-f" a then str_drop 2 a else a.

Definition inv_paths (inv : Invocation) : list string :=
  map arg_path (tl (inv_cmd inv)).

(** Two file systems that agree everywhere but at [p]. *)
Definition agree_except (p : string) (fs1 fs2 : gmap string string) : Prop :=
  forall k, k <> p -> fs1 !! k = fs2 !! k.

(** The binaries write only the files their arguments name. *)
Definition confined (g : External) : Prop :=
  forall inv fs p, inv_paths inv ⊆ [p] -> agree_except p (snd (g inv fs)) fs.

#[export] Instance agree_except_equiv (p : string) : Equivalence (agree_except p).
Proof.
  split.
  - intros fs k _. reflexivity.
  - intros fs1 fs2 H k Hk. symmetry. exact (H k Hk).
  - intros fs1 fs2 fs3 H1 H2 k Hk. rewrite (H1 k Hk). exact (H2 k Hk).
Qed.

Lemma agree_except_insert (p c : string) (fs : gmap string string) :
  agree_except p (<[p := c]> fs) fs.
Proof. intros k Hk. apply lookup_insert_ne. congruence. Qed.

Lemma agree_except_delete (p : string) (fs : gmap string string) :
  agree_except p (delete p fs) fs.
Proof. intros k Hk. apply lookup_delete_ne. congruence. Qed.

(** Agreeing but at [p], and both absent at [p]: equal. *)
Lemma agree_except_eq (p : string) (fs1 fs2 : gmap string string) :
  agree_except p fs1 fs2 -> fs1 !! p = None -> fs2 !! p = None -> fs1 = fs2.
Proof.
  intros H H1 H2. apply map_eq. intros k.
  destruct (decide (k = p)) as [->|Hk]; [congruence | exact (H k Hk)].
Qed.

#[export] Hint Resolve agree_except_insert agree_except_delete : fsk.

End Runtime.
