(* ===== verification/Handlers.v ===== *)
(** * The request handlers [encode] and [decode] (src/fskhttp.py lines 221-384)

    Each handler is its [try] block, its [except] clauses and its
    [finally] block composed in [PyM], with the request's inputs (the JSON
    or form body, the uploaded file, the names [mkstemp] draws, the
    failures of [send_file] and [os.unlink], the elapsed time) as a record
    and the external binaries as a section variable.  The lemmas follow
    each handler along its paths: the files it leaves, the registry calls
    it makes, its answers, and the processes it starts. *)

From S2P Require Import Prelude Metrics Parser Http Config Runtime.
From Stdlib Require Import String ZArith List.
From stdpp Require Import base gmap strings.
Import Metrics.Metrics Parser.Parser Http.Http Config.Config Runtime.Runtime.
Local Open Scope string_scope.
Local Open Scope Z_scope.
Local Open Scope pym_scope.
Local Set Warnings "-register-all".

Module Handlers.

(** ** Request bodies *)

(** A value decoded from a JSON body. *)
Inductive PyVal :=
| PNone
| PBool (b : bool)
| PInt (z : Z)
| PStr (s : string)
| PList (l : list PyVal)
| PDict (d : list (string * PyVal)).

(** Python truth value. *)
Definition py_truthy (v : PyVal) : bool :=
  match v with
  | PNone => false
  | PBool b => b
  | PInt z => negb (z =? 0)
  | PStr s => negb (String.eqb s EmptyString)
  | PList l => match l with [] => false | _ => true end
  | PDict d => match d with [] => false | _ => true end
  end.

Definition py_truthy_opt (o : option PyVal) : bool :=
  match o with Some v => py_truthy v | None => false end.

(** [d.get(k)] on a decoded JSON object: the last binding wins. *)
Definition dict_get (k : string) (d : list (string * PyVal)) : option PyVal :=
  fold_left (fun acc kv => if String.eqb (fst kv) k then Some (snd kv) else acc) d None.

(** [request.form.get(k)]: the first value. *)
Definition form_get (k : string) (form : list (string * string)) : option string :=
  match find (fun kv => String.eqb (fst kv) k) form with
  | Some (_, v) => Some v
  | None => None
  end.

(** [request.get_json()]: a value, [None], or a raised error (malformed
    JSON, or a body that is not JSON under Werkzeug 2.3 and later). *)
Inductive GetJson :=
| JsonValue (v : PyVal)
| JsonNone
| JsonRaises (msg : string).

Record EncodeRequest := mkEncodeRequest {
  enc_json : GetJson;
  enc_form : list (string * string);
  enc_tmp_names : list string;
  enc_send_fails : bool;
  enc_unlink_fails : bool
}.

Record DecodeRequest := mkDecodeRequest {
  dec_file : option (string * string);   (** [request.files['file']]: filename, bytes *)
  dec_tmp_names : list string;
  dec_unlink_fails : bool;
  dec_elapsed_ms : Z;                     (** [round(time.time() - start_time, 3)] *)
  dec_thread : string                     (** [threading.current_thread().name] *)
}.

(** [data = request.get_json() or request.form]; [text = data.get('text')] *)
Definition request_text (req : EncodeRequest) : PyExc + option PyVal :=
  let from_form := inr (option_map PStr (form_get "text" (enc_form req))) in
  match enc_json req with
  | JsonRaises msg => inl (EOther msg)
  | JsonNone => from_form
  | JsonValue v =>
      if py_truthy v then
        match v with
        | PDict d => inr (dict_get "text" d)
        | _ => inl (EOther "AttributeError")
        end
      else from_form
  end.

Definition get_text (req : EncodeRequest) : PyM (option PyVal) :=
  fun st => (request_text req, st).

(** [len(text)] in the log line. *)
Definition py_len_check (v : PyVal) : PyM unit :=
  match v with
  | PStr _ | PList _ | PDict _ => ret tt
  | _ => raise (EOther "TypeError")
  end.

(** [(text + "\n").encode('utf-8')] *)
Definition stdin_payload (v : PyVal) : PyM string :=
  match v with
  | PStr s => ret (s ++ nl)
  | _ => raise (EOther "TypeError")
  end.

Section Handlers.
Variable ggwave : External.
Variable cfg : Config.

(** ** [encode] *)

(** The fallback: [ggwave-to-file] writing the WAV to standard output. *)
Definition encode_fallback (req : EncodeRequest) (v : PyVal) (p : string) : PyM Response :=
  input <- stdin_payload v ;;
  r <- run_process ggwave (mkInvocation [GGWAVE_TO_FILE cfg] (Some input) false
                             (REQUEST_TIMEOUT cfg)) ;;
  let '(_, out, _) := r in
  if negb (String.eqb out EmptyString) && py_startswith out "RIFF" then
    write_file p out ;;
    m_decrement_active true "encode" ;;
    send_file (enc_send_fails req) p
  else
    m_decrement_active false "encode" ;;
    ret (error_response 500 "Failed to encode text to audio").

Definition encode_try (req : EncodeRequest) : PyM Response :=
  text <- get_text req ;;
  if negb (py_truthy_opt text) then
    m_decrement_active false "encode" ;;
    ret (error_response 400 "No text provided")
  else
    let v := match text with Some v => v | None => PNone end in
    py_len_check v ;;
    p <- mkstemp (enc_tmp_names req) ;;
    modify (set_tmp (Some p)) ;;
    input <- stdin_payload v ;;
    _ <- run_process ggwave (mkInvocation [GGWAVE_TO_FILE cfg; "-f" ++ p] (Some input) false
                               (REQUEST_TIMEOUT cfg)) ;;
    ok <- exists_nonempty p ;;
    if ok then
      m_decrement_active true "encode" ;;
      send_file (enc_send_fails req) p
    else encode_fallback req v p.

Definition encode_except (e : PyExc) : PyM Response :=
  match e with
  | ETimeoutExpired =>
      m_decrement_active false "encode" ;;
      ret (error_response 504 "Encoding process timed out")
  | EOther msg =>
      m_decrement_active false "encode" ;;
      ret (error_response 500 ("Unexpected error: " ++ msg))
  end.

Definition encode (req : EncodeRequest) : PyM Response :=
  try_finally (try_except (encode_try req) encode_except)
              (cleanup_temp (enc_unlink_fails req)).

(** ** [decode] *)

(** [str(e)] of the conversion error, after the parser's prefix. *)
Definition parse_error_message (e : ParseError) : string :=
  match e with
  | IntLimitExceeded n =>
      "Failed to parse output: Exceeds the limit (4300 digits) for integer string conversion: value has "
      ++ to_dec n ++ " digits; use sys.set_int_max_str_digits() to increase the limit"
  end.

Definition audio_info_json (ai : AudioInfo) : Json :=
  let opt k o := match o with Some z => [(k, JInt z)] | None => [] end in
  JObj (opt "channels" (channels ai) ++ opt "sample_rate" (sample_rate ai)
        ++ opt "bps" (bps ai) ++ opt "total_samples" (total_samples ai))%list.

(** [jsonify(parsed_result)] once [processing_time_seconds] is added. *)
Definition parse_result_json (r : ParseResult) (thread : string) (ms : Z) : Json :=
  JObj [("success", JBool (success r));
        ("audio_info", audio_info_json (audio_info r));
        ("decoded_text", JStr (decoded_text r));
        ("message_length", JInt (Z.of_nat (message_length r)));
        ("processing_thread", JStr thread);
        ("processing_time_seconds", JMillis ms)].

Definition decode_try (req : DecodeRequest) : PyM Response :=
  match dec_file req with
  | None =>
      m_decrement_active false "decode" ;;
      ret (error_response 400 "No file provided")
  | Some (filename, content) =>
      if negb (py_endswith filename ".wav") then
        m_decrement_active false "decode" ;;
        ret (error_response 400 "File must be a WAV file")
      else
        p <- mkstemp (dec_tmp_names req) ;;
        modify (set_tmp (Some p)) ;;
        write_file p content ;;
        r <- run_process ggwave (mkInvocation [GGWAVE_FROM_FILE cfg; p] None true
                                   (REQUEST_TIMEOUT cfg)) ;;
        let '(rc, out, err) := r in
        let raw := py_strip out in
        if rc =? 0 then
          let parsed := parse_ggwave_output raw in
          if success parsed then
            m_decrement_active true "decode" ;;
            ret (RJson 200 (parse_result_json parsed (dec_thread req) (dec_elapsed_ms req)))
          else
            m_decrement_active false "decode" ;;
            ret (RJson 500 (JObj [("error", JStr "Failed to parse decode output");
                                  ("details", JStr (match error parsed with
                                                    | Some e => parse_error_message e
                                                    | None => "Unknown parsing error"
                                                    end));
                                  ("processing_time_seconds", JMillis (dec_elapsed_ms req))]))
        else
          m_decrement_active false "decode" ;;
          ret (RJson 500 (JObj [("error", JStr "Failed to decode audio");
                                ("stderr", JStr err); ("stdout", JStr raw)]))
  end.

Definition decode_except (e : PyExc) : PyM Response :=
  match e with
  | ETimeoutExpired =>
      m_decrement_active false "decode" ;;
      ret (error_response 504 "Decoding process timed out")
  | EOther msg =>
      m_decrement_active false "decode" ;;
      ret (error_response 500 ("Unexpected error: " ++ msg))
  end.

Definition decode (req : DecodeRequest) : PyM Response :=
  try_finally (try_except (decode_try req) decode_except)
              (cleanup_temp (dec_unlink_fails req)).

End Handlers.


(** ** Primitive steps as triples *)

(** Steps that leave the state as it is. *)
Lemma triple_pure {A} (P X : HState -> Prop) (m : PyM A) :
  (forall st, P st -> X st) -> (forall st, snd (m st) = st) -> triple P m (fun _ => P) X.
Proof.
  intros HX Hm st Hp. specialize (Hm st). destruct (m st) as [[e|a] st']; simpl in Hm;
    subst; auto.
Qed.

Lemma get_text_pure req st : snd (get_text req st) = st.
Proof. reflexivity. Qed.
Lemma py_len_check_pure v st : snd (py_len_check v st) = st.
Proof. destruct v; reflexivity. Qed.
Lemma stdin_payload_pure v st : snd (stdin_payload v st) = st.
Proof. destruct v; reflexivity. Qed.
Lemma exists_nonempty_pure p st : snd (exists_nonempty p st) = st.
Proof. reflexivity. Qed.
Lemma send_file_pure b p st : snd (send_file b p st) = st.
Proof. unfold send_file. destruct (hs_fs st !! p); [destruct b|]; reflexivity. Qed.
Lemma ret_pure {A} (a : A) st : snd (ret a st) = st.
Proof. reflexivity. Qed.

#[export] Hint Resolve get_text_pure py_len_check_pure stdin_payload_pure exists_nonempty_pure
  send_file_pure ret_pure : fsk.

(** A predicate of the file system and the temp variable only. *)
Definition fs_tmp_only (P : HState -> Prop) : Prop :=
  forall st, P st -> forall m l la, P (mkHState (hs_fs st) m l la (hs_tmp st)).

Lemma triple_decrement (P X : HState -> Prop) b t :
  fs_tmp_only P -> triple P (m_decrement_active b t) (fun _ => P) X.
Proof. intros HP st Hp. apply HP, Hp. Qed.

Lemma temp_path_arg (r : string) : arg_path (temp_path r) = temp_path r.
Proof. reflexivity. Qed.

Lemma inv_paths_to_file (cmd p : string) i t to :
  inv_paths (mkInvocation [cmd; "-f" ++ p] i t to) = [p].
Proof.
  unfold inv_paths; cbn [map tl inv_cmd]. unfold arg_path. rewrite prefix_append.
  exact (f_equal (fun x => [x]) (str_drop_app "-f" p)).
Qed.

Section Artifacts.
Variable ggwave : External.
Hypothesis ggwave_confined : confined ggwave.
Variable cfg : Config.
Variable fs0 : gmap string string.

(** Before the temp file: the file system of the request's start. *)
Definition before_tmp (st : HState) : Prop := hs_tmp st = None /\ hs_fs st = fs0.

(** After it: a path that was free, and nothing changed elsewhere. *)
Definition with_tmp (p : string) (st : HState) : Prop :=
  fs0 !! p = None /\ hs_tmp st = Some p /\ agree_except p (hs_fs st) fs0.

Definition art_inv (st : HState) : Prop := before_tmp st \/ exists p, with_tmp p st.

Lemma art_inv_fs_tmp : fs_tmp_only art_inv.
Proof. intros st H m l la. exact H. Qed.
Lemma with_tmp_fs_tmp p : fs_tmp_only (with_tmp p).
Proof. intros st H m l la. exact H. Qed.
Lemma before_tmp_fs_tmp : fs_tmp_only before_tmp.
Proof. intros st H m l la. exact H. Qed.
Lemma before_art st : before_tmp st -> art_inv st.
Proof. now left. Qed.
Lemma with_art p st : with_tmp p st -> art_inv st.
Proof. intros H; right; eauto. Qed.

#[local] Hint Resolve art_inv_fs_tmp with_tmp_fs_tmp before_tmp_fs_tmp before_art with_art : fsk.

Lemma triple_mkstemp cands :
  triple before_tmp (mkstemp cands)
    (fun p st => (exists r, p = temp_path r) /\ fs0 !! p = None /\ hs_tmp st = None
                 /\ hs_fs st = <[p := EmptyString]> fs0)
    art_inv.
Proof.
  induction cands as [|r rs IH]; intros st Hst; simpl; [now left|].
  destruct Hst as [Ht Hf]. rewrite Hf.
  destruct (fs0 !! temp_path r) eqn:E.
  - apply IH. split; assumption.
  - simpl. eauto 7.
Qed.

Lemma triple_set_tmp (p : string) :
  triple (fun st => (exists r, p = temp_path r) /\ fs0 !! p = None /\ hs_tmp st = None
                    /\ hs_fs st = <[p := EmptyString]> fs0)
    (modify (set_tmp (Some p))) (fun _ => with_tmp p) art_inv.
Proof.
  intros st (_ & Hp & _ & Hf). simpl. split; [exact Hp|]. split; [reflexivity|].
  simpl. rewrite Hf. apply agree_except_insert.
Qed.

Lemma triple_run_process (p : string) inv :
  inv_paths inv ⊆ [p] ->
  triple (with_tmp p) (run_process ggwave inv) (fun _ => with_tmp p) art_inv.
Proof.
  intros Hpaths st (Hp & Ht & Ha). unfold run_process. simpl.
  pose proof (ggwave_confined inv (hs_fs st) p Hpaths) as Hc.
  destruct (ggwave inv (hs_fs st)) as [[rc out err| |msg] fs'] eqn:E; simpl in Hc;
    [| right; exists p | right; exists p];
    (split; [exact Hp | split; [exact Ht | etransitivity; [exact Hc | exact Ha]]]).
Qed.

Lemma triple_write_file (p c : string) :
  triple (with_tmp p) (write_file p c) (fun _ => with_tmp p) art_inv.
Proof.
  intros st (Hp & Ht & Ha). split; [exact Hp|]. split; [exact Ht|].
  simpl. etransitivity; [apply agree_except_insert | exact Ha].
Qed.

(** The [finally] block with a working [unlink] restores the file system. *)
Lemma triple_cleanup :
  triple art_inv (cleanup_temp false) (fun _ st => hs_fs st = fs0) (fun st => hs_fs st = fs0).
Proof.
  intros st [[Ht Hf] | [p (Hp & Ht & Ha)]]; unfold cleanup_temp; rewrite Ht; [exact Hf|].
  destruct (hs_fs st !! p) eqn:E; simpl.
  - apply (agree_except_eq p); [etransitivity; [apply agree_except_delete | exact Ha]
      | apply lookup_delete_eq | exact Hp].
  - exact (agree_except_eq p _ _ Ha E Hp).
Qed.

Lemma triple_pre_fact {A} (F : Prop) (P Q X : HState -> Prop) (m : PyM A) :
  (F -> triple P m (fun _ => Q) X) -> triple (fun st => F /\ P st) m (fun _ => Q) X.
Proof. intros H st [HF Hp]. exact (H HF st Hp). Qed.

Lemma triple_weaken_post {A} (P Q1 Q2 X : HState -> Prop) (m : PyM A) :
  triple P m (fun _ => Q1) X -> (forall st, Q1 st -> Q2 st) -> triple P m (fun _ => Q2) X.
Proof. intros H HQ. eapply triple_conseq; eauto. Qed.

Ltac tstep lem := eapply triple_bind; [solve [apply lem; eauto with fsk] | intros ?].

Lemma triple_encode_fallback req v p :
  triple (with_tmp p) (encode_fallback ggwave cfg req v p) (fun _ => art_inv) art_inv.
Proof.
  unfold encode_fallback.
  tstep @triple_pure.
  eapply triple_bind; [apply triple_run_process; intros x Hx; inversion Hx|].
  intros [[rc out] err].
  destruct (negb (String.eqb out EmptyString) && py_startswith out "RIFF").
  - tstep triple_write_file. tstep @triple_decrement.
    eapply triple_weaken_post; [apply triple_pure; eauto with fsk | eauto with fsk].
  - tstep @triple_decrement. apply triple_ret. eauto with fsk.
Qed.

Lemma triple_encode_try req :
  triple before_tmp (encode_try ggwave cfg req) (fun _ => art_inv) art_inv.
Proof.
  unfold encode_try.
  tstep @triple_pure. destruct (negb (py_truthy_opt _)).
  - tstep @triple_decrement. apply triple_ret. eauto with fsk.
  - tstep @triple_pure.
    eapply triple_bind; [apply triple_mkstemp|]. intros p.
    tstep triple_set_tmp. tstep @triple_pure.
    eapply triple_bind; [apply triple_run_process; rewrite inv_paths_to_file; reflexivity|].
    intros ?. tstep @triple_pure. destruct (_ : bool).
    + tstep @triple_decrement.
      eapply triple_weaken_post; [apply triple_pure; eauto with fsk | eauto with fsk].
    + apply triple_encode_fallback.
Qed.

Lemma triple_encode_except e :
  triple art_inv (encode_except e) (fun _ => art_inv) art_inv.
Proof.
  destruct e; simpl; tstep @triple_decrement; apply triple_ret; auto.
Qed.

Lemma triple_decode_try req :
  triple before_tmp (decode_try ggwave cfg req) (fun _ => art_inv) art_inv.
Proof.
  unfold decode_try. destruct (dec_file req) as [[filename content]|].
  2: { tstep @triple_decrement. apply triple_ret. eauto with fsk. }
  destruct (negb (py_endswith filename ".wav")).
  { tstep @triple_decrement. apply triple_ret. eauto with fsk. }
  eapply triple_bind; [apply triple_mkstemp|]. intros p.
  apply triple_pre_fact. intros [r ->].
  eapply triple_bind;
    [eapply triple_conseq; [apply triple_set_tmp | intros st Hst; split; [eauto | exact Hst]
                           | eauto | eauto]|].
  intros ?. tstep triple_write_file.
  eapply triple_bind; [apply triple_run_process|].
  { unfold inv_paths; cbn [map tl inv_cmd]. rewrite temp_path_arg. reflexivity. }
  intros [[rc out] err]. destruct (rc =? 0); [destruct (success _)|];
    tstep @triple_decrement; apply triple_ret; eauto with fsk.
Qed.

Lemma triple_decode_except e :
  triple art_inv (decode_except e) (fun _ => art_inv) art_inv.
Proof.
  destruct e; simpl; tstep @triple_decrement; apply triple_ret; auto.
Qed.

End Artifacts.

(** ** The file system after a request *)

(** C8. With binaries that write only the files named in their arguments and a
    working [os.unlink], [encode] leaves the file system as it found it:
    the temp artifact is gone on every path and nothing else changed. *)
Theorem encode_leaves_no_artifact (ggwave : External) (cfg : Config)
    (req : EncodeRequest) (st : HState) :
  confined ggwave -> enc_unlink_fails req = false -> hs_tmp st = None ->
  hs_fs (snd (encode ggwave cfg req st)) = hs_fs st.
Proof.
  intros Hc Hu Ht.
  assert (T : triple (before_tmp (hs_fs st)) (encode ggwave cfg req)
                (fun _ st' => hs_fs st' = hs_fs st) (fun st' => hs_fs st' = hs_fs st)).
  { unfold encode. rewrite Hu. apply triple_try_finally with (M := art_inv (hs_fs st)).
    - apply triple_try_except with (Y := art_inv (hs_fs st)).
      + now apply triple_encode_try.
      + intros e; now apply triple_encode_except.
    - apply triple_cleanup. }
  specialize (T st (conj Ht eq_refl)).
  destruct (encode ggwave cfg req st) as [[e|r] st']; exact T.
Qed.

(** C9. The same for [decode]. *)
Theorem decode_leaves_no_artifact (ggwave : External) (cfg : Config)
    (req : DecodeRequest) (st : HState) :
  confined ggwave -> dec_unlink_fails req = false -> hs_tmp st = None ->
  hs_fs (snd (decode ggwave cfg req st)) = hs_fs st.
Proof.
  intros Hc Hu Ht.
  assert (T : triple (before_tmp (hs_fs st)) (decode ggwave cfg req)
                (fun _ st' => hs_fs st' = hs_fs st) (fun st' => hs_fs st' = hs_fs st)).
  { unfold decode. rewrite Hu. apply triple_try_finally with (M := art_inv (hs_fs st)).
    - apply triple_try_except with (Y := art_inv (hs_fs st)).
      + now apply triple_decode_try.
      + intros e; now apply triple_decode_except.
    - apply triple_cleanup. }
  specialize (T st (conj Ht eq_refl)).
  destruct (decode ggwave cfg req st) as [[e|r] st']; exact T.
Qed.

(** ** The calls on the metrics registry *)

(** Steps that leave the call log alone. *)
Definition keeps_mlog {A} (m : PyM A) : Prop := forall st, hs_mlog (snd (m st)) = hs_mlog st.

Lemma triple_keeps_mlog {A} (L : list MetricOp) (m : PyM A) (X : HState -> Prop) :
  keeps_mlog m -> (forall st, hs_mlog st = L -> X st) ->
  triple (fun st => hs_mlog st = L) m (fun _ st => hs_mlog st = L) X.
Proof.
  intros Hk HX st Hst. specialize (Hk st). destruct (m st) as [[e|a] st']; simpl in Hk;
    [apply HX|]; congruence.
Qed.

Lemma keeps_pure {A} (m : PyM A) : (forall st, snd (m st) = st) -> keeps_mlog m.
Proof. intros H st. now rewrite H. Qed.

Lemma keeps_run_process g inv : keeps_mlog (run_process g inv).
Proof. intros st. unfold run_process. destruct (g _ _) as [[] ?]; reflexivity. Qed.

Lemma keeps_mkstemp cands : keeps_mlog (mkstemp cands).
Proof.
  induction cands as [|r rs IH]; intros st; [reflexivity|]. simpl.
  destruct (hs_fs st !! temp_path r); [apply IH | reflexivity].
Qed.

Lemma keeps_set_tmp p : keeps_mlog (modify (set_tmp p)).
Proof. intros st; reflexivity. Qed.

Lemma keeps_write_file p c : keeps_mlog (write_file p c).
Proof. intros st; reflexivity. Qed.

Lemma keeps_cleanup b : keeps_mlog (cleanup_temp b).
Proof.
  intros st. unfold cleanup_temp. destruct (hs_tmp st); [|reflexivity].
  destruct (hs_fs st !! _); [destruct b|]; reflexivity.
Qed.

#[export] Hint Resolve keeps_pure keeps_run_process keeps_mkstemp keeps_set_tmp
  keeps_write_file keeps_cleanup : fsk.

Lemma triple_decrement_log (L : list MetricOp) b t X :
  triple (fun st => hs_mlog st = L) (m_decrement_active b t)
    (fun _ st => hs_mlog st = (L ++ [DecActive b t])%list) X.
Proof. intros st Hst. simpl. now rewrite Hst. Qed.

Lemma triple_decrement_log_fs (L : list MetricOp) (F : gmap string string -> Prop) b t X :
  triple (fun st => hs_mlog st = L /\ F (hs_fs st)) (m_decrement_active b t)
    (fun _ st => hs_mlog st = (L ++ [DecActive b t])%list /\ F (hs_fs st)) X.
Proof. intros st [Hst HF]. simpl. now rewrite Hst. Qed.

Lemma triple_exists_log (L : list MetricOp) p X :
  triple (fun st => hs_mlog st = L) (exists_nonempty p)
    (fun ok st => hs_mlog st = L /\ (ok = true -> is_Some (hs_fs st !! p))) X.
Proof.
  intros st Hst. simpl. split; [exact Hst|].
  destruct (hs_fs st !! p); [eauto | discriminate].
Qed.

Lemma triple_write_log (L : list MetricOp) p c X :
  triple (fun st => hs_mlog st = L) (write_file p c)
    (fun _ st => hs_mlog st = L /\ is_Some (hs_fs st !! p)) X.
Proof. intros st Hst. simpl. split; [exact Hst|]. rewrite lookup_insert_eq. eauto. Qed.

(** [send_file] on an existing file raises only when opening it fails. *)
Lemma triple_send_log (L : list MetricOp) fails p :
  triple (fun st => hs_mlog st = L /\ is_Some (hs_fs st !! p)) (send_file fails p)
    (fun _ st => hs_mlog st = L) (fun st => fails = true /\ hs_mlog st = L).
Proof.
  intros st [Hst [c Hc]]. unfold send_file. rewrite Hc. destruct fails; auto.
Qed.

Section MetricCalls.
Variable ggwave : External.
Variable cfg : Config.
Variable L : list MetricOp.

Definition one_call (t : string) (st : HState) : Prop :=
  exists b, hs_mlog st = (L ++ [DecActive b t])%list.

(** Where the [try] block of [encode] can raise: before any call, or in
    [send_file] after the success call. *)
Definition encode_raised (req : EncodeRequest) (st : HState) : Prop :=
  hs_mlog st = L \/ (enc_send_fails req = true /\ hs_mlog st = (L ++ [DecActive true "encode"])%list).

Ltac kstep := eapply triple_bind;
  [solve [apply triple_keeps_mlog; [eauto with fsk | intros ? ?; left; assumption]] | intros ?].

Lemma triple_send_tail req p :
  triple (fun st => hs_mlog st = L /\ is_Some (hs_fs st !! p))
    (m_decrement_active true "encode" ;; send_file (enc_send_fails req) p)
    (fun _ => one_call "encode") (encode_raised req).
Proof.
  eapply triple_bind; [apply (triple_decrement_log_fs L (fun fs => is_Some (fs !! p)))|].
  intros ?.
  eapply triple_conseq; [apply (triple_send_log (L ++ [DecActive true "encode"])) | auto | | ].
  - intros a0 st' H. exists true. exact H.
  - intros st' [Hf H]. right. auto.
Qed.

Lemma triple_encode_fallback_log req v p :
  triple (fun st => hs_mlog st = L) (encode_fallback ggwave cfg req v p)
    (fun _ => one_call "encode") (encode_raised req).
Proof.
  unfold encode_fallback. kstep. kstep. destruct (_ : Z * string * string) as [[rc out] err].
  destruct (negb (String.eqb out EmptyString) && py_startswith out "RIFF").
  - eapply triple_bind; [apply triple_write_log|]. intros ?. apply triple_send_tail.
  - eapply triple_bind; [apply triple_decrement_log|]. intros ?.
    apply triple_ret. intros st H. eexists; exact H.
Qed.

Lemma triple_encode_try_log req :
  triple (fun st => hs_mlog st = L) (encode_try ggwave cfg req)
    (fun _ => one_call "encode") (encode_raised req).
Proof.
  unfold encode_try. kstep. destruct (negb (py_truthy_opt _)).
  - eapply triple_bind; [apply triple_decrement_log|]. intros ?.
    apply triple_ret. intros st H. eexists; exact H.
  - kstep. kstep. kstep. kstep. kstep.
    eapply triple_bind; [apply triple_exists_log|]. intros ok.
    destruct ok.
    + eapply triple_conseq; [apply triple_send_tail | | auto | auto].
      intros st [H1 H2]. split; auto.
    + eapply triple_conseq; [apply triple_encode_fallback_log | | auto | auto].
      intros st [H1 _]. exact H1.
Qed.

End MetricCalls.

Lemma encode_metric_log (ggwave : External) (cfg : Config) (req : EncodeRequest)
    (st : HState) :
  let st' := snd (encode ggwave cfg req st) in
  (exists b, hs_mlog st' = (hs_mlog st ++ [DecActive b "encode"])%list)
  \/ (enc_send_fails req = true
      /\ hs_mlog st' = (hs_mlog st ++ [DecActive true "encode"; DecActive false "encode"])%list).
Proof.
  set (L := hs_mlog st).
  set (E := fun st' : HState => (exists b, hs_mlog st' = (L ++ [DecActive b "encode"])%list)
         \/ (enc_send_fails req = true
             /\ hs_mlog st' = (L ++ [DecActive true "encode"; DecActive false "encode"])%list)).
  assert (T : triple (fun s => hs_mlog s = L) (encode ggwave cfg req) (fun _ => E) E).
  { unfold encode. apply triple_try_finally with (M := E).
    - apply triple_try_except with (Y := encode_raised L req).
      + eapply triple_conseq; [apply (triple_encode_try_log ggwave cfg L req) | auto | | auto].
        intros a0 s H. left. exact H.
      + intros e. destruct e; simpl; intros s Hs; simpl;
          (destruct Hs as [Hs | [Hf Hs]]; rewrite Hs;
           [left; eexists; reflexivity | right; split; [exact Hf|];
            rewrite <- app_assoc; reflexivity]).
    - intros s Hs. pose proof (keeps_cleanup (enc_unlink_fails req) s) as Hk.
      destruct (cleanup_temp _ s) as [[e|u] s']; simpl in Hk; unfold E in *; rewrite Hk;
        exact Hs. }
  specialize (T st eq_refl). cbv zeta.
  destruct (encode ggwave cfg req st) as [[e|r] st']; exact T.
Qed.

Ltac kstep' := eapply triple_bind;
  [solve [apply triple_keeps_mlog; [eauto with fsk | auto]] | intros ?].
Ltac dec_ret := eapply triple_bind; [apply triple_decrement_log|]; intros ?;
  apply triple_ret; intros ? H; eexists; exact H.

Lemma triple_decode_try_log (ggwave : External) (cfg : Config) (L : list MetricOp) req :
  triple (fun st => hs_mlog st = L) (decode_try ggwave cfg req)
    (fun _ st => exists b, hs_mlog st = (L ++ [DecActive b "decode"])%list)
    (fun st => hs_mlog st = L).
Proof.
  unfold decode_try. destruct (dec_file req) as [[filename content]|]; [|dec_ret].
  destruct (negb (py_endswith filename ".wav")); [dec_ret|].
  kstep'. kstep'. kstep'. kstep'.
  destruct (_ : Z * string * string) as [[rc out] err].
  destruct (rc =? 0); [destruct (success _)|]; dec_ret.
Qed.

Lemma decode_metric_log (ggwave : External) (cfg : Config) (req : DecodeRequest)
    (st : HState) :
  exists b, hs_mlog (snd (decode ggwave cfg req st))
            = (hs_mlog st ++ [DecActive b "decode"])%list.
Proof.
  set (L := hs_mlog st).
  set (E := fun st' : HState => exists b, hs_mlog st' = (L ++ [DecActive b "decode"])%list).
  assert (T : triple (fun s => hs_mlog s = L) (decode ggwave cfg req) (fun _ => E) E).
  { unfold decode. apply triple_try_finally with (M := E).
    - apply triple_try_except with (Y := fun s => hs_mlog s = L).
      + apply triple_decode_try_log.
      + intros e. destruct e; simpl; intros s Hs; simpl; rewrite Hs; eexists; reflexivity.
    - intros s Hs. pose proof (keeps_cleanup (dec_unlink_fails req) s) as Hk.
      destruct (cleanup_temp _ s) as [[e|u] s']; simpl in Hk; unfold E in *; rewrite Hk;
        exact Hs. }
  specialize (T st eq_refl).
  destruct (decode ggwave cfg req st) as [[e|r] st']; exact T.
Qed.

(** C7. [decode] calls [decrement_active] exactly once, with ['decode'], on
    every path. *)
Theorem decode_metric_calls (ggwave : External) (cfg : Config) (req : DecodeRequest)
    (st : HState) :
  exists b, hs_mlog (snd (decode ggwave cfg req st))
            = (hs_mlog st ++ [DecActive b "decode"])%list.
Proof. exact (decode_metric_log ggwave cfg req st). Qed.

(** ** The paths of the handlers *)

(** The state after one [decrement_active] call and nothing else. *)
Definition after_decrement (b : bool) (t : string) (st : HState) : HState :=
  mkHState (hs_fs st) (decrement_active b t (hs_metrics st))
    (hs_mlog st ++ [DecActive b t])%list (hs_launched st) (hs_tmp st).

(** C16. A request without a usable [text] is answered 400 before anything
    else: no temp file, no process, one failure counted. *)
Theorem encode_rejects_missing_text (ggwave : External) (cfg : Config) (req : EncodeRequest)
    (st : HState) (t : option PyVal) :
  hs_tmp st = None -> request_text req = inr t -> py_truthy_opt t = false ->
  encode ggwave cfg req st
  = (inr (error_response 400 "No text provided"), after_decrement false "encode" st).
Proof.
  intros Ht Hr Hf.
  unfold encode, try_finally, try_except, encode_try, bind, get_text, after_decrement.
  rewrite Hr, Hf. cbn. rewrite Ht. reflexivity.
Qed.

(** C17. A file whose name does not end in [.wav] is answered 400 before any
    temp file or process. *)
Theorem decode_rejects_non_wav (ggwave : External) (cfg : Config) (req : DecodeRequest)
    (st : HState) (filename content : string) :
  hs_tmp st = None -> dec_file req = Some (filename, content) ->
  py_endswith filename ".wav" = false ->
  decode ggwave cfg req st
  = (inr (error_response 400 "File must be a WAV file"), after_decrement false "decode" st).
Proof.
  intros Ht Hf He. unfold decode, try_finally, try_except, decode_try, bind, after_decrement.
  rewrite Hf, He. cbn. rewrite Ht. reflexivity.
Qed.

(** The invocations of the source: [cmd] at lines 244, 264 and 330. *)
Definition encode_invocation (cfg : Config) (p text : string) : Invocation :=
  mkInvocation [GGWAVE_TO_FILE cfg; "-f" ++ p] (Some (text ++ nl)) false (REQUEST_TIMEOUT cfg).
Definition encode_stdout_invocation (cfg : Config) (text : string) : Invocation :=
  mkInvocation [GGWAVE_TO_FILE cfg] (Some (text ++ nl)) false (REQUEST_TIMEOUT cfg).
Definition decode_invocation (cfg : Config) (p : string) : Invocation :=
  mkInvocation [GGWAVE_FROM_FILE cfg; p] None true (REQUEST_TIMEOUT cfg).

Ltac hsimpl := unfold set_fs, set_tmp in *; cbn [hs_fs hs_metrics hs_mlog hs_launched hs_tmp] in *.
Ltac hrun := cbv beta iota zeta delta [try_finally try_except bind get_text modify gets ret
  raise run_process exists_nonempty m_decrement_active send_file cleanup_temp stdin_payload
  py_len_check write_file encode_fallback encode_try decode_try encode decode mkstemp set_fs
  set_tmp encode_except decode_except py_truthy_opt negb andb];
  cbn [hs_fs hs_metrics hs_mlog hs_launched hs_tmp fst snd].

Lemma py_truthy_str (s : string) : s <> EmptyString -> py_truthy (PStr s) = true.
Proof. intros H. simpl. destruct (String.eqb_spec s EmptyString); [congruence | reflexivity]. Qed.

(** The first tier to its end: the file the binary wrote is sent after the
    success call; when [send_file] raises, the [except Exception] clause
    answers 500 after a second call, with [success=False]. *)
Lemma encode_first_tier_run (ggwave : External) (cfg : Config) (req : EncodeRequest)
    (st : HState) (s r : string) (rs : list string) (rc : Z) (out err c : string)
    (fs1 : gmap string string) :
  hs_tmp st = None -> request_text req = inr (Some (PStr s)) -> s <> EmptyString ->
  enc_tmp_names req = r :: rs -> hs_fs st !! temp_path r = None ->
  ggwave (encode_invocation cfg (temp_path r) s) (<[temp_path r := EmptyString]> (hs_fs st))
    = (Completed rc out err, fs1) ->
  fs1 !! temp_path r = Some c -> c <> EmptyString ->
  fst (encode ggwave cfg req st)
  = inr (if enc_send_fails req then error_response 500 "Unexpected error: OSError"
         else RFile "audio/wav" "encoded.wav" c)
  /\ hs_mlog (snd (encode ggwave cfg req st))
     = (hs_mlog st ++ DecActive true "encode"
          :: (if enc_send_fails req then [DecActive false "encode"] else []))%list
  /\ hs_launched (snd (encode ggwave cfg req st))
     = (hs_launched st ++ [encode_invocation cfg (temp_path r) s])%list.
Proof.
  intros Ht Hr Hs Hn Hfree Hg Hc Hne.
  hrun. rewrite Hr. hrun. rewrite (py_truthy_str s Hs), Hn. hrun. rewrite Hfree. hrun.
  fold (encode_invocation cfg (temp_path r) s). rewrite Hg. hrun. rewrite Hc.
  destruct (String.eqb_spec c EmptyString) as [|_]; [congruence|]. hrun.
  rewrite Hc. destruct (enc_send_fails req); hrun; rewrite Hc;
    destruct (enc_unlink_fails req); split_and!; try reflexivity; rewrite <- app_assoc; reflexivity.
Qed.

(** C6. [encode] makes one [decrement_active] call, with ['encode'], when
    its [send_file] does not raise, and never more than two calls; and the
    second call does happen: when the first tier has produced the audio and
    [send_file] raises, [decrement_active(True, 'encode')] is followed by
    the [except] clause's [decrement_active(False, 'encode')] and the answer
    is 500. *)
Theorem encode_metric_calls (ggwave : External) (cfg : Config) (req : EncodeRequest)
    (st : HState) :
  let st' := snd (encode ggwave cfg req st) in
  (enc_send_fails req = false -> exists b, hs_mlog st' = (hs_mlog st ++ [DecActive b "encode"])%list)
  /\ ((exists b, hs_mlog st' = (hs_mlog st ++ [DecActive b "encode"])%list)
      \/ hs_mlog st' = (hs_mlog st ++ [DecActive true "encode"; DecActive false "encode"])%list)
  /\ (forall s r rs rc out err c fs1,
        hs_tmp st = None -> request_text req = inr (Some (PStr s)) -> s <> EmptyString ->
        enc_tmp_names req = r :: rs -> hs_fs st !! temp_path r = None ->
        ggwave (encode_invocation cfg (temp_path r) s) (<[temp_path r := EmptyString]> (hs_fs st))
          = (Completed rc out err, fs1) ->
        fs1 !! temp_path r = Some c -> c <> EmptyString -> enc_send_fails req = true ->
        fst (encode ggwave cfg req st) = inr (error_response 500 "Unexpected error: OSError")
        /\ hs_mlog st' = (hs_mlog st ++ [DecActive true "encode"; DecActive false "encode"])%list).
Proof.
  cbv zeta. destruct (encode_metric_log ggwave cfg req st) as [H|[Hf H]]. split_and!.
  - intros _. exact H.
  - left. exact H.
  - intros s r rs rc out err c fs1 Ht Hr Hs Hn Hfree Hg Hc Hne Hsend.
    destruct (encode_first_tier_run ggwave cfg req st s r rs rc out err c fs1
                Ht Hr Hs Hn Hfree Hg Hc Hne) as (E1 & E2 & _).
    rewrite Hsend in E1, E2. split; assumption.
  - split_and!; [intros Hs; congruence | right; exact H |].
    intros s r rs rc out err c fs1 Ht Hr Hs Hn Hfree Hg Hc Hne Hsend.
    destruct (encode_first_tier_run ggwave cfg req st s r rs rc out err c fs1
                Ht Hr Hs Hn Hfree Hg Hc Hne) as (E1 & E2 & _).
    rewrite Hsend in E1, E2. split; assumption.
Qed.

(** C13. The first tier: when [ggwave-to-file -f<path>] leaves a non-empty file,
    that file is the response, the request is counted once as an [encode]
    success ([decrement_active(True, 'encode')]) and no second process is
    started. *)
Theorem encode_first_tier (ggwave : External) (cfg : Config) (req : EncodeRequest)
    (st : HState) (s r : string) (rs : list string) (rc : Z) (out err c : string)
    (fs1 : gmap string string) :
  hs_tmp st = None -> request_text req = inr (Some (PStr s)) -> s <> EmptyString ->
  enc_tmp_names req = r :: rs -> hs_fs st !! temp_path r = None ->
  ggwave (encode_invocation cfg (temp_path r) s) (<[temp_path r := EmptyString]> (hs_fs st))
    = (Completed rc out err, fs1) ->
  fs1 !! temp_path r = Some c -> c <> EmptyString -> enc_send_fails req = false ->
  fst (encode ggwave cfg req st) = inr (RFile "audio/wav" "encoded.wav" c)
  /\ hs_mlog (snd (encode ggwave cfg req st)) = (hs_mlog st ++ [DecActive true "encode"])%list
  /\ hs_launched (snd (encode ggwave cfg req st))
     = (hs_launched st ++ [encode_invocation cfg (temp_path r) s])%list.
Proof.
  intros Ht Hr Hs Hn Hfree Hg Hc Hne Hsend.
  pose proof (encode_first_tier_run ggwave cfg req st s r rs rc out err c fs1
                Ht Hr Hs Hn Hfree Hg Hc Hne) as H.
  rewrite Hsend in H. exact H.
Qed.

(** C14. The second tier: when the first run leaves no audio in the file, the
    binary is run again writing to standard output, and output that starts
    with [RIFF] is written to the file and sent. *)
Theorem encode_second_tier (ggwave : External) (cfg : Config) (req : EncodeRequest)
    (st : HState) (s r : string) (rs : list string) (rc rc2 : Z) (out err out2 err2 : string)
    (fs1 fs2 : gmap string string) :
  hs_tmp st = None -> request_text req = inr (Some (PStr s)) -> s <> EmptyString ->
  enc_tmp_names req = r :: rs -> hs_fs st !! temp_path r = None ->
  ggwave (encode_invocation cfg (temp_path r) s) (<[temp_path r := EmptyString]> (hs_fs st))
    = (Completed rc out err, fs1) ->
  (fs1 !! temp_path r = None \/ fs1 !! temp_path r = Some EmptyString) ->
  ggwave (encode_stdout_invocation cfg s) fs1 = (Completed rc2 out2 err2, fs2) ->
  out2 <> EmptyString -> py_startswith out2 "RIFF" = true -> enc_send_fails req = false ->
  fst (encode ggwave cfg req st) = inr (RFile "audio/wav" "encoded.wav" out2)
  /\ hs_launched (snd (encode ggwave cfg req st))
     = (hs_launched st ++ [encode_invocation cfg (temp_path r) s;
                           encode_stdout_invocation cfg s])%list.
Proof.
  intros Ht Hr Hs Hn Hfree Hg Hc Hg2 Hne Hriff Hsend.
  hrun. rewrite Hr. hrun. rewrite (py_truthy_str s Hs), Hn. hrun. rewrite Hfree. hrun.
  fold (encode_invocation cfg (temp_path r) s). rewrite Hg. hrun.
  assert (Hne' : String.eqb out2 EmptyString = false) by (apply String.eqb_neq; exact Hne).
  destruct Hc as [Hc|Hc]; rewrite Hc; hrun; rewrite ?(String.eqb_refl EmptyString); hrun;
    fold (encode_stdout_invocation cfg s); rewrite Hg2;
    hrun; rewrite Hne', Hriff; hrun; rewrite lookup_insert_eq, Hsend; hrun; rewrite lookup_insert_eq;
    destruct (enc_unlink_fails req); split; try reflexivity; rewrite <- app_assoc; reflexivity.
Qed.

(** C15. A first run that exceeds [REQUEST_TIMEOUT] is killed; the request is
    answered 504 and counted once as a failure. *)
Theorem encode_timeout_504 (ggwave : External) (cfg : Config) (req : EncodeRequest)
    (st : HState) (s r : string) (rs : list string) (fs1 : gmap string string) :
  hs_tmp st = None -> request_text req = inr (Some (PStr s)) -> s <> EmptyString ->
  enc_tmp_names req = r :: rs -> hs_fs st !! temp_path r = None ->
  ggwave (encode_invocation cfg (temp_path r) s) (<[temp_path r := EmptyString]> (hs_fs st))
    = (TimedOut, fs1) ->
  fst (encode ggwave cfg req st) = inr (error_response 504 "Encoding process timed out")
  /\ hs_mlog (snd (encode ggwave cfg req st)) = (hs_mlog st ++ [DecActive false "encode"])%list.
Proof.
  intros Ht Hr Hs Hn Hfree Hg.
  hrun. rewrite Hr. hrun. rewrite (py_truthy_str s Hs), Hn. hrun. rewrite Hfree. hrun.
  fold (encode_invocation cfg (temp_path r) s). rewrite Hg. hrun.
  destruct (fs1 !! temp_path r); [destruct (enc_unlink_fails req)|]; split; reflexivity.
Qed.

(** C12. A WAV file whose decoding prints a well-formed report is answered 200
    with the report's numbers and message, and counted once as a [decode]
    success ([decrement_active(True, 'decode')]). *)
Theorem decode_report_200 (ggwave : External) (cfg : Config) (req : DecodeRequest)
    (st : HState) (filename content r : string) (rs : list string) (err : string)
    (fs1 : gmap string string) (ch sr bits ts : nat) (msg : string) :
  hs_tmp st = None -> dec_file req = Some (filename, content) ->
  py_endswith filename ".wav" = true ->
  dec_tmp_names req = r :: rs -> hs_fs st !! temp_path r = None ->
  ggwave (decode_invocation cfg (temp_path r))
    (<[temp_path r := content]> (<[temp_path r := EmptyString]> (hs_fs st)))
    = (Completed 0 (ggwave_report ch sr bits ts msg ++ nl) err, fs1) ->
  lacks_char newline msg = true ->
  (String.length (to_dec ch) <= int_max_str_digits)%nat ->
  (String.length (to_dec sr) <= int_max_str_digits)%nat ->
  (String.length (to_dec bits) <= int_max_str_digits)%nat ->
  (String.length (to_dec ts) <= int_max_str_digits)%nat ->
  fst (decode ggwave cfg req st)
  = inr (RJson 200 (parse_result_json
      (mkParseResult true
         (mkAudioInfo (Some (Z.of_nat ch)) (Some (Z.of_nat sr)) (Some (Z.of_nat bits))
            (Some (Z.of_nat ts)))
         msg (String.length msg) None)
      (dec_thread req) (dec_elapsed_ms req)))
  /\ hs_mlog (snd (decode ggwave cfg req st)) = (hs_mlog st ++ [DecActive true "decode"])%list.
Proof.
  intros Ht Hf He Hn Hfree Hg Hmsg Hch Hsr Hbits Hts.
  hrun. rewrite Hf, He, Hn. hrun. rewrite Hfree. hrun.
  fold (decode_invocation cfg (temp_path r)). rewrite Hg. hrun.
  cbn [Z.eqb]. rewrite ggwave_report_strip, parse_report_fields by assumption.
  hrun. cbn [success]. hrun.
  destruct (fs1 !! temp_path r); [destruct (dec_unlink_fails req)|]; split; reflexivity.
Qed.

(** C25. A decoding process that exits with a non-zero status is answered
    500 with ["Failed to decode audio"], the process's standard error and its
    stripped standard output, and counted once as a [decode] failure
    ([decrement_active(False, 'decode')]). *)
Theorem decode_nonzero_exit_500 (ggwave : External) (cfg : Config) (req : DecodeRequest)
    (st : HState) (filename content r : string) (rs : list string) (rc : Z) (out err : string)
    (fs1 : gmap string string) :
  hs_tmp st = None -> dec_file req = Some (filename, content) ->
  py_endswith filename ".wav" = true ->
  dec_tmp_names req = r :: rs -> hs_fs st !! temp_path r = None ->
  ggwave (decode_invocation cfg (temp_path r))
    (<[temp_path r := content]> (<[temp_path r := EmptyString]> (hs_fs st)))
    = (Completed rc out err, fs1) ->
  rc <> 0 ->
  fst (decode ggwave cfg req st)
  = inr (RJson 500 (JObj [("error", JStr "Failed to decode audio"); ("stderr", JStr err);
                          ("stdout", JStr (py_strip out))]))
  /\ hs_mlog (snd (decode ggwave cfg req st)) = (hs_mlog st ++ [DecActive false "decode"])%list.
Proof.
  intros Ht Hf He Hn Hfree Hg Hrc.
  hrun. rewrite Hf, He, Hn. hrun. rewrite Hfree. hrun.
  fold (decode_invocation cfg (temp_path r)). rewrite Hg. hrun.
  rewrite (proj2 (Z.eqb_neq rc 0) Hrc). hrun.
  destruct (fs1 !! temp_path r); [destruct (dec_unlink_fails req)|]; split; reflexivity.
Qed.

(** C37. A decoding process that exits 0 but prints no ["[+] Done"] line,
    with every number it reports convertible, is a parse failure: the answer
    is 500 with ["Failed to parse decode output"], the details
    ["Unknown parsing error"] and the elapsed time, and the request is
    counted once as a [decode] failure. *)
Theorem decode_parse_failure_500 (ggwave : External) (cfg : Config) (req : DecodeRequest)
    (st : HState) (filename content r : string) (rs : list string) (out err : string)
    (fs1 : gmap string string) :
  hs_tmp st = None -> dec_file req = Some (filename, content) ->
  py_endswith filename ".wav" = true ->
  dec_tmp_names req = r :: rs -> hs_fs st !! temp_path r = None ->
  ggwave (decode_invocation cfg (temp_path r))
    (<[temp_path r := content]> (<[temp_path r := EmptyString]> (hs_fs st)))
    = (Completed 0 out err, fs1) ->
  py_contains done_marker (py_strip out) = false ->
  snd (extract_audio_info regex_map (py_strip out) empty_info) = None ->
  fst (decode ggwave cfg req st)
  = inr (RJson 500 (JObj [("error", JStr "Failed to parse decode output");
                          ("details", JStr "Unknown parsing error");
                          ("processing_time_seconds", JMillis (dec_elapsed_ms req))]))
  /\ hs_mlog (snd (decode ggwave cfg req st)) = (hs_mlog st ++ [DecActive false "decode"])%list.
Proof.
  intros Ht Hf He Hn Hfree Hg Hdone Hint.
  hrun. rewrite Hf, He, Hn. hrun. rewrite Hfree. hrun.
  fold (decode_invocation cfg (temp_path r)). rewrite Hg. hrun. cbn [Z.eqb].
  unfold parse_ggwave_output.
  destruct (extract_audio_info regex_map (py_strip out) empty_info) as [ai e]; cbn in Hint; subst e.
  destruct (extract_message (py_strip out)) as [text len]. cbn [success error]. rewrite Hdone. hrun.
  destruct (fs1 !! temp_path r); [destruct (dec_unlink_fails req)|]; split; reflexivity.
Qed.

(** C26. When neither tier yields audio (the file of the first run is
    missing or empty and the second run's output is empty or does not start
    with [RIFF]), the answer is 500 ["Failed to encode text to audio"], the
    request is counted once as an [encode] failure, and exactly the two
    runs were started. *)
Theorem encode_no_audio_500 (ggwave : External) (cfg : Config) (req : EncodeRequest)
    (st : HState) (s r : string) (rs : list string) (rc rc2 : Z) (out err out2 err2 : string)
    (fs1 fs2 : gmap string string) :
  hs_tmp st = None -> request_text req = inr (Some (PStr s)) -> s <> EmptyString ->
  enc_tmp_names req = r :: rs -> hs_fs st !! temp_path r = None ->
  ggwave (encode_invocation cfg (temp_path r) s) (<[temp_path r := EmptyString]> (hs_fs st))
    = (Completed rc out err, fs1) ->
  (fs1 !! temp_path r = None \/ fs1 !! temp_path r = Some EmptyString) ->
  ggwave (encode_stdout_invocation cfg s) fs1 = (Completed rc2 out2 err2, fs2) ->
  (out2 = EmptyString \/ py_startswith out2 "RIFF" = false) ->
  fst (encode ggwave cfg req st) = inr (error_response 500 "Failed to encode text to audio")
  /\ hs_mlog (snd (encode ggwave cfg req st)) = (hs_mlog st ++ [DecActive false "encode"])%list
  /\ hs_launched (snd (encode ggwave cfg req st))
     = (hs_launched st ++ [encode_invocation cfg (temp_path r) s;
                           encode_stdout_invocation cfg s])%list.
Proof.
  intros Ht Hr Hs Hn Hfree Hg Hc Hg2 Hbad.
  hrun. rewrite Hr. hrun. rewrite (py_truthy_str s Hs), Hn. hrun. rewrite Hfree. hrun.
  fold (encode_invocation cfg (temp_path r) s). rewrite Hg. hrun.
  destruct Hc as [Hc|Hc]; rewrite Hc; hrun; rewrite ?(String.eqb_refl EmptyString); hrun;
    fold (encode_stdout_invocation cfg s); rewrite Hg2; hrun;
    destruct (String.eqb_spec out2 EmptyString) as [E|E];
    try (destruct Hbad as [H|H]; [contradiction | rewrite H]); hrun;
    destruct (fs2 !! temp_path r); try destruct (enc_unlink_fails req);
    split_and!; try reflexivity; rewrite <- app_assoc; reflexivity.
Qed.


(** ** Every request is answered *)

(** Nothing is known of a step but that it runs. *)
Lemma triple_any {A} (m : PyM A) :
  triple (fun _ => True) m (fun _ _ => True) (fun _ => True).
Proof. intros st _. destruct (m st) as [[e|a] st']; exact I. Qed.

(** [try: .. finally: fin] when [fin] never raises: the value of the block. *)
Lemma triple_finally_value {A} (m : PyM A) (fin : PyM unit) (R : A -> Prop) :
  triple (fun _ => True) m (fun a _ => R a) (fun _ => False) ->
  (forall st, fst (fin st) = inr tt) ->
  triple (fun _ => True) (try_finally m fin) (fun a _ => R a) (fun _ => False).
Proof.
  intros Hm Hf st _. unfold try_finally. specialize (Hm st I).
  destruct (m st) as [[e|a] st']; [contradiction|].
  specialize (Hf st'). destruct (fin st') as [[e|[]] st'']; cbn in Hf; [discriminate | exact Hm].
Qed.

Lemma cleanup_temp_returns b st : fst (cleanup_temp b st) = inr tt.
Proof.
  unfold cleanup_temp. destruct (hs_tmp st); [|reflexivity].
  destruct (hs_fs st !! s); [destruct b|]; reflexivity.
Qed.

Lemma triple_send_file_wf b p :
  triple (fun _ => True) (send_file b p) (fun r _ => well_formed_response r = true) (fun _ => True).
Proof.
  intros st _. unfold send_file. destruct (hs_fs st !! p); [destruct b|]; exact I || reflexivity.
Qed.

(** Walk a [try] block: every step may raise, every value returned is a
    well-formed response. *)
Ltac answer_shape :=
  repeat match goal with
  | |- triple _ (bind _ _) _ _ => eapply triple_bind; [apply triple_any | intros ?]
  | |- triple _ (if ?b then _ else _) _ _ => destruct b
  | |- triple _ (let '(_, _) := ?x in _) _ _ => destruct x
  | |- triple _ (send_file _ _) _ _ => apply triple_send_file_wf
  | |- triple _ (ret _) _ _ =>
      apply triple_ret; intros ? _; first [apply error_response_wf | reflexivity]
  end.

Lemma encode_try_shape ggwave cfg req :
  triple (fun _ => True) (encode_try ggwave cfg req)
    (fun r _ => well_formed_response r = true) (fun _ => True).
Proof. unfold encode_try, encode_fallback. answer_shape. Qed.

Lemma decode_try_shape ggwave cfg req :
  triple (fun _ => True) (decode_try ggwave cfg req)
    (fun r _ => well_formed_response r = true) (fun _ => True).
Proof. unfold decode_try. destruct (dec_file req) as [[filename content]|]; answer_shape. Qed.

(** C40. Both handlers always answer: no exception leaves [encode] or
    [decode], and every answer is a success or a JSON object whose
    ["error"] field is a string (the propagation policy of the spec's
    error handling). *)
Theorem handlers_always_answer ggwave cfg :
  (forall req, triple (fun _ => True) (encode ggwave cfg req)
                 (fun r _ => well_formed_response r = true) (fun _ => False))
  /\ (forall req, triple (fun _ => True) (decode ggwave cfg req)
                    (fun r _ => well_formed_response r = true) (fun _ => False)).
Proof.
  split; intros req; (apply triple_finally_value; [|apply cleanup_temp_returns]);
    eapply triple_try_except; [apply encode_try_shape | | apply decode_try_shape |];
    intros [|msg] st _; apply error_response_wf.
Qed.

(** ** Every process is started with the timeout *)

Create HintDb launches.

Section Launches.
Variable ggwave : External.
Variable cfg : Config.
Variable L : list Invocation.

(** Since the log stood at [L], at most [k] processes were started, each
    with [timeout=REQUEST_TIMEOUT]. *)
Definition timed_launches (k : nat) (st : HState) : Prop :=
  exists ls, hs_launched st = (L ++ ls)%list /\ (length ls <= k)%nat
             /\ Forall (fun i => inv_timeout i = REQUEST_TIMEOUT cfg) ls.

Definition keeps_launched {A} (m : PyM A) : Prop :=
  forall st, hs_launched (snd (m st)) = hs_launched st.

Lemma timed_launches_mono k n st : (k <= n)%nat -> timed_launches k st -> timed_launches n st.
Proof. intros Hk (ls & E & Hl & F). exists ls. split_and!; auto; lia. Qed.

Lemma triple_keeps_launched {A} k j n (m : PyM A) :
  (k <= j)%nat -> (k <= n)%nat -> keeps_launched m ->
  triple (timed_launches k) m (fun _ => timed_launches j) (timed_launches n).
Proof.
  intros Hj Hn Hm st H.
  assert (H' : timed_launches k (snd (m st)))
    by (destruct H as (ls & E & ?); exists ls; rewrite Hm; auto).
  destruct (m st) as [[e|a] st']; eapply timed_launches_mono; eassumption.
Qed.

(** [subprocess.run(..., timeout=REQUEST_TIMEOUT)] adds one launch. *)
Lemma triple_launch_timed k n inv :
  (S k <= n)%nat -> inv_timeout inv = REQUEST_TIMEOUT cfg ->
  triple (timed_launches k) (run_process ggwave inv)
    (fun _ => timed_launches (S k)) (timed_launches n).
Proof.
  intros Hn Ht st (ls & E & Hl & F).
  assert (H : forall fs, timed_launches (S k) (set_fs fs (mkHState (hs_fs st) (hs_metrics st)
                (hs_mlog st) (hs_launched st ++ [inv])%list (hs_tmp st)))).
  { intros fs. exists (ls ++ [inv])%list. cbn. rewrite E, app_assoc, length_app.
    split_and!; [reflexivity | cbn; lia | apply Forall_app; auto]. }
  unfold run_process. destruct (ggwave _ _) as [[rc out err| |msg] fs'];
    [| eapply timed_launches_mono ..]; eauto.
Qed.

Lemma keeps_launched_pure {A} (m : PyM A) : (forall st, snd (m st) = st) -> keeps_launched m.
Proof. intros H st. now rewrite H. Qed.

Lemma keeps_launched_mkstemp cands : keeps_launched (mkstemp cands).
Proof.
  induction cands as [|r rs IH]; intros st; [reflexivity|]. simpl.
  destruct (hs_fs st !! temp_path r); [apply IH | reflexivity].
Qed.

Lemma keeps_launched_cleanup b : keeps_launched (cleanup_temp b).
Proof.
  intros st. unfold cleanup_temp. destruct (hs_tmp st); [|reflexivity].
  destruct (hs_fs st !! _); [destruct b|]; reflexivity.
Qed.

Lemma keeps_launched_send fails p : keeps_launched (send_file fails p).
Proof.
  intros st. unfold send_file. destruct (hs_fs st !! p); [destruct fails|]; reflexivity.
Qed.

Lemma keeps_launched_modify f : (forall st, hs_launched (f st) = hs_launched st) ->
  keeps_launched (modify f).
Proof. intros H st. apply H. Qed.

Lemma keeps_launched_decrement b t : keeps_launched (m_decrement_active b t).
Proof. intros st; reflexivity. Qed.

Lemma keeps_launched_write p c : keeps_launched (write_file p c).
Proof. intros st; reflexivity. Qed.

Lemma keeps_launched_len_check v : keeps_launched (py_len_check v).
Proof. intros st; destruct v; reflexivity. Qed.

Lemma keeps_launched_stdin v : keeps_launched (stdin_payload v).
Proof. intros st; destruct v; reflexivity. Qed.

#[local] Hint Resolve keeps_launched_decrement keeps_launched_write keeps_launched_len_check
  keeps_launched_stdin : launches.
#[local] Hint Resolve keeps_launched_mkstemp keeps_launched_cleanup keeps_launched_send : launches.
#[local] Hint Extern 1 (keeps_launched (modify _)) =>
  apply keeps_launched_modify; reflexivity : launches.
#[local] Hint Extern 2 (keeps_launched _) =>
  apply keeps_launched_pure; intros ?; first [reflexivity | case_match; reflexivity] : launches.

(** Walk a handler block from [timed_launches k] to [timed_launches n]. *)
Ltac launch_step :=
  repeat match goal with
  | |- triple (timed_launches ?k) (bind (run_process _ _) _) _ (timed_launches ?n) =>
      eapply triple_bind; [apply (triple_launch_timed k n); [lia | reflexivity] | intros ?; cbv beta]
  | |- triple (timed_launches ?k) (bind _ _) _ (timed_launches ?n) =>
      eapply triple_bind; [apply (triple_keeps_launched k k n); [lia | lia | eauto with launches]
                          | intros ?; cbv beta]
  | |- triple _ (if ?b then _ else _) _ _ => destruct b
  | |- triple _ (let '(_, _) := ?x in _) _ _ => destruct x
  | |- triple _ (match ?x with _ => _ end) _ _ => destruct x
  | |- triple (timed_launches ?k) _ (fun _ => timed_launches ?j) (timed_launches ?n) =>
      apply (triple_keeps_launched k j n); [lia | lia | eauto with launches]
  end.

Lemma encode_launches req :
  triple (timed_launches 0) (encode ggwave cfg req)
    (fun _ => timed_launches 2) (timed_launches 2).
Proof.
  apply (triple_try_finally _ _ _ (timed_launches 2) (timed_launches 2));
    [apply (triple_try_except _ _ _ _ (timed_launches 2)); [|intros []]|];
    unfold encode_try, encode_fallback, encode_except; launch_step.
Qed.

Lemma decode_launches req :
  triple (timed_launches 0) (decode ggwave cfg req)
    (fun _ => timed_launches 1) (timed_launches 1).
Proof.
  apply (triple_try_finally _ _ _ (timed_launches 1) (timed_launches 1));
    [apply (triple_try_except _ _ _ _ (timed_launches 1)); [|intros []]|];
    unfold decode_try, decode_except; launch_step.
Qed.

End Launches.

(** C36. Every process a handler starts is started with
    [timeout=REQUEST_TIMEOUT]: [encode] starts at most two (the file run and
    the standard-output fallback), [decode] at most one, whatever the
    binaries do and wherever the handler raises. *)
Theorem handlers_launch_with_timeout ggwave cfg :
  (forall req st, exists ls,
      hs_launched (snd (encode ggwave cfg req st)) = (hs_launched st ++ ls)%list
      /\ (length ls <= 2)%nat /\ Forall (fun i => inv_timeout i = REQUEST_TIMEOUT cfg) ls)
  /\ (forall req st, exists ls,
      hs_launched (snd (decode ggwave cfg req st)) = (hs_launched st ++ ls)%list
      /\ (length ls <= 1)%nat /\ Forall (fun i => inv_timeout i = REQUEST_TIMEOUT cfg) ls).
Proof.
  split; intros req st.
  - pose proof (encode_launches ggwave cfg (hs_launched st) req st) as T.
    destruct (encode ggwave cfg req st) as [[e|a] st']; apply T; exists []; rewrite app_nil_r; auto.
  - pose proof (decode_launches ggwave cfg (hs_launched st) req st) as T.
    destruct (decode ggwave cfg req st) as [[e|a] st']; apply T; exists []; rewrite app_nil_r; auto.
Qed.

(** ** Witnesses

    Concrete binaries: [demo_binary] writes [RIFF] to the file of [-f] and
    prints a report when given a file; [demo_stdout_binary] writes the WAV
    only to standard output; [demo_slow_binary] always times out. *)

Definition demo_binary : External := fun inv fs =>
  match inv_cmd inv with
  | [_; a] =>
      if String.prefix "-f" a then (Completed 0 EmptyString EmptyString, <[str_drop 2 a := "RIFF"]> fs)
      else (Completed 0 (ggwave_report 1 48000 16 100 "hello" ++ nl) EmptyString, fs)
  | _ => (Completed 0 EmptyString EmptyString, fs)
  end.

Definition demo_stdout_binary : External := fun inv fs =>
  match inv_cmd inv with
  | [_] => (Completed 0 "RIFFdata" EmptyString, fs)
  | _ => (Completed 0 EmptyString EmptyString, fs)
  end.

Definition demo_slow_binary : External := fun _ fs => (TimedOut, fs).

Lemma demo_binary_confined : confined demo_binary.
Proof.
  intros inv fs p Hp. unfold demo_binary.
  destruct (inv_cmd inv) as [|c [|a [|x l]]] eqn:E; cbn [snd]; try reflexivity.
  destruct (String.prefix "-f" a) eqn:Ea; [|reflexivity]. cbn [snd].
  unfold inv_paths in Hp. rewrite E in Hp. cbn [map tl] in Hp. unfold arg_path in Hp.
  rewrite Ea in Hp.
  assert (Hin : str_drop 2 a ∈ [p]) by (apply Hp; left).
  apply list_elem_of_singleton in Hin. rewrite Hin. apply agree_except_insert.
Qed.

Definition demo_cfg : Config := default_config 4.

Definition demo_state : HState := mkHState ∅ (increment_total (init 0)) [] [] None.

Definition demo_encode_request : EncodeRequest :=
  mkEncodeRequest (JsonValue (PDict [("text", PStr "hello")])) [] ["abc"] false false.

Definition demo_decode_request : DecodeRequest :=
  mkDecodeRequest (Some ("hello.wav", "RIFF")) ["abc"] false 12 "FSKWorker_0".

Lemma encode_leaves_no_artifact_witness :
  hs_fs (snd (encode demo_binary demo_cfg demo_encode_request demo_state)) = hs_fs demo_state.
Proof.
  apply encode_leaves_no_artifact; [exact demo_binary_confined | reflexivity | reflexivity].
Defined.

Lemma decode_leaves_no_artifact_witness :
  hs_fs (snd (decode demo_binary demo_cfg demo_decode_request demo_state)) = hs_fs demo_state.
Proof.
  apply decode_leaves_no_artifact; [exact demo_binary_confined | reflexivity | reflexivity].
Defined.

Lemma decode_report_200_witness :
  fst (decode demo_binary demo_cfg demo_decode_request demo_state)
  = inr (RJson 200 (parse_result_json
      (mkParseResult true
         (mkAudioInfo (Some (Z.of_nat 1)) (Some (Z.of_nat 48000)) (Some (Z.of_nat 16))
            (Some (Z.of_nat 100)))
         "hello" (String.length "hello") None)
      (dec_thread demo_decode_request) (dec_elapsed_ms demo_decode_request)))
  /\ hs_mlog (snd (decode demo_binary demo_cfg demo_decode_request demo_state))
     = (hs_mlog demo_state ++ [DecActive true "decode"])%list.
Proof.
  eapply (decode_report_200 demo_binary demo_cfg demo_decode_request demo_state
            "hello.wav" "RIFF" "abc" [] EmptyString); try reflexivity; vm_compute; lia.
Defined.

Definition demo_encode_request_send_fails : EncodeRequest :=
  mkEncodeRequest (JsonValue (PDict [("text", PStr "hello")])) [] ["abc"] true false.

Lemma encode_metric_calls_witness :
  fst (encode demo_binary demo_cfg demo_encode_request_send_fails demo_state)
  = inr (error_response 500 "Unexpected error: OSError")
  /\ hs_mlog (snd (encode demo_binary demo_cfg demo_encode_request_send_fails demo_state))
     = (hs_mlog demo_state ++ [DecActive true "encode"; DecActive false "encode"])%list.
Proof.
  destruct (encode_metric_calls demo_binary demo_cfg demo_encode_request_send_fails demo_state)
    as (_ & _ & H).
  apply (H "hello" "abc" [] 0 EmptyString EmptyString "RIFF"
           (<[temp_path "abc" := "RIFF"]> (<[temp_path "abc" := EmptyString]> ∅)));
    try reflexivity; discriminate.
Defined.

Lemma encode_first_tier_witness :
  fst (encode demo_binary demo_cfg demo_encode_request demo_state)
  = inr (RFile "audio/wav" "encoded.wav" "RIFF")
  /\ hs_mlog (snd (encode demo_binary demo_cfg demo_encode_request demo_state))
     = (hs_mlog demo_state ++ [DecActive true "encode"])%list
  /\ hs_launched (snd (encode demo_binary demo_cfg demo_encode_request demo_state))
     = (hs_launched demo_state ++ [encode_invocation demo_cfg (temp_path "abc") "hello"])%list.
Proof.
  apply (encode_first_tier demo_binary demo_cfg demo_encode_request demo_state "hello" "abc" []
           0 EmptyString EmptyString "RIFF"
           (<[temp_path "abc" := "RIFF"]> (<[temp_path "abc" := EmptyString]> ∅)));
    try reflexivity; discriminate.
Defined.

Lemma encode_second_tier_witness :
  fst (encode demo_stdout_binary demo_cfg demo_encode_request demo_state)
  = inr (RFile "audio/wav" "encoded.wav" "RIFFdata")
  /\ hs_launched (snd (encode demo_stdout_binary demo_cfg demo_encode_request demo_state))
     = (hs_launched demo_state ++ [encode_invocation demo_cfg (temp_path "abc") "hello";
                                  encode_stdout_invocation demo_cfg "hello"])%list.
Proof.
  apply (encode_second_tier demo_stdout_binary demo_cfg demo_encode_request demo_state "hello"
           "abc" [] 0 0 EmptyString EmptyString "RIFFdata" EmptyString
           (<[temp_path "abc" := EmptyString]> ∅) (<[temp_path "abc" := EmptyString]> ∅));
    try reflexivity; try discriminate. right. reflexivity.
Defined.

Lemma encode_timeout_504_witness :
  fst (encode demo_slow_binary demo_cfg demo_encode_request demo_state)
  = inr (error_response 504 "Encoding process timed out")
  /\ hs_mlog (snd (encode demo_slow_binary demo_cfg demo_encode_request demo_state))
     = (hs_mlog demo_state ++ [DecActive false "encode"])%list.
Proof.
  apply (encode_timeout_504 demo_slow_binary demo_cfg demo_encode_request demo_state "hello"
           "abc" [] (<[temp_path "abc" := EmptyString]> ∅)); try reflexivity; discriminate.
Defined.

Lemma encode_rejects_missing_text_witness :
  encode demo_binary demo_cfg (mkEncodeRequest JsonNone [("name", "x")] ["abc"] false false)
    demo_state
  = (inr (error_response 400 "No text provided"), after_decrement false "encode" demo_state).
Proof. apply (encode_rejects_missing_text _ _ _ _ None); reflexivity. Defined.

Lemma decode_rejects_non_wav_witness :
  decode demo_binary demo_cfg
    (mkDecodeRequest (Some ("notes.txt", "text")) ["abc"] false 3 "FSKWorker_1") demo_state
  = (inr (error_response 400 "File must be a WAV file"), after_decrement false "decode" demo_state).
Proof. apply (decode_rejects_non_wav _ _ _ _ "notes.txt" "text"); reflexivity. Defined.

(** A binary that fails with a diagnostic, one that prints a report without
    the completion line, and one that produces nothing. *)
Definition demo_failing_binary : External := fun _ fs =>
  (Completed 1 ("  partial" ++ nl) "Failed to open file", fs).

Definition demo_undone_binary : External := fun _ fs =>
  (Completed 0 ("[+] Sample rate: 48000" ++ nl) EmptyString, fs).

Definition demo_mute_binary : External := fun _ fs => (Completed 0 EmptyString EmptyString, fs).

Lemma decode_nonzero_exit_500_witness :
  fst (decode demo_failing_binary demo_cfg demo_decode_request demo_state)
  = inr (RJson 500 (JObj [("error", JStr "Failed to decode audio");
                          ("stderr", JStr "Failed to open file");
                          ("stdout", JStr (py_strip ("  partial" ++ nl)))]))
  /\ hs_mlog (snd (decode demo_failing_binary demo_cfg demo_decode_request demo_state))
     = (hs_mlog demo_state ++ [DecActive false "decode"])%list.
Proof.
  apply (decode_nonzero_exit_500 demo_failing_binary demo_cfg demo_decode_request demo_state
           "hello.wav" "RIFF" "abc" [] 1 ("  partial" ++ nl) "Failed to open file"
           (<[temp_path "abc" := "RIFF"]> (<[temp_path "abc" := EmptyString]> ∅)));
    try reflexivity; discriminate.
Defined.

Lemma decode_parse_failure_500_witness :
  fst (decode demo_undone_binary demo_cfg demo_decode_request demo_state)
  = inr (RJson 500 (JObj [("error", JStr "Failed to parse decode output");
                          ("details", JStr "Unknown parsing error");
                          ("processing_time_seconds", JMillis (dec_elapsed_ms demo_decode_request))]))
  /\ hs_mlog (snd (decode demo_undone_binary demo_cfg demo_decode_request demo_state))
     = (hs_mlog demo_state ++ [DecActive false "decode"])%list.
Proof.
  apply (decode_parse_failure_500 demo_undone_binary demo_cfg demo_decode_request demo_state
           "hello.wav" "RIFF" "abc" [] ("[+] Sample rate: 48000" ++ nl) EmptyString
           (<[temp_path "abc" := "RIFF"]> (<[temp_path "abc" := EmptyString]> ∅)));
    try reflexivity; vm_compute; reflexivity.
Defined.

Lemma encode_no_audio_500_witness :
  fst (encode demo_mute_binary demo_cfg demo_encode_request demo_state)
  = inr (error_response 500 "Failed to encode text to audio")
  /\ hs_mlog (snd (encode demo_mute_binary demo_cfg demo_encode_request demo_state))
     = (hs_mlog demo_state ++ [DecActive false "encode"])%list
  /\ hs_launched (snd (encode demo_mute_binary demo_cfg demo_encode_request demo_state))
     = (hs_launched demo_state ++ [encode_invocation demo_cfg (temp_path "abc") "hello";
                                  encode_stdout_invocation demo_cfg "hello"])%list.
Proof.
  apply (encode_no_audio_500 demo_mute_binary demo_cfg demo_encode_request demo_state "hello"
           "abc" [] 0 0 EmptyString EmptyString EmptyString EmptyString
           (<[temp_path "abc" := EmptyString]> ∅) (<[temp_path "abc" := EmptyString]> ∅));
    try reflexivity; try discriminate; right; reflexivity.
Defined.

End Handlers.
