(* ===== verification/Server.v ===== *)
(** * The gateway under concurrent requests (the decorated routes [/encode]
    and [/decode] of src/fskhttp.py lines 99-120, 221-223 and 302-304)

    Requests run on Flask's threads.  Each decorated route owns the
    semaphore its [rate_limit_decorator()] call created; the metrics
    registry is shared.  A request goes through four atomic steps:
    [acquire] (or an immediate 503), [increment_total], the handler's
    registry calls, [release].  Threads of one route in one phase are
    interchangeable, so the state counts them.  The handler's registry
    calls are those [Handlers] proves a handler makes
    ([handler_contract]).  Steps form the relation [step]; [reachable] is
    its closure from the start state. *)

From S2P Require Import Prelude Metrics Http Admission Config Runtime Handlers.
From Stdlib Require Import String ZArith List Lia.
From stdpp Require Import base gmap strings.
Import ListNotations Metrics.Metrics Http.Http Admission.Admission Runtime.Runtime
  Handlers.Handlers.
Local Open Scope string_scope.
Local Open Scope Z_scope.

Module Server.

Inductive Route := REncode | RDecode.

Definition route_name (r : Route) : string :=
  match r with REncode => "encode" | RDecode => "decode" end.

(** The registry calls one run of a route's handler makes: one
    [decrement_active] with the route's name, or, for [encode] when
    [send_file] raises, a success call followed by a failure call. *)
Definition handler_contract (r : Route) (ops : list MetricOp) : Prop :=
  (exists b, ops = [DecActive b (route_name r)])
  \/ (r = REncode /\ ops = [DecActive true "encode"; DecActive false "encode"]).

Section Gateway.
Context {Sem : Type} {NBS : NonBlockingSemaphore Sem} {SL : SemaphoreLaws Sem}.

Record Server := mkServer {
  sem_encode : Sem;
  sem_decode : Sem;
  srv_metrics : Metrics;
  acquired : Route -> nat;     (** holding a permit, not yet counted *)
  running : Route -> nat;      (** counted, handler not finished *)
  finished : Route -> nat      (** handler finished, permit not yet released *)
}.

Definition sem_of (r : Route) (s : Server) : Sem :=
  match r with REncode => sem_encode s | RDecode => sem_decode s end.

Definition upd (f : Route -> nat) (r : Route) (g : nat -> nat) : Route -> nat :=
  fun r' => if (match r, r' with
                | REncode, REncode | RDecode, RDecode => true
                | _, _ => false end) then g (f r') else f r'.

Definition with_sem (r : Route) (x : Sem) (s : Server) : Server :=
  match r with
  | REncode => mkServer x (sem_decode s) (srv_metrics s) (acquired s) (running s) (finished s)
  | RDecode => mkServer (sem_encode s) x (srv_metrics s) (acquired s) (running s) (finished s)
  end.

(** [wrapper]'s first line: [semaphore.acquire(blocking=False)]; on failure
    the 503 response reads [metrics.active_requests]. *)
Definition arrive (r : Route) (s : Server) : option Response * Server :=
  match sem_try_acquire (sem_of r s) with
  | None => (Some (overload_response (active_requests (srv_metrics s))), s)
  | Some x =>
      let s1 := with_sem r x s in
      (None, mkServer (sem_encode s1) (sem_decode s1) (srv_metrics s1)
               (upd (acquired s1) r S) (running s1) (finished s1))
  end.

(** [metrics.increment_total()] *)
Definition count (r : Route) (s : Server) : Server :=
  mkServer (sem_encode s) (sem_decode s) (increment_total (srv_metrics s))
    (upd (acquired s) r pred) (upd (running s) r S) (finished s).

(** The handler's body returns after its registry calls [ops]. *)
Definition finish (r : Route) (ops : list MetricOp) (s : Server) : Server :=
  mkServer (sem_encode s) (sem_decode s) (run_ops ops (srv_metrics s))
    (acquired s) (upd (running s) r pred) (upd (finished s) r S).

(** [finally: semaphore.release()] *)
Definition release (r : Route) (s : Server) : Server :=
  let s1 := with_sem r (sem_release (sem_of r s)) s in
  mkServer (sem_encode s1) (sem_decode s1) (srv_metrics s1)
    (acquired s1) (running s1) (upd (finished s1) r pred).

Variable contract : Route -> list MetricOp -> Prop.

Inductive step : Server -> Server -> Prop :=
| step_arrive r s o s' : arrive r s = (o, s') -> step s s'
| step_count r s : (0 < acquired s r)%nat -> step s (count r s)
| step_finish r ops s : (0 < running s r)%nat -> contract r ops -> step s (finish r ops s)
| step_release r s : (0 < finished s r)%nat -> step s (release r s).

Variable sem0 : Sem.
Variable now0 : Z.

(** Start: both semaphores fresh, the registry new, no request. *)
Definition init : Server :=
  mkServer sem0 sem0 (init now0) (fun _ => O) (fun _ => O) (fun _ => O).

Inductive reachable : Server -> Prop :=
| reach_init : reachable init
| reach_step s s' : reachable s -> step s s' -> reachable s'.

(** The requests of a route holding a permit. *)
Definition in_flight (r : Route) (s : Server) : nat :=
  (acquired s r + running s r + finished s r)%nat.

End Gateway.


(** ** Lemmas on the state updates *)

Lemma upd_same (f : Route -> nat) r g : upd f r g r = g (f r).
Proof. destruct r; reflexivity. Qed.

Lemma upd_other (f : Route -> nat) r r' g : r <> r' -> upd f r g r' = f r'.
Proof. intros H; destruct r, r'; unfold upd; simpl; congruence. Qed.

Lemma route_eq_dec (r r' : Route) : {r = r'} + {r <> r'}.
Proof. decide equality. Qed.

#[export] Hint Rewrite upd_same : fsk_str.

Section Invariants.
Context {Sem : Type} {NBS : NonBlockingSemaphore Sem} {SL : SemaphoreLaws Sem}.

Lemma sem_of_with_sem_same r (x : Sem) s : sem_of r (with_sem r x s) = x.
Proof. destruct r; reflexivity. Qed.

Lemma sem_of_with_sem_other r r' (x : Sem) s : r <> r' -> sem_of r' (with_sem r x s) = sem_of r' s.
Proof. intros Hrr; destruct r, r'; simpl; congruence. Qed.

Variable max : Z.
Variable sem0 : Sem.
Hypothesis sem0_value : sem_value sem0 = max.
Hypothesis max_nonneg : 0 <= max.
Variable now0 : Z.

(** Per route, the free permits and the requests holding one add up to
    [MAX_CONCURRENT_REQUESTS]. *)
Definition sem_inv (s : Server) : Prop :=
  forall r, 0 <= sem_value (sem_of r s) /\ sem_value (sem_of r s) + Z.of_nat (in_flight r s) = max.

Lemma sem_inv_init : sem_inv (init sem0 now0).
Proof. intros r; destruct r; unfold in_flight; simpl; lia. Qed.

Ltac srv_simpl :=
  unfold in_flight, count, finish, release, with_sem in *; simpl in *; unfold upd in *;
  simpl in *.

Lemma sem_inv_step contract s s' : sem_inv s -> step contract s s' -> sem_inv s'.
Proof.
  intros Hinv Hs r'. destruct Hs as [r s o s' Ha | r s Hc | r ops s Hc _ | r s Hc].
  - unfold arrive in Ha. destruct (sem_try_acquire (sem_of r s)) as [x|] eqn:E;
      injection Ha as <- <-; [|exact (Hinv r')].
    destruct (Hinv r) as [H0 H1]. apply sem_acquire_some in E as [Epos Ev]; [|exact H0].
    destruct (Hinv r') as [H0' H1'].
    destruct (route_eq_dec r r') as [<-|Hne].
    + destruct r; srv_simpl; lia.
    + destruct r, r'; srv_simpl; try congruence; lia.
  - destruct (Hinv r') as [H0 H1]. destruct r, r'; srv_simpl; lia.
  - destruct (Hinv r') as [H0 H1]. destruct r, r'; srv_simpl; lia.
  - destruct (Hinv r) as [H0 H1]. destruct (Hinv r') as [H0' H1'].
    pose proof (sem_release_value (sem_of r s)) as Hrel.
    destruct r, r'; srv_simpl; lia.
Qed.

Lemma reachable_sem_inv contract s :
  reachable contract sem0 now0 s -> sem_inv s.
Proof.
  induction 1; [apply sem_inv_init | eapply sem_inv_step; eauto].
Qed.

(** C2. At most [MAX_CONCURRENT_REQUESTS] requests of one route hold a permit. *)
Theorem in_flight_bounded contract s r :
  reachable contract sem0 now0 s -> Z.of_nat (in_flight r s) <= max.
Proof. intros H. destruct (reachable_sem_inv contract s H r). lia. Qed.

(** C1. A new request of a route is admitted exactly when fewer than
    [MAX_CONCURRENT_REQUESTS] requests of that route hold a permit: it then
    holds one more permit with the registry untouched; otherwise it gets
    the 503 body with [retry_after_seconds = 5] and the current
    [active_requests], and the state is left exactly as it was. *)
Theorem arrive_decision contract s r :
  reachable contract sem0 now0 s ->
  (Z.of_nat (in_flight r s) < max ->
     exists s', arrive r s = (None, s') /\ in_flight r s' = S (in_flight r s)
                /\ srv_metrics s' = srv_metrics s)
  /\ (max <= Z.of_nat (in_flight r s) ->
        arrive r s = (Some (overload_response (active_requests (srv_metrics s))), s)).
Proof.
  intros H. destruct (reachable_sem_inv contract s H r) as [H0 H1]. unfold arrive. split.
  - intros Hlt. destruct (sem_acquire_free (sem_of r s)) as [x Ex]; [lia|]. rewrite Ex.
    eexists; split; [reflexivity|]. destruct r; srv_simpl; (split; [lia|reflexivity]).
  - intros Hge. destruct (sem_try_acquire (sem_of r s)) as [x|] eqn:E; [|reflexivity].
    apply sem_acquire_some in E as [Hpos _]; lia.
Qed.

Lemma arrive_admits contract s r :
  reachable contract sem0 now0 s -> Z.of_nat (in_flight r s) < max ->
  exists s', arrive r s = (None, s') /\ in_flight r s' = S (in_flight r s)
             /\ (forall r', r' <> r -> in_flight r' s' = in_flight r' s).
Proof.
  intros H Hlt. destruct (reachable_sem_inv contract s H r) as [H0 H1]. unfold arrive.
  destruct (sem_acquire_free (sem_of r s)) as [x Ex]; [lia|]. rewrite Ex.
  eexists; split; [reflexivity|]. split.
  - destruct r; srv_simpl; lia.
  - intros r' Hne. destruct r, r'; srv_simpl; congruence.
Qed.

Lemma admit_many contract s r (k : nat) :
  reachable contract sem0 now0 s -> Z.of_nat (in_flight r s) + Z.of_nat k <= max ->
  exists s', reachable contract sem0 now0 s' /\ in_flight r s' = (in_flight r s + k)%nat
             /\ (forall r', r' <> r -> in_flight r' s' = in_flight r' s).
Proof.
  revert s; induction k as [|k IH]; intros s H Hk.
  - exists s. split; [exact H|]. split; [lia | auto].
  - destruct (arrive_admits contract s r H) as (s1 & E1 & F1 & O1); [lia|].
    assert (R1 : reachable contract sem0 now0 s1) by (eapply reach_step; [exact H | econstructor; exact E1]).
    destruct (IH s1 R1) as (s2 & R2 & F2 & O2); [lia|].
    exists s2. split; [exact R2|]. split; [lia|]. intros r' Hne. rewrite O2, O1; auto.
Qed.

Lemma arrive_admitted_state r (s s' : @Server Sem) :
  arrive r s = (None, s') ->
  acquired s' r = S (acquired s r) /\ srv_metrics s' = srv_metrics s.
Proof.
  unfold arrive. destruct (sem_try_acquire (sem_of r s)); [|discriminate].
  intros E; injection E as <-. destruct r; srv_simpl; auto.
Qed.

Lemma in_flight_count r r' (s : @Server Sem) :
  (0 < acquired s r)%nat -> in_flight r' (count r s) = in_flight r' s.
Proof. intros Hpos. destruct r, r'; srv_simpl; lia. Qed.

(** [k] more requests of route [r] admitted and counted: [active_requests]
    grows by [k] and the other route is untouched. *)
Lemma admit_count_many contract s r (k : nat) :
  reachable contract sem0 now0 s -> Z.of_nat (in_flight r s) + Z.of_nat k <= max ->
  exists s', reachable contract sem0 now0 s' /\ in_flight r s' = (in_flight r s + k)%nat
    /\ active_requests (srv_metrics s') = active_requests (srv_metrics s) + Z.of_nat k
    /\ (forall r', r' <> r -> in_flight r' s' = in_flight r' s).
Proof.
  revert s; induction k as [|k IH]; intros s H Hk.
  - exists s. split; [exact H|]. split; [lia|]. split; [lia | auto].
  - destruct (arrive_admits contract s r H) as (s1 & E1 & F1 & O1); [lia|].
    destruct (arrive_admitted_state r s s1 E1) as [A1 M1].
    assert (R2 : reachable contract sem0 now0 (count r s1)).
    { eapply reach_step; [eapply reach_step; [exact H | econstructor; exact E1]|].
      apply step_count; lia. }
    destruct (IH (count r s1) R2) as (s2 & R3 & F3 & M3 & O3);
      [rewrite (in_flight_count r r s1) by lia; lia|].
    exists s2. split; [exact R3|]. split; [|split].
    + rewrite F3, (in_flight_count r r s1) by lia. lia.
    + rewrite M3. unfold count; cbn [srv_metrics]. rewrite M1. cbn. lia.
    + intros r' Hne. rewrite O3, (in_flight_count r r' s1), O1 by (auto; lia). reflexivity.
Qed.

(** C3. Each decorated route has its own semaphore, so [2 * MAX_CONCURRENT_REQUESTS]
    requests can hold a permit at once: [MAX] on [/encode] and [MAX] on
    [/decode]. *)
Theorem two_routes_double_capacity contract :
  exists s, reachable contract sem0 now0 s
    /\ Z.of_nat (in_flight REncode s + in_flight RDecode s) = 2 * max.
Proof.
  destruct (admit_many contract (init sem0 now0) REncode (Z.to_nat max)) as (s1 & R1 & F1 & O1);
    [constructor | unfold in_flight; simpl; lia|].
  destruct (admit_many contract s1 RDecode (Z.to_nat max)) as (s2 & R2 & F2 & O2);
    [exact R1 | rewrite O1 by discriminate; unfold in_flight; simpl; lia|].
  exists s2. split; [exact R2|]. rewrite F2, O2 by discriminate. rewrite F1, O1 by discriminate.
  unfold in_flight, init; cbn [acquired running finished]. lia.
Qed.

Lemma handler_contract_typed r ops : handler_contract r ops -> forallb typed_op ops = true.
Proof. intros [[b ->]|[-> ->]]; [destruct r|]; reflexivity. Qed.

(** C21. With the registry calls the handlers make, the counters stay
    consistent in every reachable state of the gateway, as the spec's
    section 3 asks: [active = total - successful - failed], and
    [encode_requests + decode_requests = successful + failed], every
    finished call being counted once under its outcome and once under its
    type. *)
Theorem reachable_counts_consistent s :
  reachable handler_contract sem0 now0 s -> counts_consistent (srv_metrics s).
Proof.
  induction 1 as [|s s' _ IH Hs]; [apply init_consistent|].
  destruct Hs as [r s o s' Ha | r s _ | r ops s _ Hc | r s _].
  - unfold arrive in Ha. destruct (sem_try_acquire _); injection Ha as <- <-;
      [destruct r; exact IH | exact IH].
  - exact (apply_op_consistent _ IncTotal eq_refl IH).
  - exact (run_ops_consistent ops _ (handler_contract_typed r ops Hc) IH).
  - destruct r; exact IH.
Qed.

(** C4. With handlers that call [decrement_active] once, [active_requests] is
    the number of counted requests whose handler has not returned: never
    negative and never above [2 * MAX]. *)
Theorem active_counts_running (contract : Route -> list MetricOp -> Prop) s :
  (forall r ops, contract r ops -> exists b, ops = [DecActive b (route_name r)]) ->
  reachable contract sem0 now0 s ->
  active_requests (srv_metrics s) = Z.of_nat (running s REncode + running s RDecode).
Proof.
  intros Hc. induction 1 as [|s s' _ IH Hs]; [reflexivity|].
  destruct Hs as [r s o s' Ha | r s Hpos | r ops s Hpos Hops | r s _].
  - unfold arrive in Ha. destruct (sem_try_acquire _); injection Ha as <- <-;
      [destruct r; srv_simpl; exact IH | exact IH].
  - destruct r; srv_simpl; lia.
  - destruct (Hc r ops Hops) as [b ->].
    destruct r; srv_simpl; lia.
  - destruct r; srv_simpl; exact IH.
Qed.

End Invariants.

(** One [encode] request whose [send_file] raises, run alone from the
    start state up to its handler's return. *)
Lemma one_encode_run {Sem : Type} {NBS : NonBlockingSemaphore Sem}
    {SL : SemaphoreLaws Sem} (sem0 : Sem) (now0 : Z) (ops : list MetricOp) :
  0 < sem_value sem0 -> handler_contract REncode ops ->
  reachable handler_contract sem0 now0
    (finish REncode ops (count REncode (snd (arrive REncode (init sem0 now0)))))
  /\ srv_metrics (finish REncode ops (count REncode (snd (arrive REncode (init sem0 now0)))))
     = run_ops ops (increment_total (Metrics.init now0)).
Proof.
  intros Hpos Hc.
  destruct (sem_acquire_free sem0 Hpos) as [x Ex].
  set (s1 := snd (arrive REncode (init sem0 now0))).
  assert (R1 : reachable handler_contract sem0 now0 s1).
  { eapply reach_step; [constructor|].
    eapply step_arrive with (r := REncode) (o := fst (arrive REncode (init sem0 now0))).
    unfold s1. apply surjective_pairing. }
  assert (A1 : acquired s1 REncode = 1%nat) by (unfold s1, arrive; simpl; rewrite Ex; reflexivity).
  assert (R2 : reachable handler_contract sem0 now0 (count REncode s1))
    by (eapply reach_step; [exact R1 | apply step_count; lia]).
  split.
  - eapply reach_step; [exact R2|]. apply step_finish; [unfold count, upd; simpl; lia|exact Hc].
  - unfold s1, arrive; simpl; rewrite Ex. reflexivity.
Qed.

Lemma send_file_failure_run {Sem : Type} {NBS : NonBlockingSemaphore Sem}
    {SL : SemaphoreLaws Sem} (sem0 : Sem) (now0 : Z) :
  0 < sem_value sem0 ->
  exists s, reachable handler_contract sem0 now0 s /\ active_requests (srv_metrics s) = -1.
Proof.
  intros Hpos.
  destruct (one_encode_run sem0 now0 [DecActive true "encode"; DecActive false "encode"] Hpos)
    as [R M]; [right; split; reflexivity|].
  eexists; split; [exact R|]. rewrite M. reflexivity.
Qed.

(** C5. The double decrement of [encode] reaches the gateway: when the first
    tier has produced the audio and [send_file] raises, the calls [encode]
    makes are allowed by the gateway's contract, and in a fresh gateway
    that admits this one request, once it has returned,
    [active_requests] is [-1] (one request counted, two exits). *)
Theorem active_requests_negative {Sem : Type} {NBS : NonBlockingSemaphore Sem}
    {SL : SemaphoreLaws Sem} (sem0 : Sem) (now0 : Z)
    (ggwave : External) (cfg : Config.Config) (req : EncodeRequest) (st : HState)
    (s r : string) (rs : list string) (rc : Z) (out err c : string) (fs1 : gmap string string) :
  0 < sem_value sem0 ->
  hs_tmp st = None -> request_text req = inr (Some (PStr s)) -> s <> EmptyString ->
  enc_tmp_names req = r :: rs -> hs_fs st !! temp_path r = None ->
  ggwave (encode_invocation cfg (temp_path r) s) (<[temp_path r := EmptyString]> (hs_fs st))
    = (Completed rc out err, fs1) ->
  fs1 !! temp_path r = Some c -> c <> EmptyString -> enc_send_fails req = true ->
  exists ops,
    hs_mlog (snd (encode ggwave cfg req st)) = (hs_mlog st ++ ops)%list
    /\ reachable handler_contract sem0 now0
         (finish REncode ops (count REncode (snd (arrive REncode (init sem0 now0)))))
    /\ active_requests (srv_metrics
         (finish REncode ops (count REncode (snd (arrive REncode (init sem0 now0)))))) = -1.
Proof.
  intros Hpos Ht Hr Hs Hn Hfree Hg Hc Hne Hsend.
  destruct (encode_first_tier_run ggwave cfg req st s r rs rc out err c fs1
              Ht Hr Hs Hn Hfree Hg Hc Hne) as (_ & E & _).
  rewrite Hsend in E. exists [DecActive true "encode"; DecActive false "encode"].
  destruct (one_encode_run sem0 now0 [DecActive true "encode"; DecActive false "encode"] Hpos)
    as [R M]; [right; split; reflexivity|].
  split_and!; [exact E | exact R | rewrite M; reflexivity].
Qed.

(** The handlers of [Handlers] make exactly the registry calls the
    gateway's [finish] step allows. *)
Theorem handlers_meet_contract :
  (forall ggwave cfg req st, exists ops,
      hs_mlog (snd (encode ggwave cfg req st)) = (hs_mlog st ++ ops)%list
      /\ handler_contract REncode ops)
  /\ (forall ggwave cfg req st, exists ops,
      hs_mlog (snd (decode ggwave cfg req st)) = (hs_mlog st ++ ops)%list
      /\ handler_contract RDecode ops).
Proof.
  split; intros ggwave cfg req st.
  - destruct (encode_metric_log ggwave cfg req st) as [[b Hb] | [_ Hb]]; eexists;
      (split; [exact Hb|]); [left; eexists; reflexivity | right; split; reflexivity].
  - destruct (decode_metric_log ggwave cfg req st) as [b Hb].
    eexists; split; [exact Hb | left; eexists; reflexivity].
Qed.


(** ** Witnesses, with CPython's semaphore *)

Definition any_calls : Route -> list MetricOp -> Prop := fun _ _ => True.

Definition single_calls : Route -> list MetricOp -> Prop :=
  fun r ops => exists b, ops = [DecActive b (route_name r)].

Definition srv0 (max : Z) : Server := init (mkPySemaphore max) 0.

(** With [MAX = 1], one [/encode] request in flight: the next one gets the
    503 body. *)
Lemma arrive_decision_witness :
  arrive REncode (snd (arrive REncode (srv0 1)))
  = (Some (overload_response (active_requests (srv_metrics (snd (arrive REncode (srv0 1)))))),
     snd (arrive REncode (srv0 1))).
Proof.
  assert (R : reachable any_calls (mkPySemaphore 1) 0 (snd (arrive REncode (srv0 1)))).
  { eapply reach_step; [constructor|].
    eapply step_arrive with (r := REncode) (o := fst (arrive REncode (srv0 1))).
    apply surjective_pairing. }
  apply (@arrive_decision PySemaphore py_semaphore_ops py_semaphore_laws 1 (mkPySemaphore 1)
           ltac:(reflexivity) ltac:(lia) 0 any_calls _ REncode R).
  vm_compute. discriminate.
Defined.

Lemma in_flight_bounded_witness :
  Z.of_nat (in_flight RDecode (snd (arrive RDecode (srv0 2)))) <= 2.
Proof.
  apply (@in_flight_bounded PySemaphore py_semaphore_ops py_semaphore_laws 2 (mkPySemaphore 2) ltac:(reflexivity) ltac:(lia) 0 any_calls).
  eapply reach_step; [constructor|].
  eapply step_arrive with (r := RDecode) (o := fst (arrive RDecode (srv0 2))).
  apply surjective_pairing.
Defined.

Lemma two_routes_double_capacity_witness :
  exists s, reachable any_calls (mkPySemaphore 3) 0 s
    /\ Z.of_nat (in_flight REncode s + in_flight RDecode s) = 2 * 3.
Proof. exact (@two_routes_double_capacity PySemaphore py_semaphore_ops py_semaphore_laws 3 (mkPySemaphore 3) ltac:(reflexivity) ltac:(lia) 0 any_calls). Defined.

Lemma active_counts_running_witness :
  active_requests (srv_metrics (count REncode (snd (arrive REncode (srv0 2)))))
  = Z.of_nat (running (count REncode (snd (arrive REncode (srv0 2)))) REncode
              + running (count REncode (snd (arrive REncode (srv0 2)))) RDecode).
Proof.
  apply (@active_counts_running PySemaphore py_semaphore_ops (mkPySemaphore 2) 0 single_calls).
  - intros r ops H. exact H.
  - eapply reach_step; [eapply reach_step; [constructor|]|].
    + eapply step_arrive with (r := REncode) (o := fst (arrive REncode (srv0 2))).
      apply surjective_pairing.
    + apply step_count. vm_compute. lia.
Defined.

Lemma active_requests_negative_witness :
  exists ops,
    hs_mlog (snd (encode demo_binary demo_cfg demo_encode_request_send_fails demo_state))
      = (hs_mlog demo_state ++ ops)%list
    /\ reachable handler_contract (mkPySemaphore 1) 0
         (finish REncode ops (count REncode (snd (arrive REncode (init (mkPySemaphore 1) 0)))))
    /\ active_requests (srv_metrics
         (finish REncode ops (count REncode (snd (arrive REncode (init (mkPySemaphore 1) 0))))))
       = -1.
Proof.
  apply (@active_requests_negative PySemaphore _ _ (mkPySemaphore 1) 0 demo_binary demo_cfg
           demo_encode_request_send_fails demo_state "hello" "abc" [] 0 EmptyString EmptyString
           "RIFF" (<[temp_path "abc" := "RIFF"]> (<[temp_path "abc" := EmptyString]> ∅)));
    try reflexivity; try discriminate; vm_compute; reflexivity.
Defined.

Lemma reachable_counts_consistent_witness :
  counts_consistent (srv_metrics (count REncode (snd (arrive REncode (srv0 5))))).
Proof.
  apply (@reachable_counts_consistent PySemaphore py_semaphore_ops (mkPySemaphore 5) 0).
  eapply reach_step; [|apply step_count; vm_compute; lia].
  eapply reach_step; [constructor|].
  eapply step_arrive with (r := REncode) (o := fst (arrive REncode (srv0 5))).
  apply surjective_pairing.
Defined.

End Server.
