(* ===== verification/Health.v ===== *)
(** * The health endpoint ([health], src/fskhttp.py lines 386-446)

    [health] samples the host through [psutil], checks the two binaries
    with [os.path.exists] and [os.access], reads [metrics.get_stats()] and
    answers 200 [healthy] or 503 [degraded]; an exception while sampling
    answers 503 [unhealthy].  The readings are the record [Probe] (or the
    message of the exception raised while taking them); floats are the
    rationals they denote.  The file proves when the endpoint answers 200,
    the rounding bound of the [_gb] gauges, and that the endpoint can report
    [degraded] while the gateway still admits requests. *)

From S2P Require Import Prelude Metrics Http Config Admission Server.
From Stdlib Require Import String ZArith QArith List Lia Bool.
Import ListNotations Metrics.Metrics Http.Http Config.Config Admission.Admission
  Server.Server.
Local Open Scope string_scope.
Local Open Scope Z_scope.

Module Health.

(** What the endpoint reads from the host. *)
Record Probe := mkProbe {
  cpu_percent : Q;          (** [psutil.cpu_percent(interval=0.1)] *)
  memory_percent : Q;       (** [psutil.virtual_memory().percent] *)
  memory_available : Z;     (** [psutil.virtual_memory().available], bytes *)
  disk_percent : Q;         (** [psutil.disk_usage('/').percent] *)
  disk_free : Z;            (** [psutil.disk_usage('/').free], bytes *)
  active_threads : Z;       (** [threading.active_count()] *)
  to_file_exists : bool;    (** [os.path.exists(Config.GGWAVE_TO_FILE)] *)
  to_file_exec : bool;      (** [os.access(Config.GGWAVE_TO_FILE, os.X_OK)] *)
  from_file_exists : bool;
  from_file_exec : bool
}.

(** [x > 90] on a float. *)
Definition over_90 (x : Q) : bool := negb (Qle_bool x 90).

(** [round(n / d)] for [d > 0]: the nearest integer, ties to even, as
    CPython rounds the exact value of a float. *)
Definition round_half_even (n d : Z) : Z :=
  let q := n / d in
  match Z.compare (2 * (n mod d)) d with
  | Lt => q
  | Gt => q + 1
  | Eq => if Z.even q then q else q + 1
  end.

(** [round(b / (1024**3), 2)] in hundredths: [b / 2^30] is exact in
    binary, so the result is the exact quotient rounded half to even. *)
Definition gb_round2 (b : Z) : Z := round_half_even (100 * b) (1024 ^ 3).

(** [metrics.get_stats()] as JSON: [uptime_seconds] is
    [timedelta.total_seconds()]; [requests_per_second] is the int [0] when
    the uptime is not positive. *)
Definition stats_json (st : Stats) : Json :=
  JObj [("total_requests", JInt (st_total_requests st));
        ("active_requests", JInt (st_active_requests st));
        ("successful_requests", JInt (st_successful_requests st));
        ("failed_requests", JInt (st_failed_requests st));
        ("encode_requests", JInt (st_encode_requests st));
        ("decode_requests", JInt (st_decode_requests st));
        ("uptime_seconds", JNum (st_uptime_us st # 1000000));
        ("requests_per_second",
          if 0 <? st_uptime_us st then JNum (st_requests_per_second st) else JInt 0)].

(** [ggwave_status]: [exists and access] for each binary. *)
Definition ggwave_status (p : Probe) : bool * bool :=
  (to_file_exists p && to_file_exec p, from_file_exists p && from_file_exec p).

Definition health_data (status : string) (cfg : Config) (timestamp : string) (p : Probe)
    (st : Stats) : Json :=
  let '(to_ok, from_ok) := ggwave_status p in
  JObj [("status", JStr status);
        ("timestamp", JStr timestamp);
        ("service", JStr "fskhttp");
        ("version", JStr "2.0.0");
        ("thread_pool", JObj [("max_workers", JInt (MAX_WORKERS cfg));
                              ("active_threads", JInt (active_threads p))]);
        ("system", JObj [("cpu_percent", JNum (cpu_percent p));
                         ("memory_percent", JNum (memory_percent p));
                         ("memory_available_gb", JNum (gb_round2 (memory_available p) # 100));
                         ("disk_percent", JNum (disk_percent p));
                         ("disk_free_gb", JNum (gb_round2 (disk_free p) # 100))]);
        ("service_metrics", stats_json st);
        ("ggwave_binaries", JObj [("to_file", JBool to_ok); ("from_file", JBool from_ok)]);
        ("configuration", JObj [("max_concurrent_requests", JInt (MAX_CONCURRENT_REQUESTS cfg));
                                ("request_timeout", JInt (REQUEST_TIMEOUT cfg));
                                ("log_level", JStr (LOG_LEVEL cfg))])].

(** The condition of lines 430-434. *)
Definition degraded (cfg : Config) (p : Probe) (st : Stats) : bool :=
  let '(to_ok, from_ok) := ggwave_status p in
  over_90 (cpu_percent p) || over_90 (memory_percent p) || over_90 (disk_percent p)
  || negb (to_ok && from_ok)
  || (MAX_CONCURRENT_REQUESTS cfg <=? st_active_requests st).

(** The endpoint: [probe] is the readings, or the message of the exception
    raised while taking them; [now] is the clock [get_stats] reads. *)
Definition health (cfg : Config) (now : Z) (timestamp : string) (probe : string + Probe)
    (m : Metrics) : Response :=
  match probe with
  | inl msg =>
      RJson 503 (JObj [("status", JStr "unhealthy"); ("error", JStr msg);
                       ("timestamp", JStr timestamp)])
  | inr p =>
      let st := get_stats now m in
      if degraded cfg p st then RJson 503 (health_data "degraded" cfg timestamp p st)
      else RJson 200 (health_data "healthy" cfg timestamp p st)
  end.


(** ** Rounding *)

Lemma round_half_even_cases n d :
  0 < d ->
  (round_half_even n d = n / d /\ 2 * (n mod d) <= d
     /\ (2 * (n mod d) = d -> Z.even (n / d) = true))
  \/ (round_half_even n d = n / d + 1 /\ d <= 2 * (n mod d)
     /\ (2 * (n mod d) = d -> Z.even (n / d) = false)).
Proof.
  intros Hd. unfold round_half_even.
  destruct (Z.compare_spec (2 * (n mod d)) d) as [E|L|G].
  - destruct (Z.even (n / d)) eqn:Ev; [left | right]; repeat split; auto; lia.
  - left; repeat split; lia.
  - right; repeat split; lia.
Qed.

Lemma round_half_even_near n d :
  0 < d -> 2 * Z.abs (n - d * round_half_even n d) <= d.
Proof.
  intros Hd. pose proof (Z.div_mod n d ltac:(lia)). pose proof (Z.mod_pos_bound n d Hd).
  destruct (round_half_even_cases n d Hd) as [(E & H1 & _)|(E & H1 & _)]; rewrite E; lia.
Qed.

Lemma round_half_even_tie n d :
  0 < d -> 2 * Z.abs (n - d * round_half_even n d) = d -> Z.even (round_half_even n d) = true.
Proof.
  intros Hd Ht. pose proof (Z.div_mod n d ltac:(lia)). pose proof (Z.mod_pos_bound n d Hd).
  destruct (round_half_even_cases n d Hd) as [(E & H1 & H2)|(E & H1 & H2)]; rewrite E in *.
  - apply H2; lia.
  - rewrite Z.even_add, H2 by lia. reflexivity.
Qed.

(** [round(b / 1024**3, 2)] is within half a hundredth of the exact value,
    ties going to the even hundredth. *)
Lemma gb_round2_near (b : Z) :
  2 * Z.abs (100 * b - 1024 ^ 3 * gb_round2 b) <= 1024 ^ 3
  /\ (2 * Z.abs (100 * b - 1024 ^ 3 * gb_round2 b) = 1024 ^ 3 -> Z.even (gb_round2 b) = true).
Proof.
  split; [apply round_half_even_near | apply round_half_even_tie]; lia.
Qed.

(** C29. Whenever [/health] takes its readings, its answer's [system] object
    reports [memory_available_gb] and [disk_free_gb] as the available
    memory and the free disk bytes over [2^30], in hundredths: each within
    half a hundredth of the exact value, ties going to the even
    hundredth. *)
Theorem health_gb_gauges cfg now timestamp p m :
  exists code j sys, health cfg now timestamp (inr p) m = RJson code j
    /\ json_field "system" j = Some sys
    /\ forall k b, In (k, b) [("memory_available_gb", memory_available p); ("disk_free_gb", disk_free p)] ->
         exists g, json_field k sys = Some (JNum (g # 100))
           /\ 2 * Z.abs (100 * b - 1024 ^ 3 * g) <= 1024 ^ 3
           /\ (2 * Z.abs (100 * b - 1024 ^ 3 * g) = 1024 ^ 3 -> Z.even g = true).
Proof.
  unfold health, health_data. destruct (ggwave_status p) as [to_ok from_ok].
  destruct (degraded _ _ _); do 3 eexists; (split; [reflexivity|]); (split; [reflexivity|]);
    intros k b [Hk|[Hk|[]]]; injection Hk as <- <-; eexists; (split; [reflexivity|]);
    apply gb_round2_near.
Qed.


(** ** The status of the answer *)

Lemma status_if (b : bool) j1 j2 :
  status (if b then RJson 503 j1 else RJson 200 j2) = 200 <-> b = false.
Proof. destruct b; cbn; split; congruence. Qed.

Lemma degraded_false cfg p st :
  degraded cfg p st = false <->
  (cpu_percent p <= 90 /\ memory_percent p <= 90 /\ disk_percent p <= 90)%Q
  /\ to_file_exists p && to_file_exec p && from_file_exists p && from_file_exec p = true
  /\ st_active_requests st < MAX_CONCURRENT_REQUESTS cfg.
Proof.
  unfold degraded, ggwave_status, over_90.
  rewrite !orb_false_iff, !negb_false_iff, Z.leb_gt, !Qle_bool_iff, !andb_assoc.
  tauto.
Qed.

(** C27. [/health] answers 200 exactly when the readings were taken, CPU,
    memory and disk are at most 90%, both binaries exist and are
    executable, and fewer than [MAX_CONCURRENT_REQUESTS] requests are
    active; otherwise it answers 503. *)
Theorem health_ok_iff cfg now timestamp probe m :
  status (health cfg now timestamp probe m) = 200 <->
  exists p, probe = inr p
    /\ (cpu_percent p <= 90 /\ memory_percent p <= 90 /\ disk_percent p <= 90)%Q
    /\ to_file_exists p && to_file_exec p && from_file_exists p && from_file_exec p = true
    /\ active_requests m < MAX_CONCURRENT_REQUESTS cfg.
Proof.
  destruct probe as [msg|p]; cbn [health].
  - split; [discriminate | intros (p & E & _); discriminate].
  - rewrite status_if, degraded_false. cbn [get_stats st_active_requests].
    split; [intros H; exists p; tauto | intros (p' & E & H); injection E as <-; tauto].
Qed.

Lemma health_degraded_at cfg now timestamp p m :
  MAX_CONCURRENT_REQUESTS cfg <= active_requests m ->
  status (health cfg now timestamp (inr p) m) = 503.
Proof.
  intros Hge. cbn [health]. replace (degraded cfg p (get_stats now m)) with true; [reflexivity|].
  symmetry. apply not_false_iff_true. rewrite degraded_false. cbn. lia.
Qed.


(** ** The endpoint against the gateway *)

Section Capacity.
Context {Sem : Type} {NBS : NonBlockingSemaphore Sem} {SL : SemaphoreLaws Sem}.
Variable max : Z.
Variable sem0 : Sem.
Hypothesis sem0_value : sem_value sem0 = max.
Hypothesis max_pos : 0 < max.
Variable now0 : Z.

(** C28. The endpoint's threshold counts both routes against one limit while
    each route has [MAX_CONCURRENT_REQUESTS] permits of its own: a reachable
    state answers [/health] with 503, whatever the readings, while a new
    [/decode] request is still admitted. *)
Theorem degraded_while_admitting contract cfg now timestamp p :
  MAX_CONCURRENT_REQUESTS cfg = max ->
  exists s, reachable contract sem0 now0 s
    /\ status (health cfg now timestamp (inr p) (srv_metrics s)) = 503
    /\ exists s', arrive RDecode s = (None, s').
Proof.
  intros Hcfg.
  destruct (admit_count_many max sem0 sem0_value ltac:(lia) now0 contract
              (Server.init sem0 now0) REncode (Z.to_nat max)) as (s & R & F & A & O);
    [constructor | unfold in_flight; cbn; lia|].
  exists s. split; [exact R|]. split.
  - apply health_degraded_at. rewrite A, Hcfg. cbn. lia.
  - destruct (arrive_admits max sem0 sem0_value ltac:(lia) now0 contract s RDecode R)
      as (s' & E & _); [rewrite O by discriminate; unfold in_flight; cbn; lia|].
    exists s'. exact E.
Qed.

End Capacity.


(** ** Witnesses *)

(** A host far from every threshold, with both binaries in place. *)
Definition demo_probe : Probe :=
  mkProbe 12 40 (8 * 1024 ^ 3) 55 (100 * 1024 ^ 3) 9 true true true true.

Lemma degraded_while_admitting_witness :
  exists s, reachable (fun _ _ => True) (mkPySemaphore 50) 0 s
    /\ status (health (default_config 4) 0 "2025-01-01T00:00:00" (inr demo_probe)
                 (srv_metrics s)) = 503
    /\ exists s', arrive RDecode s = (None, s').
Proof.
  exact (@degraded_while_admitting PySemaphore py_semaphore_ops py_semaphore_laws 50
           (mkPySemaphore 50) ltac:(reflexivity) ltac:(lia) 0 (fun _ _ => True)
           (default_config 4) 0 "2025-01-01T00:00:00" demo_probe ltac:(reflexivity)).
Defined.

End Health.
