(* ===== verification/Exposition.v ===== *)
(** * The metrics endpoint ([get_metrics], src/fskhttp.py lines 448-487)

    [get_metrics] renders [metrics.get_stats()] as one f-string in the
    Prometheus text format: eight groups of a [# HELP] line, a [# TYPE]
    line and a sample line, separated by blank lines.  Integers print as
    [str(int)]; the two float gauges print with Python's float [repr],
    which the file takes as a parameter [float_repr].  A scraper is
    modelled by [split_nl], [sample] and [parse_sample_int]; the file
    proves that it reads every counter back, which names the endpoint
    exposes, and that it can read a negative [fskhttp_requests_active]. *)

From S2P Require Import Prelude Metrics Http Admission Server.
From Stdlib Require Import String Ascii ZArith QArith List Lia Bool.
Import ListNotations Metrics.Metrics Http.Http Admission.Admission Server.Server.
Local Open Scope string_scope.
Local Open Scope Z_scope.

Module Exposition.

(** The lines of a text, each followed by ["\n"]. *)
Definition unlines (ls : list string) : string :=
  fold_right (fun l acc => l ++ nl ++ acc) EmptyString ls.

Section Render.
(** [repr] of the float nearest a rational. *)
Variable float_repr : Q -> string.

(** The f-string of lines 454-485, line by line. *)
Definition exposition_lines (st : Stats) : list string :=
  ["# HELP fskhttp_requests_total Total number of requests";
   "# TYPE fskhttp_requests_total counter";
   "fskhttp_requests_total " ++ py_str_int (st_total_requests st);
   "";
   "# HELP fskhttp_requests_active Current active requests";
   "# TYPE fskhttp_requests_active gauge";
   "fskhttp_requests_active " ++ py_str_int (st_active_requests st);
   "";
   "# HELP fskhttp_requests_successful_total Total successful requests";
   "# TYPE fskhttp_requests_successful_total counter";
   "fskhttp_requests_successful_total " ++ py_str_int (st_successful_requests st);
   "";
   "# HELP fskhttp_requests_failed_total Total failed requests";
   "# TYPE fskhttp_requests_failed_total counter";
   "fskhttp_requests_failed_total " ++ py_str_int (st_failed_requests st);
   "";
   "# HELP fskhttp_encode_requests_total Total encode requests";
   "# TYPE fskhttp_encode_requests_total counter";
   "fskhttp_encode_requests_total " ++ py_str_int (st_encode_requests st);
   "";
   "# HELP fskhttp_decode_requests_total Total decode requests";
   "# TYPE fskhttp_decode_requests_total counter";
   "fskhttp_decode_requests_total " ++ py_str_int (st_decode_requests st);
   "";
   "# HELP fskhttp_uptime_seconds Service uptime in seconds";
   "# TYPE fskhttp_uptime_seconds gauge";
   "fskhttp_uptime_seconds " ++ float_repr (st_uptime_us st # 1000000);
   "";
   "# HELP fskhttp_requests_per_second Requests per second";
   "# TYPE fskhttp_requests_per_second gauge";
   "fskhttp_requests_per_second "
     ++ (if 0 <? st_uptime_us st then float_repr (st_requests_per_second st) else "0")].

Definition exposition (st : Stats) : string := unlines (exposition_lines st).

(** [return prometheus_metrics, 200, {'Content-Type': 'text/plain'}] *)
Definition get_metrics (now : Z) (m : Metrics) : Response :=
  RText 200 "text/plain" (exposition (get_stats now m)).

End Render.


(** ** A scraper *)

(** [text.split("\n")]: the partial first line and the lines after it. *)
Fixpoint split_nl_acc (s : string) : string * list string :=
  match s with
  | EmptyString => (EmptyString, [])
  | String c r =>
      let '(l, ls) := split_nl_acc r in
      if Ascii.eqb c newline then (EmptyString, l :: ls) else (String c l, ls)
  end.

Definition split_nl (s : string) : list string :=
  let '(l, ls) := split_nl_acc s in l :: ls.

(** The value of the first sample line of a metric. *)
Definition sample (name text : string) : option string :=
  match find (fun l => String.prefix (name ++ " ") l) (split_nl text) with
  | Some l => Some (str_drop (String.length name + 1) l)
  | None => None
  end.

Definition digits_only (s : string) : bool :=
  all_chars is_digit s && negb (String.eqb s EmptyString).

Definition parse_sample_int (v : string) : option Z :=
  match v with
  | EmptyString => None
  | String c r =>
      if Ascii.eqb c "-"%char then (if digits_only r then Some (- digits_value r) else None)
      else if digits_only v then Some (digits_value v) else None
  end.

Fixpoint first_word (l : string) : string :=
  match l with
  | EmptyString => EmptyString
  | String c r => if Ascii.eqb c " "%char then EmptyString else String c (first_word r)
  end.

(** The metric names of the sample lines, in order. *)
Definition sample_names (text : string) : list string :=
  map first_word
    (filter (fun l => negb (String.eqb l EmptyString) && negb (String.prefix "#" l))
       (split_nl text)).


(** ** Lemmas *)

Lemma split_nl_acc_line (a b : string) :
  lacks_char newline a = true -> split_nl_acc (a ++ nl ++ b) = (a, split_nl b).
Proof.
  unfold split_nl. induction a as [|c a IH]; intros H.
  - rewrite append_nil_l_str, nl_app. cbn [split_nl_acc].
    destruct (split_nl_acc b). rewrite Ascii.eqb_refl. reflexivity.
  - unfold lacks_char in H. cbn [all_chars] in H. apply andb_prop in H as [Hc Ha].
    rewrite append_cons_str. cbn [split_nl_acc]. rewrite IH by exact Ha.
    apply negb_true_iff in Hc. rewrite Hc. reflexivity.
Qed.

Lemma split_nl_cons (l : string) (ls : list string) :
  lacks_char newline l = true -> split_nl (unlines (l :: ls)%list) = (l :: split_nl (unlines ls))%list.
Proof. intros H. unfold split_nl at 1. cbn [unlines fold_right]. now rewrite split_nl_acc_line. Qed.

Lemma split_nl_unlines (ls : list string) :
  forallb (lacks_char newline) ls = true -> split_nl (unlines ls) = (ls ++ [EmptyString])%list.
Proof.
  induction ls as [|l ls IH]; [reflexivity|].
  cbn [forallb]. intros H. apply andb_prop in H as [Hl Hls].
  rewrite split_nl_cons by exact Hl. rewrite IH by exact Hls. reflexivity.
Qed.

Lemma digits_only_to_dec (n : nat) : digits_only (to_dec n) = true.
Proof.
  unfold digits_only. rewrite to_dec_digits.
  destruct (to_dec_head n) as (c & r & -> & _). reflexivity.
Qed.

Lemma parse_to_dec (n : nat) : parse_sample_int (to_dec n) = Some (Z.of_nat n).
Proof.
  destruct (to_dec_head n) as (c & r & E & Hc). unfold parse_sample_int. rewrite E.
  destruct (Ascii.eqb_spec c "-"%char) as [->|_]; [discriminate|].
  rewrite <- E, digits_only_to_dec, to_dec_value. reflexivity.
Qed.

(** [int(str(z)) == z]. *)
Lemma parse_py_str_int (z : Z) : parse_sample_int (py_str_int z) = Some z.
Proof.
  unfold py_str_int. destruct (Z.ltb_spec z 0).
  - rewrite append_cons_str, append_nil_l_str. unfold parse_sample_int.
    rewrite Ascii.eqb_refl, digits_only_to_dec, to_dec_value. f_equal. lia.
  - rewrite parse_to_dec. f_equal. lia.
Qed.

Lemma py_str_int_lacks (c : ascii) (z : Z) :
  is_digit c = false -> Ascii.eqb c "-"%char = false -> lacks_char c (py_str_int z) = true.
Proof.
  intros Hd Hm. unfold py_str_int. destruct (z <? 0).
  - unfold lacks_char. rewrite append_cons_str, append_nil_l_str. cbn [all_chars].
    rewrite Ascii.eqb_sym, Hm. apply lacks_char_digits; [exact Hd | apply to_dec_digits].
  - apply lacks_char_digits; [exact Hd | apply to_dec_digits].
Qed.

Lemma py_str_int_line (z : Z) : lacks_char newline (py_str_int z) = true.
Proof. apply py_str_int_lacks; reflexivity. Qed.

Lemma sample_skip (name l : string) (ls : list string) :
  lacks_char newline l = true -> String.prefix (name ++ " ") l = false ->
  sample name (unlines (cons l ls)) = sample name (unlines ls).
Proof. intros H P. unfold sample. rewrite split_nl_cons by exact H. cbn [find]. now rewrite P. Qed.

(** The sample line of a metric, read back. *)
Lemma sample_here (name p v : string) (ls : list string) :
  p = (name ++ " ")%string -> lacks_char newline (p ++ v) = true ->
  sample name (unlines (cons (p ++ v) ls)) = Some v.
Proof.
  intros -> H. unfold sample. rewrite split_nl_cons by exact H. cbn [find].
  rewrite prefix_append. f_equal.
  replace (String.length name + 1)%nat with (String.length (name ++ " ")) by
    (rewrite length_append_str; reflexivity).
  apply str_drop_app.
Qed.

(** A line of the exposition has no line break: the value printed on it
    has none. *)
Ltac line_ok :=
  rewrite ?lacks_char_app, ?py_str_int_line; vm_compute; reflexivity.

(** Walk the lines of the exposition up to the sample line of the metric. *)
Ltac scrape :=
  unfold exposition, exposition_lines;
  repeat (rewrite sample_skip by (line_ok || (vm_compute; reflexivity)));
  erewrite sample_here; [| vm_compute; reflexivity | line_ok].

(** The integer a scraper reads for a metric. *)
Definition scrape_int (name text : string) : option Z :=
  match sample name text with Some v => parse_sample_int v | None => None end.

(** C30. A scraper reading [/metrics] gets back every counter of the
    snapshot, negative values included: [int(str(z)) == z] on each sample
    line, whatever the float gauges print. *)
Theorem exposition_scrape_counters (float_repr : Q -> string) (st : Stats) :
  let text := exposition float_repr st in
  scrape_int "fskhttp_requests_total" text = Some (st_total_requests st)
  /\ scrape_int "fskhttp_requests_active" text = Some (st_active_requests st)
  /\ scrape_int "fskhttp_requests_successful_total" text = Some (st_successful_requests st)
  /\ scrape_int "fskhttp_requests_failed_total" text = Some (st_failed_requests st)
  /\ scrape_int "fskhttp_encode_requests_total" text = Some (st_encode_requests st)
  /\ scrape_int "fskhttp_decode_requests_total" text = Some (st_decode_requests st).
Proof.
  cbv zeta. unfold scrape_int.
  repeat split; scrape; apply parse_py_str_int.
Qed.


Section Names.
Variable float_repr : Q -> string.
(** [repr] of a float is one line. *)
Hypothesis float_repr_line : forall q, lacks_char newline (float_repr q) = true.

Lemma exposition_lines_ok (st : Stats) :
  forallb (lacks_char newline) (exposition_lines float_repr st) = true.
Proof.
  unfold exposition_lines. cbn [forallb].
  rewrite !lacks_char_app, !py_str_int_line, !float_repr_line.
  destruct (0 <? st_uptime_us st); rewrite ?float_repr_line; vm_compute; reflexivity.
Qed.

(** C31. [/metrics] exposes exactly eight samples, named [fskhttp_*] in this
    order (not the [service_*] names of the spec). *)
Theorem exposition_sample_names (st : Stats) :
  sample_names (exposition float_repr st) =
  ["fskhttp_requests_total"; "fskhttp_requests_active"; "fskhttp_requests_successful_total";
   "fskhttp_requests_failed_total"; "fskhttp_encode_requests_total";
   "fskhttp_decode_requests_total"; "fskhttp_uptime_seconds"; "fskhttp_requests_per_second"].
Proof.
  unfold exposition, sample_names. rewrite split_nl_unlines by apply exposition_lines_ok.
  vm_compute. reflexivity.
Qed.

End Names.


(** ** The exposition of a reachable gateway state *)

(** A request whose [send_file] raises leaves the gateway in a state
    where a scrape of [/metrics] reads [fskhttp_requests_active -1]. *)
Theorem metrics_negative_active {Sem : Type} {NBS : NonBlockingSemaphore Sem}
    {SL : SemaphoreLaws Sem} (float_repr : Q -> string) (sem0 : Sem) (now0 now : Z) :
  0 < sem_value sem0 ->
  exists s, reachable handler_contract sem0 now0 s
    /\ sample "fskhttp_requests_active" (exposition float_repr (get_stats now (srv_metrics s)))
       = Some "-1".
Proof.
  intros Hpos. destruct (send_file_failure_run sem0 now0 Hpos) as (s & R & A).
  exists s. split; [exact R|]. scrape.
  cbv beta iota delta [get_stats st_active_requests]. rewrite A. reflexivity.
Qed.


(** ** Witnesses *)

Definition demo_float_repr (q : Q) : string := "1.5".

Lemma exposition_sample_names_witness :
  (forall q, lacks_char newline (demo_float_repr q) = true)
  /\ sample_names (exposition demo_float_repr (get_stats 5000000 (Metrics.init 0))) =
     ["fskhttp_requests_total"; "fskhttp_requests_active"; "fskhttp_requests_successful_total";
      "fskhttp_requests_failed_total"; "fskhttp_encode_requests_total";
      "fskhttp_decode_requests_total"; "fskhttp_uptime_seconds"; "fskhttp_requests_per_second"].
Proof.
  split; [intros q; reflexivity|].
  apply exposition_sample_names. intros q; reflexivity.
Defined.

Lemma metrics_negative_active_witness :
  exists s, reachable handler_contract (mkPySemaphore 50) 0 s
    /\ sample "fskhttp_requests_active"
         (exposition demo_float_repr (get_stats 1000000 (srv_metrics s))) = Some "-1".
Proof.
  exact (@metrics_negative_active PySemaphore py_semaphore_ops py_semaphore_laws
           demo_float_repr (mkPySemaphore 50) 0 1000000 ltac:(vm_compute; reflexivity)).
Defined.

End Exposition.
