(* ===== verification/Reaper.v ===== *)
(** * The temp-file reaper ([safe_temp_file_cleanup], src/fskhttp.py lines 139-162)

    A daemon thread sleeps [TEMP_FILE_CLEANUP_INTERVAL] seconds, lists
    [tempfile.gettempdir()] and deletes every [tmp*.wav] file whose
    [ctime] is more than 600 seconds old; an error on one file is logged
    and the scan goes on.  The directory is a [gmap] from file names to
    what [os.path.getctime] and [os.unlink] do on them; [sweep] is one
    pass of the [for] loop over the names [os.listdir] returned, in their
    order.  The file proves that a sweep over any listing deletes exactly
    the files of [should_delete], so the listing order does not matter,
    that it never touches a young or foreign file, that the handlers'
    temp files are the files it looks for, and that the loop's turns
    ([reaper_turn], where a negative interval makes [time.sleep] raise
    before any scan) reclaim a leaked file. *)

From S2P Require Import Prelude Runtime.
From Stdlib Require Import String ZArith QArith List Bool.
From Stdlib Require Import Lqa.
From stdpp Require Import base gmap strings relations.
Import Runtime.Runtime.
Local Open Scope string_scope.

Module Reaper.

(** A directory entry, as the reaper's system calls see it. *)
Record Entry := mkEntry {
  e_ctime : Q;              (** [os.path.getctime(filepath)], seconds *)
  e_stat_fails : bool;      (** [getctime] raises [OSError] *)
  e_unlink_fails : bool     (** [os.unlink] raises [OSError] *)
}.

Abbreviation Dir := (gmap string Entry) (only parsing).

(** [filename.startswith('tmp') and filename.endswith('.wav')] *)
Definition is_candidate (filename : string) : bool :=
  py_startswith filename "tmp" && py_endswith filename ".wav".

(** [os.path.join(temp_dir, filename)] for a name without a slash. *)
Definition join (dir filename : string) : string := dir ++ "/" ++ filename.

(** One turn of the [for] loop at [current_time = now].  A name listed but
    gone by the time [getctime] runs raises [FileNotFoundError]: swallowed. *)
Definition visit (now : Q) (d : Dir) (filename : string) : Dir :=
  if is_candidate filename then
    match d !! filename with
    | None => d
    | Some e =>
        if e_stat_fails e then d
        else if negb (Qle_bool (now - e_ctime e) 600) then
          (if e_unlink_fails e then d else delete filename d)
        else d
    end
  else d.

(** [for filename in os.listdir(temp_dir): ...] *)
Definition sweep (now : Q) (listing : list string) (d : Dir) : Dir :=
  fold_left (visit now) listing d.

(** One iteration of [while True]: [os.listdir] either returns a listing
    or raises, and the outer [except] logs it. *)
Definition cleanup_iteration (now : Q) (listing : option (list string)) (d : Dir) : Dir :=
  match listing with
  | Some l => sweep now l d
  | None => d
  end.

(** The files a sweep removes. *)
Definition should_delete (now : Q) (filename : string) (e : Entry) : bool :=
  is_candidate filename && negb (e_stat_fails e) && negb (Qle_bool (now - e_ctime e) 600)
  && negb (e_unlink_fails e).


(** ** One turn of the loop *)

Lemma visit_spec now d filename :
  visit now d filename =
  match d !! filename with
  | Some e => if should_delete now filename e then delete filename d else d
  | None => d
  end.
Proof.
  unfold visit, should_delete.
  destruct (is_candidate filename), (d !! filename) as [e|]; cbn; [|reflexivity..].
  destruct (e_stat_fails e), (Qle_bool (now - e_ctime e) 600), (e_unlink_fails e); reflexivity.
Qed.

Lemma visit_other now d m n :
  m <> n -> visit now d m !! n = d !! n.
Proof.
  intros Hne. rewrite visit_spec.
  destruct (d !! m); [destruct (should_delete now m e)|]; [apply lookup_delete_ne|..]; auto.
Qed.

Lemma sweep_cons now m l d : sweep now (m :: l) d = sweep now l (visit now d m).
Proof. reflexivity. Qed.

Lemma sweep_none now l d n : d !! n = None -> sweep now l d !! n = None.
Proof.
  revert d; induction l as [|m l IH]; intros d Hn; [exact Hn|].
  apply IH. destruct (decide (m = n)) as [->|Hne]; [|by rewrite visit_other].
  rewrite visit_spec, Hn. exact Hn.
Qed.

(** On a listing without repeated names, a sweep is a filter. *)
Lemma sweep_filter now l d :
  NoDup l ->
  sweep now l d =
  filter (fun ne : string * Entry => ~ (ne.1 ∈ l /\ should_delete now ne.1 ne.2 = true)) d.
Proof.
  revert d; induction l as [|m l IH]; intros d Hnd.
  - symmetry. apply map_filter_id. intros i x _ [Hi _]. by apply elem_of_nil in Hi.
  - apply NoDup_cons in Hnd as [Hm Hnd]. rewrite sweep_cons.
    rewrite IH by exact Hnd. rewrite visit_spec.
    destruct (d !! m) as [e|] eqn:Em; [destruct (should_delete now m e) eqn:Sd|].
    + apply map_eq; intros k; apply option_eq; intros x.
      rewrite !map_lookup_filter_Some, lookup_delete_Some, elem_of_cons. cbn [fst snd].
      destruct (decide (k = m)) as [->|Hk]; [rewrite Em|]; naive_solver.
    + apply map_filter_ext. intros i x Hi. rewrite elem_of_cons. cbn [fst snd].
      destruct (decide (i = m)) as [->|Hk]; [|naive_solver].
      rewrite Em in Hi. injection Hi as <-. rewrite Sd. naive_solver.
    + apply map_filter_ext. intros i x Hi. rewrite elem_of_cons. cbn [fst snd].
      destruct (decide (i = m)) as [->|Hk]; [congruence | naive_solver].
Qed.

(** C33. A sweep over any listing of the directory without repeated names
    deletes exactly the files of [should_delete]: the result does not
    depend on the order [os.listdir] returns. *)
Theorem sweep_order_independent now l d :
  NoDup l -> (forall n, is_Some (d !! n) -> n ∈ l) ->
  sweep now l d = filter (fun ne : string * Entry => should_delete now ne.1 ne.2 = false) d.
Proof.
  intros Hnd Hall. rewrite sweep_filter by exact Hnd. apply map_filter_ext.
  intros i x Hi. specialize (Hall i (mk_is_Some _ _ Hi)).
  cbn [fst snd]. destruct (should_delete now i x); split.
  - intros Hn. exfalso. exact (Hn (conj Hall eq_refl)).
  - discriminate.
  - reflexivity.
  - intros _ [_ C]. discriminate.
Qed.

(** C34. A sweep only deletes, and never a file [should_delete] spares:
    not a [tmp*.wav] name, at most 600 seconds old, or one whose [stat]
    or [unlink] fails. *)
Theorem sweep_keeps now l d :
  sweep now l d ⊆ d
  /\ (forall n e, d !! n = Some e -> should_delete now n e = false -> sweep now l d !! n = Some e).
Proof.
  revert d; induction l as [|m l IH]; intros d; [split; [reflexivity | auto]|].
  rewrite sweep_cons.
  destruct (IH (visit now d m)) as [Hsub Hkeep]. split.
  - etransitivity; [exact Hsub|]. rewrite visit_spec.
    destruct (d !! m); [destruct (should_delete now m e)|];
      [apply delete_subseteq | reflexivity | reflexivity].
  - intros n e Hn Sd. apply Hkeep; [|exact Sd].
    destruct (decide (m = n)) as [->|Hne]; [|by rewrite visit_other].
    rewrite visit_spec, Hn, Sd. exact Hn.
Qed.

(** C35. A listed file that [should_delete] selects is gone after the
    sweep, whatever else the listing holds. *)
Theorem sweep_removes now l d n e :
  n ∈ l -> d !! n = Some e -> should_delete now n e = true -> sweep now l d !! n = None.
Proof.
  revert d; induction l as [|m l IH]; intros d Hin Hn Sd; [by apply elem_of_nil in Hin|].
  rewrite sweep_cons.
  destruct (decide (m = n)) as [->|Hne].
  - apply sweep_none. rewrite visit_spec, Hn, Sd. apply lookup_delete_eq.
  - apply elem_of_cons in Hin as [->|Hin]; [congruence|].
    apply IH; [exact Hin | by rewrite visit_other | exact Sd].
Qed.

(** The temp files of the handlers ([NamedTemporaryFile(suffix=".wav")]
    in the temp directory) are files the reaper looks for. *)
Theorem temp_path_candidate (r : string) :
  temp_path r = join temp_dir ("tmp" ++ r ++ ".wav")
  /\ is_candidate ("tmp" ++ r ++ ".wav") = true.
Proof.
  split; [reflexivity|]. unfold is_candidate, py_startswith.
  rewrite prefix_append, <- append_assoc_str, py_endswith_app. reflexivity.
Qed.


(** ** The worker loop *)

(** [listing] is what [os.listdir] returns on [d]: each name once. *)
Definition listing_of (d : Dir) (listing : list string) : Prop :=
  NoDup listing /\ forall n, n ∈ listing <-> is_Some (d !! n).

(** One turn of [while True]: [time.sleep(interval)] lasts at least
    [interval]; meanwhile the request threads change the directory
    arbitrarily into [d1]; then [cleanup_iteration] runs at the clock
    [t'] read after the sleep, on a listing of [d1] or on a failed
    [os.listdir]. *)
Inductive reaper_turn (interval : Q) : Q * Dir -> Q * Dir -> Prop :=
| turn_sweep t t' d d1 l :
    (0 <= interval)%Q -> (t + interval <= t')%Q -> listing_of d1 l ->
    reaper_turn interval (t, d) (t', cleanup_iteration t' (Some l) d1)
| turn_listdir_fails t t' d d1 :
    (0 <= interval)%Q -> (t + interval <= t')%Q ->
    reaper_turn interval (t, d) (t', cleanup_iteration t' None d1)
| turn_sleep_raises t t' d d1 :
    (interval < 0)%Q -> (t <= t')%Q ->
    reaper_turn interval (t, d) (t', d1).

Lemma inject_Z_succ (k : nat) : inject_Z (Z.of_nat (S k)) == inject_Z (Z.of_nat k) + 1.
Proof. rewrite Nat2Z.inj_succ, <- Z.add_1_r, inject_Z_plus. reflexivity. Qed.

Lemma reaper_turn_clock interval s s' :
  reaper_turn interval s s' -> (fst s + interval <= fst s')%Q.
Proof. destruct 1; cbn; [done | done | lra]. Qed.


(** After [k] turns the clock has advanced by at least [k] sleeps. *)
Lemma reaper_turns_clock interval k s s' :
  nsteps (reaper_turn interval) k s s' ->
  (fst s + inject_Z (Z.of_nat k) * interval <= fst s')%Q.
Proof.
  induction 1 as [s|k s s1 s' Hs _ IH].
  - change (inject_Z (Z.of_nat 0)) with 0%Q. lra.
  - apply reaper_turn_clock in Hs.
    rewrite inject_Z_succ. nra.
Qed.

(** A sweep at a clock past the age threshold leaves no file [n] with the
    entry [e] of an old, removable [tmp*.wav] file. *)
Lemma sweep_past_threshold now l d1 n e :
  listing_of d1 l -> is_candidate n = true -> e_stat_fails e = false ->
  e_unlink_fails e = false -> (e_ctime e + 600 < now)%Q ->
  sweep now l d1 !! n <> Some e.
Proof.
  intros [_ Hl] Hc Hs Hu Hage Hn.
  destruct (sweep_keeps now l d1) as [Hsub _].
  pose proof (lookup_weaken _ _ _ _ Hn Hsub) as Hd1.
  assert (Sd : should_delete now n e = true).
  { unfold should_delete. rewrite Hc, Hs, Hu. cbn.
    destruct (Qle_bool (now - e_ctime e) 600) eqn:E; [|reflexivity].
    apply Qle_bool_iff in E. lra. }
  rewrite (sweep_removes now l d1 n e) in Hn; [discriminate | | exact Hd1 | exact Sd].
  apply Hl. by exists e.
Qed.

(** C39. Liveness of the reaper, for a non-negative
    [TEMP_FILE_CLEANUP_INTERVAL] (a negative one makes every [time.sleep]
    raise, so that no turn sweeps): a leaked [tmp*.wav] file whose [stat]
    and [unlink] succeed is gone after the first turn that lists the
    directory once its age passes 600 s; with turns at least [interval]
    apart, turn [k + 1] comes by then as soon as
    [ctime + 600 < t0 + (k + 1) * interval], whatever the request threads
    do in between. *)
Theorem reaper_reclaims interval k t0 d0 t d t' d1 l n e :
  (0 <= interval)%Q ->
  is_candidate n = true -> e_stat_fails e = false -> e_unlink_fails e = false ->
  (e_ctime e + 600 < t0 + inject_Z (Z.of_nat (S k)) * interval)%Q ->
  nsteps (reaper_turn interval) k (t0, d0) (t, d) ->
  (t + interval <= t')%Q -> listing_of d1 l ->
  reaper_turn interval (t, d) (t', cleanup_iteration t' (Some l) d1)
  /\ cleanup_iteration t' (Some l) d1 !! n <> Some e.
Proof.
  intros Hi Hc Hs Hu Hage Hrun Ht' Hl. split; [by constructor|].
  pose proof (reaper_turns_clock interval k _ _ Hrun) as Hclock. cbn in Hclock.
  rewrite inject_Z_succ in Hage.
  apply sweep_past_threshold; auto. nra.
Qed.

(** ** Witnesses *)

(** At [now = 1000]: a leaked artifact from [t = 100], the artifact of a
    request started at [t = 900], and a file of another program. *)
Definition demo_dir : gmap string Entry :=
  <["tmpabc.wav" := mkEntry 100 false false]>
  (<["tmpnew.wav" := mkEntry 900 false false]>
  (<["notes.txt" := mkEntry 0 false false]> ∅)).

Definition demo_listing : list string := ["notes.txt"; "tmpnew.wav"; "tmpabc.wav"].

Lemma demo_listing_covers : forall n, is_Some (demo_dir !! n) -> n ∈ demo_listing.
Proof.
  intros n [e He]. unfold demo_dir in He. apply list_elem_of_In.
  repeat (rewrite lookup_insert_Some in He; destruct He as [[<- _]|[_ He]]; [cbn; auto|]).
  by rewrite lookup_empty in He.
Qed.

Lemma sweep_order_independent_witness :
  NoDup demo_listing
  /\ sweep 1000 demo_listing demo_dir
     = filter (fun ne : string * Entry => should_delete 1000 ne.1 ne.2 = false) demo_dir.
Proof.
  assert (Hnd : NoDup demo_listing) by (apply (bool_decide_unpack _); vm_compute; exact I).
  split; [exact Hnd|]. exact (sweep_order_independent 1000 demo_listing demo_dir Hnd demo_listing_covers).
Defined.

Lemma sweep_removes_witness : sweep 1000 demo_listing demo_dir !! "tmpabc.wav" = None.
Proof.
  apply (sweep_removes 1000 demo_listing demo_dir "tmpabc.wav" (mkEntry 100 false false));
    vm_compute; [right; right; left | reflexivity | reflexivity].
Defined.

Lemma demo_listing_of : listing_of demo_dir demo_listing.
Proof.
  split; [apply (bool_decide_unpack _); vm_compute; exact I|].
  intros n. split; [|apply demo_listing_covers].
  rewrite list_elem_of_In. cbn. intros [<-|[<-|[<-|[]]]]; vm_compute; eexists; reflexivity.
Qed.

(** Turns every 300 s from [t = 0]: [listdir] fails at 300 and 600, and
    succeeds at 900, past the 700 s at which the artifact of [t = 100]
    becomes removable. *)
Lemma reaper_reclaims_witness :
  reaper_turn 300 (600%Q, demo_dir) (900%Q, cleanup_iteration 900 (Some demo_listing) demo_dir)
  /\ cleanup_iteration 900 (Some demo_listing) demo_dir !! "tmpabc.wav" <> Some (mkEntry 100 false false).
Proof.
  apply (reaper_reclaims 300 2 0 demo_dir 600 demo_dir 900 demo_dir demo_listing);
    [vm_compute; discriminate | vm_compute; reflexivity .. | | vm_compute; discriminate
    | exact demo_listing_of].
  eapply nsteps_l; [apply (turn_listdir_fails 300 0 300 demo_dir demo_dir); vm_compute; discriminate|].
  eapply nsteps_l; [apply (turn_listdir_fails 300 300 600 demo_dir demo_dir); vm_compute; discriminate|].
  apply nsteps_O.
Defined.

End Reaper.
