(* ===== verification/App.v ===== *)
(** * The Flask application (src/fskhttp.py: [app] line 41, the module-level
    statements of lines 17-101, the four [@app.route] registrations of
    lines 221-223, 302-304, 386-387 and 448-449, and the [__main__] block of
    lines 489-502)

    Loading the module reads [Config], configures logging, creates the
    executor, the registry and one semaphore per decorated route; any of
    these can raise, and then the module does not load ([load_module]).
    A request is routed by Werkzeug's URL map, whose first rule is the
    [/static/<path:filename>] rule of [Flask(__name__)], to a view, to the
    static view (the parameter [static_view]), to Flask's automatic OPTIONS
    answer, to a 308 redirect when only the path with merged slashes
    matches, or to a 404 or 405 page ([dispatch]); the
    decorated views run inside [rate_limit_wrapper] ([app_handle]).  Served
    one after the other ([serve]), requests compose through the state
    [AppState]: the two semaphores and the handlers' world.  [main] is the
    [__main__] block: three log lines, the reaper thread's interval and the
    arguments of [app.run].  Headers other than the content type and the
    stripping of the body of a HEAD answer by the server are not
    modelled; Werkzeug's HTML error page is the parameter [error_page]. *)

From S2P Require Import Prelude Metrics Http Config Admission Runtime Handlers Health Exposition.
From Stdlib Require Import String Ascii ZArith QArith List Bool Lia.
From stdpp Require Import base list gmap strings.
Import Metrics.Metrics Http.Http Config.Config Admission.Admission Runtime.Runtime
  Handlers.Handlers Health.Health Exposition.Exposition.
Local Open Scope string_scope.
Local Open Scope Z_scope.

Module App.

(** ** Routing *)

Inductive Endpoint := EStatic | EEncode | EDecode | EHealth | EMetrics.

(** The path of a rule: a literal path, or a literal prefix followed by a
    [<path:...>] variable. *)
Inductive RulePath := Literal (p : string) | PathVar (prefix : string).

(** Werkzeug's [PathConverter], the pattern [[^/].*?] up to the end of the
    path: a non-empty string that does not start with a slash. *)
Definition path_converter (s : string) : bool :=
  match s with EmptyString => false | String c _ => negb (Ascii.eqb c "/"%char) end.

(** Whether a rule's path matches the request path, with the value of its
    variable ([""] for a literal rule). *)
Definition rule_matches (rp : RulePath) (path : string) : option string :=
  match rp with
  | Literal p => if String.eqb p path then Some EmptyString else None
  | PathVar pre =>
      if String.prefix pre path then
        let f := str_drop (String.length pre) path in
        if path_converter f then Some f else None
      else None
  end.

(** The URL map: [Flask(__name__)] registers [/static/<path:filename>] for
    its default static folder, then come the four [@app.route] rules, each
    with its path, view and methods. *)
Definition url_map : list (RulePath * Endpoint * list string) :=
  [(PathVar "/static/", EStatic, ["GET"]);
   (Literal "/encode", EEncode, ["POST"]); (Literal "/decode", EDecode, ["POST"]);
   (Literal "/health", EHealth, ["GET"]); (Literal "/metrics", EMetrics, ["GET"])].


(** The methods a rule answers: Werkzeug adds HEAD to a rule with GET, and
    Flask adds OPTIONS to every rule ([provide_automatic_options]). *)
Definition rule_methods (ms : list string) : list string :=
  ms ++ (if existsb (String.eqb "GET") ms then ["HEAD"] else []) ++ ["OPTIONS"].

(** One pass of Werkzeug's matcher: the first rule whose path matches and
    whose methods include the request's, or the methods of the rules whose
    path matched ([have_match_for]). *)
Inductive RuleMatch :=
| Matched (e : Endpoint) (filename : string) (allow : list string)
| NoMatch (have_match_for : list string).

Fixpoint match_rules (rules : list (RulePath * Endpoint * list string)) (method path : string)
    : RuleMatch :=
  match rules with
  | [] => NoMatch []
  | (rp, e, ms) :: rules' =>
      match rule_matches rp path with
      | Some f =>
          let allow := rule_methods ms in
          if existsb (String.eqb method) allow then Matched e f allow
          else match match_rules rules' method path with
               | NoMatch have => NoMatch (allow ++ have)
               | found => found
               end
      | None => match_rules rules' method path
      end
  end.

(** [re.sub("/{2,}?", "/", path)]: the lazy pattern takes two slashes at a
    time. *)
Fixpoint merge_slashes (s : string) : string :=
  match s with
  | String a ((String b r) as t) =>
      if Ascii.eqb a "/"%char && Ascii.eqb b "/"%char then String "/"%char (merge_slashes r)
      else String a (merge_slashes t)
  | _ => s
  end.

Inductive Dispatch :=
| DView (e : Endpoint) (filename : string)  (** the view runs *)
| DOptions (allow : list string)           (** Flask's default OPTIONS answer *)
| DRedirect (location : string)            (** [RequestRedirect], 308 *)
| DMethodNotAllowed (allow : list string)  (** Werkzeug raises [MethodNotAllowed] *)
| DNotFound.                               (** Werkzeug raises [NotFound] *)

(** [MapAdapter.match] with the state machine matcher: a first pass on the
    path; without a match, a second pass on the path with its slashes
    merged, which redirects when it matches; otherwise 405 when some rule's
    path matched in either pass, else 404.  Flask answers OPTIONS itself. *)
Definition dispatch (method path : string) : Dispatch :=
  match match_rules url_map method path with
  | Matched e f allow => if String.eqb method "OPTIONS" then DOptions allow else DView e f
  | NoMatch have =>
      let merged := merge_slashes path in
      match match_rules url_map method merged with
      | Matched _ _ _ => DRedirect merged
      | NoMatch have' =>
          match (have ++ have')%list with
          | [] => DNotFound
          | allow => DMethodNotAllowed allow
          end
      end
  end.

(** ** Requests through the application *)

(** A request as the views read it: its method and path, what [encode] and
    [decode] read of its body, the clock, the timestamp and the host
    readings [health] takes. *)
Record HttpRequest := mkHttpRequest {
  rq_method : string;
  rq_path : string;
  rq_encode : EncodeRequest;
  rq_decode : DecodeRequest;
  rq_now : Z;
  rq_timestamp : string;
  rq_probe : string + Probe
}.

(** The semaphores of the two decorated routes and the handlers' world. *)
Record AppState := mkAppState {
  enc_sem : PySemaphore;
  dec_sem : PySemaphore;
  world : HState
}.

(** [metrics] seen from the world: the registry the wrapper counts in. *)
Definition set_metrics (m : Metrics) (hs : HState) : HState :=
  mkHState (hs_fs hs) m (hs_mlog hs) (hs_launched hs) (hs_tmp hs).

Section Application.
Variable ggwave : External.
Variable cfg : Config.
Variable float_repr : Q -> string.
Variable error_page : Z -> string.
(** The answer of [send_static_file(filename)]: a file of the static folder
    next to the module, or [NotFound] (the repository ships no such
    folder). *)
Variable static_view : string -> Response.

(** Werkzeug's [HTTPException] answer: an HTML page. *)
Definition flask_error (code : Z) : Response :=
  RText code "text/html; charset=utf-8" (error_page code).

(** Flask calls the view: its local [output_file] / [input_file] starts as
    [None]; an exception escaping the view is answered 500. *)
Definition run_view (m : PyM Response) (hs : HState) : Response * HState :=
  match m (set_tmp None hs) with
  | (inr r, hs') => (r, hs')
  | (inl _, hs') => (flask_error 500, hs')
  end.

Definition app_handle (rq : HttpRequest) (a : AppState) : Response * AppState :=
  match dispatch (rq_method rq) (rq_path rq) with
  | DNotFound => (flask_error 404, a)
  | DMethodNotAllowed _ => (flask_error 405, a)
  | DOptions _ => (RText 200 "text/html; charset=utf-8" "", a)
  | DRedirect _ => (flask_error 308, a)
  | DView EStatic f => (static_view f, a)
  | DView EEncode _ =>
      let '(r, s, hs) := rate_limit_wrapper hs_metrics set_metrics
                           (run_view (encode ggwave cfg (rq_encode rq))) (enc_sem a) (world a) in
      (r, mkAppState s (dec_sem a) hs)
  | DView EDecode _ =>
      let '(r, s, hs) := rate_limit_wrapper hs_metrics set_metrics
                           (run_view (decode ggwave cfg (rq_decode rq))) (dec_sem a) (world a) in
      (r, mkAppState (enc_sem a) s hs)
  | DView EHealth _ =>
      (health cfg (rq_now rq) (rq_timestamp rq) (rq_probe rq) (hs_metrics (world a)), a)
  | DView EMetrics _ => (get_metrics float_repr (rq_now rq) (hs_metrics (world a)), a)
  end.

(** Requests served one after the other. *)
Fixpoint serve (rqs : list HttpRequest) (a : AppState) : list Response * AppState :=
  match rqs with
  | [] => ([], a)
  | rq :: rqs' =>
      let '(r, a1) := app_handle rq a in
      let '(rs, a2) := serve rqs' a1 in
      (r :: rs, a2)
  end.

(** The reference the sequential theorems compare with: the application
    with the views of [/encode] and [/decode] run directly on the world
    with the request counted, as if no semaphore guarded them. *)
Definition counted (m : PyM Response) (hs : HState) : Response * HState :=
  run_view m (set_metrics (increment_total (hs_metrics hs)) hs).

Definition handle_unguarded (rq : HttpRequest) (a : AppState) : Response * AppState :=
  match dispatch (rq_method rq) (rq_path rq) with
  | DView EEncode _ =>
      let '(r, hs) := counted (encode ggwave cfg (rq_encode rq)) (world a) in
      (r, mkAppState (enc_sem a) (dec_sem a) hs)
  | DView EDecode _ =>
      let '(r, hs) := counted (decode ggwave cfg (rq_decode rq)) (world a) in
      (r, mkAppState (enc_sem a) (dec_sem a) hs)
  | _ => app_handle rq a
  end.

Fixpoint serve_unguarded (rqs : list HttpRequest) (a : AppState) : list Response * AppState :=
  match rqs with
  | [] => ([], a)
  | rq :: rqs' =>
      let '(r, a1) := handle_unguarded rq a in
      let '(rs, a2) := serve_unguarded rqs' a1 in
      (r :: rs, a2)
  end.

End Application.

(** ** Loading the module and [__main__] *)

Inductive LoadError :=
| ConfigFailed (e : ConfigError)   (** [class Config] or [logging.basicConfig] raised *)
| ExecutorValueError               (** "max_workers must be greater than 0" *)
| SemaphoreValueError.             (** "semaphore initial value must be >= 0" *)

Record Loaded := mkLoaded {
  ld_config : Config;
  ld_workers : nat;                (** the executor's [max_workers] *)
  ld_app : AppState
}.

(** The module's statements in order: [Config] and logging, the executor
    (line 51), [metrics = Metrics()] at [now] (line 97), and the
    semaphores [rate_limit_decorator()] creates for [/encode] (line 222)
    and [/decode] (line 303).  [fs] is the file system at start. *)
Definition load_module (env : list (string * string)) (cpu_count now : Z)
    (fs : gmap string string) : LoadError + Loaded :=
  match startup env cpu_count with
  | inl e => inl (ConfigFailed e)
  | inr cfg =>
      if MAX_WORKERS cfg <=? 0 then inl ExecutorValueError else
      match py_semaphore_new (MAX_CONCURRENT_REQUESTS cfg) with
      | None => inl SemaphoreValueError
      | Some s_enc =>
          match py_semaphore_new (MAX_CONCURRENT_REQUESTS cfg) with
          | None => inl SemaphoreValueError
          | Some s_dec =>
              inr (mkLoaded cfg (Z.to_nat (MAX_WORKERS cfg))
                     (mkAppState s_enc s_dec (mkHState fs (init now) [] [] None)))
          end
      end
  end.

(** [logging.INFO] and the level [basicConfig] set from [LOG_LEVEL]. *)
Definition level_number (name : string) : Z :=
  if existsb (String.eqb name) ["CRITICAL"; "FATAL"] then 50
  else if String.eqb name "ERROR" then 40
  else if existsb (String.eqb name) ["WARN"; "WARNING"] then 30
  else if String.eqb name "INFO" then 20
  else if String.eqb name "DEBUG" then 10
  else 0.

(** What the [__main__] block does. *)
Record Launch := mkLaunch {
  launch_log : list string;        (** the messages [logger.info] emits *)
  cleanup_interval : Z;            (** the [TempCleanup] thread's sleep *)
  run_host : string;
  run_port : Z;
  run_debug : bool;
  run_threaded : bool
}.

Definition launch (cfg : Config) : Launch :=
  mkLaunch
    (if level_number (py_upper (LOG_LEVEL cfg)) <=? 20 then
       ["Starting FSK HTTP Service with " ++ py_str_int (MAX_WORKERS cfg) ++ " workers";
        "Max concurrent requests: " ++ py_str_int (MAX_CONCURRENT_REQUESTS cfg);
        "Request timeout: " ++ py_str_int (REQUEST_TIMEOUT cfg) ++ "s"]
     else [])
    (TEMP_FILE_CLEANUP_INTERVAL cfg) (HOST cfg) (PORT cfg) (DEBUG cfg) true.

Definition main (env : list (string * string)) (cpu_count now : Z) (fs : gmap string string)
    : LoadError + (Loaded * Launch) :=
  match load_module env cpu_count now fs with
  | inl e => inl e
  | inr ld => inr (ld, launch (ld_config ld))
  end.


(** ** Routing *)

Definition rule_paths : list string := ["/encode"; "/decode"; "/health"; "/metrics"].

Lemma match_rules_none rules m p :
  (forall rp e ms, In (rp, e, ms) rules -> rule_matches rp p = None) ->
  match_rules rules m p = NoMatch [].
Proof.
  induction rules as [|[[rp e] ms] rules IH]; intros H; [done|]. cbn.
  rewrite (H rp e ms) by (left; done). apply IH. intros; eapply H; right; eauto.
Qed.




Lemma merge_slashes_nonslash c r :
  c <> "/"%char -> merge_slashes (String c r) = String c (merge_slashes r).
Proof.
  intros Hc. destruct r as [|b r]; [done|]. cbn [merge_slashes].
  rewrite (proj2 (Ascii.eqb_neq _ _) Hc). done.
Qed.


Lemma dispatch_literal m p :
  p ∈ rule_paths ->
  dispatch m p =
    let allow := if existsb (String.eqb p) ["/encode"; "/decode"] then ["POST"; "OPTIONS"]
                 else ["GET"; "HEAD"; "OPTIONS"] in
    let e := if String.eqb p "/encode" then EEncode else if String.eqb p "/decode" then EDecode
             else if String.eqb p "/health" then EHealth else EMetrics in
    if existsb (String.eqb m) allow then
      if String.eqb m "OPTIONS" then DOptions allow else DView e EmptyString
    else DMethodNotAllowed (allow ++ allow).
Proof.
  unfold rule_paths. intros Hp.
  repeat (apply elem_of_cons in Hp as [->|Hp];
    [unfold dispatch; cbn;
     repeat match goal with |- context [String.eqb m ?x] => destruct (String.eqb m x) end;
     done|]).
  by apply elem_of_nil in Hp.
Qed.



(** The cases of a membership in a literal list. *)
Ltac in_cases H :=
  repeat (apply elem_of_cons in H as [->|H]); [..|by apply elem_of_nil in H].



(** ** Admission with CPython's semaphore *)

Lemma py_wrapper_admits (f : HState -> Response * HState) (s : PySemaphore) (w : HState) :
  0 < sem_counter s ->
  rate_limit_wrapper hs_metrics set_metrics f s w =
    (fst (f (set_metrics (increment_total (hs_metrics w)) w)), s,
     snd (f (set_metrics (increment_total (hs_metrics w)) w))).
Proof.
  destruct s as [c]. cbn. intros Hc. unfold rate_limit_wrapper. cbn.
  unfold py_semaphore_acquire_nb. cbn. destruct (Z.eqb_spec c 0); [lia|].
  destruct (f _) as [r w2]. unfold py_semaphore_release. cbn. do 3 f_equal. lia.
Qed.

Lemma py_wrapper_rejects (f : HState -> Response * HState) (s : PySemaphore) (w : HState) :
  sem_counter s = 0 ->
  rate_limit_wrapper hs_metrics set_metrics f s w = (overload_response (active_requests (hs_metrics w)), s, w).
Proof.
  destruct s as [c]. cbn. intros ->. reflexivity.
Qed.

Section Sequential.
Variable ggwave : External.
Variable cfg : Config.
Variable float_repr : Q -> string.
Variable error_page : Z -> string.
Variable static_view : string -> Response.

Lemma app_handle_unguarded rq a :
  0 < sem_counter (enc_sem a) -> 0 < sem_counter (dec_sem a) ->
  app_handle ggwave cfg float_repr error_page static_view rq a
  = handle_unguarded ggwave cfg float_repr error_page static_view rq a.
Proof.
  intros He Hd. unfold handle_unguarded, app_handle, counted.
  destruct (dispatch _ _) as [[] f| | | |]; try reflexivity;
    rewrite py_wrapper_admits by assumption; destruct (run_view _ _); reflexivity.
Qed.

Lemma handle_unguarded_sems rq a :
  enc_sem (snd (handle_unguarded ggwave cfg float_repr error_page static_view rq a)) = enc_sem a
  /\ dec_sem (snd (handle_unguarded ggwave cfg float_repr error_page static_view rq a)) = dec_sem a.
Proof.
  unfold handle_unguarded, app_handle, counted.
  destruct (dispatch _ _) as [[] f| | | |]; try destruct (run_view _ _); done.
Qed.

Lemma serve_unguarded_eq rqs a :
  0 < sem_counter (enc_sem a) -> 0 < sem_counter (dec_sem a) ->
  serve ggwave cfg float_repr error_page static_view rqs a = serve_unguarded ggwave cfg float_repr error_page static_view rqs a
  /\ enc_sem (snd (serve ggwave cfg float_repr error_page static_view rqs a)) = enc_sem a
  /\ dec_sem (snd (serve ggwave cfg float_repr error_page static_view rqs a)) = dec_sem a.
Proof.
  revert a. induction rqs as [|rq rqs IH]; intros a He Hd; [done|].
  cbn. rewrite app_handle_unguarded by assumption.
  destruct (handle_unguarded_sems rq a) as [E D].
  destruct (handle_unguarded _ _ _ _ _ rq a) as [r a1]. cbn in E, D.
  destruct (IH a1) as (IH1 & IH2 & IH3); [rewrite E; done|rewrite D; done|].
  rewrite IH1 in *. destruct (serve_unguarded _ _ _ _ _ rqs a1). cbn in *.
  split; [done|]. rewrite IH2, IH3, E, D. done.
Qed.

End Sequential.

Lemma load_module_ok env cpu_count now fs cfg :
  startup env cpu_count = inr cfg -> 0 < MAX_WORKERS cfg -> 0 <= MAX_CONCURRENT_REQUESTS cfg ->
  load_module env cpu_count now fs =
    inr (mkLoaded cfg (Z.to_nat (MAX_WORKERS cfg))
           (mkAppState (mkPySemaphore (MAX_CONCURRENT_REQUESTS cfg))
              (mkPySemaphore (MAX_CONCURRENT_REQUESTS cfg)) (mkHState fs (init now) [] [] None))).
Proof.
  intros Hs Hw Hm. unfold load_module, py_semaphore_new. rewrite Hs.
  destruct (Z.leb_spec (MAX_WORKERS cfg) 0); [lia|].
  destruct (Z.ltb_spec (MAX_CONCURRENT_REQUESTS cfg) 0); [lia|]. reflexivity.
Qed.

Lemma load_module_inv env cpu_count now fs ld :
  load_module env cpu_count now fs = inr ld ->
  startup env cpu_count = inr (ld_config ld) /\ 0 < MAX_WORKERS (ld_config ld)
  /\ enc_sem (ld_app ld) = mkPySemaphore (MAX_CONCURRENT_REQUESTS (ld_config ld))
  /\ dec_sem (ld_app ld) = mkPySemaphore (MAX_CONCURRENT_REQUESTS (ld_config ld)).
Proof.
  unfold load_module, py_semaphore_new.
  destruct (startup env cpu_count) as [e|cfg]; [discriminate|].
  destruct (Z.leb_spec (MAX_WORKERS cfg) 0); [discriminate|].
  destruct (Z.ltb_spec (MAX_CONCURRENT_REQUESTS cfg) 0); [discriminate|].
  intros [= <-]. cbn. split_and!; done || lia.
Qed.


(** ** Properties of the application *)


(** C22. Requests served one at a time never find a route's semaphore
    exhausted: from a loaded module with MAX_CONCURRENT_REQUESTS at least 1,
    every answer is the one the views give when run directly on the world
    with the request counted (no 503 overload answer), and both semaphores
    end with MAX_CONCURRENT_REQUESTS permits. *)
Theorem serve_sequential_admits ggwave float_repr error_page static_view env cpu_count now fs ld rqs :
  load_module env cpu_count now fs = inr ld -> 0 < MAX_CONCURRENT_REQUESTS (ld_config ld) ->
  let cfg := ld_config ld in
  serve ggwave cfg float_repr error_page static_view rqs (ld_app ld)
    = serve_unguarded ggwave cfg float_repr error_page static_view rqs (ld_app ld)
  /\ enc_sem (snd (serve ggwave cfg float_repr error_page static_view rqs (ld_app ld)))
     = mkPySemaphore (MAX_CONCURRENT_REQUESTS cfg)
  /\ dec_sem (snd (serve ggwave cfg float_repr error_page static_view rqs (ld_app ld)))
     = mkPySemaphore (MAX_CONCURRENT_REQUESTS cfg).
Proof.
  intros Hld Hpos. cbv zeta.
  destruct (load_module_inv _ _ _ _ _ Hld) as (_ & _ & He & Hd).
  destruct (serve_unguarded_eq ggwave (ld_config ld) float_repr error_page static_view rqs (ld_app ld))
    as (E & Se & Sd); [rewrite He; done|rewrite Hd; done|].
  rewrite Se, Sd. done.
Qed.

(** C32. Loading the module fails on settings the configuration accepts:
    MAX_WORKERS of 0 or less makes [ThreadPoolExecutor] raise ValueError,
    a negative MAX_CONCURRENT_REQUESTS makes [threading.Semaphore] raise
    ValueError; and with MAX_CONCURRENT_REQUESTS = 0 the module loads but
    every POST to [/encode] or [/decode] is answered with the 503 overload
    response and changes nothing. *)
Theorem load_module_errors env cpu_count now fs cfg :
  startup env cpu_count = inr cfg ->
  (MAX_WORKERS cfg <= 0 -> load_module env cpu_count now fs = inl ExecutorValueError)
  /\ (0 < MAX_WORKERS cfg -> MAX_CONCURRENT_REQUESTS cfg < 0 ->
        load_module env cpu_count now fs = inl SemaphoreValueError)
  /\ (0 < MAX_WORKERS cfg -> MAX_CONCURRENT_REQUESTS cfg = 0 ->
        exists ld, load_module env cpu_count now fs = inr ld /\ ld_config ld = cfg
          /\ forall ggwave float_repr error_page static_view rq,
               rq_method rq = "POST" -> rq_path rq ∈ ["/encode"; "/decode"] ->
               app_handle ggwave cfg float_repr error_page static_view rq (ld_app ld)
               = (overload_response 0, ld_app ld)).
Proof.
  intros Hs. split_and!.
  - intros Hw. unfold load_module. rewrite Hs.
    destruct (Z.leb_spec (MAX_WORKERS cfg) 0); [done|lia].
  - intros Hw Hm. unfold load_module. rewrite Hs.
    destruct (Z.leb_spec (MAX_WORKERS cfg) 0); [lia|].
    unfold py_semaphore_new. destruct (Z.ltb_spec (MAX_CONCURRENT_REQUESTS cfg) 0); [done|lia].
  - intros Hw Hm. rewrite (load_module_ok env cpu_count now fs cfg) by (done || lia).
    eexists; split; [reflexivity|split; [reflexivity|]].
    intros ggwave float_repr error_page static_view [m p er dr t ts pr]. cbn. intros -> Hp.
    unfold app_handle. cbn [rq_method rq_path]. rewrite dispatch_literal by set_solver.
    in_cases Hp; cbn;
      rewrite py_wrapper_rejects by (cbn; lia); rewrite Hm; done.
Qed.

(** With no environment variable set the module loads and [__main__]
    runs: the default configuration, an executor of min(32, cpu_count + 4)
    workers, both route semaphores at 50, a fresh registry started at
    load time; it logs the three start lines, starts the reaper with a
    300 s interval and runs the app threaded on 0.0.0.0:8080 without
    debug. *)
Lemma main_defaults cpu_count now fs :
  0 <= cpu_count ->
  main [] cpu_count now fs =
    inr (mkLoaded (default_config cpu_count) (Z.to_nat (default_max_workers cpu_count))
           (mkAppState (mkPySemaphore 50) (mkPySemaphore 50) (mkHState fs (init now) [] [] None)),
         mkLaunch ["Starting FSK HTTP Service with " ++ py_str_int (default_max_workers cpu_count)
                     ++ " workers";
                   "Max concurrent requests: 50"; "Request timeout: 30s"]
           300 "0.0.0.0" 8080 false true).
Proof.
  intros Hc. pose proof (default_max_workers_range cpu_count Hc).
  unfold main. rewrite (load_module_ok [] cpu_count now fs (default_config cpu_count));
    [| apply startup_defaults; done | cbn; lia | cbn; lia].
  reflexivity.
Qed.


(** ** Witnesses *)

Definition demo_error_page (code : Z) : string := "<title>" ++ py_str_int code ++ "</title>".
Definition demo_static_view (filename : string) : Response := RText 404 "text/html; charset=utf-8" (demo_error_page 404).

Definition demo_loaded : Loaded :=
  mkLoaded (default_config 4) (Z.to_nat (default_max_workers 4))
    (mkAppState (mkPySemaphore 50) (mkPySemaphore 50) (mkHState ∅ (init 0) [] [] None)).

Lemma demo_load : load_module [] 4 0 ∅ = inr demo_loaded.
Proof.
  apply load_module_ok; [apply startup_defaults; lia | by vm_compute | by vm_compute].
Qed.

(** A POST of a text to [/encode], then a GET of [/health]. *)
Definition demo_post : HttpRequest :=
  mkHttpRequest "POST" "/encode" (mkEncodeRequest JsonNone [("text", "hi")] ["tmpa1.wav"] false false)
    (mkDecodeRequest None [] false 0 "FSKWorker_0") 1000000 "2026-01-01T00:00:00" (inl "no probe").
Definition demo_requests : list HttpRequest :=
  [demo_post;
   mkHttpRequest "GET" "/health" (mkEncodeRequest JsonNone [] [] false false)
     (mkDecodeRequest None [] false 0 "FSKWorker_0") 2000000 "2026-01-01T00:00:01" (inl "no probe")].

Lemma serve_sequential_admits_witness :
  let cfg := ld_config demo_loaded in
  serve demo_binary cfg demo_float_repr demo_error_page demo_static_view demo_requests (ld_app demo_loaded)
    = serve_unguarded demo_binary cfg demo_float_repr demo_error_page demo_static_view demo_requests (ld_app demo_loaded)
  /\ enc_sem (snd (serve demo_binary cfg demo_float_repr demo_error_page demo_static_view demo_requests (ld_app demo_loaded)))
     = mkPySemaphore (MAX_CONCURRENT_REQUESTS cfg)
  /\ dec_sem (snd (serve demo_binary cfg demo_float_repr demo_error_page demo_static_view demo_requests (ld_app demo_loaded)))
     = mkPySemaphore (MAX_CONCURRENT_REQUESTS cfg).
Proof.
  apply (serve_sequential_admits demo_binary demo_float_repr demo_error_page demo_static_view [] 4 0 ∅);
    [exact demo_load | by vm_compute].
Defined.

Definition zero_env : list (string * string) := [("MAX_CONCURRENT_REQUESTS", "0")].
Definition zero_cfg : Config :=
  match startup zero_env 4 with inr c => c | inl _ => default_config 4 end.

Lemma load_module_errors_witness :
  startup zero_env 4 = inr zero_cfg
  /\ exists ld, load_module zero_env 4 0 ∅ = inr ld /\ ld_config ld = zero_cfg
       /\ app_handle demo_binary zero_cfg demo_float_repr demo_error_page demo_static_view demo_post
            (ld_app ld) = (overload_response 0, ld_app ld).
Proof.
  assert (Hs : startup zero_env 4 = inr zero_cfg) by (vm_compute; reflexivity).
  split; [exact Hs|].
  destruct (load_module_errors zero_env 4 0 ∅ zero_cfg Hs) as (_ & _ & H3).
  destruct H3 as (ld & Hld & Hc & Hh); [by vm_compute | by vm_compute |].
  exists ld. split_and!; [done | done |]. apply Hh; [done|]. cbn. set_solver.
Defined.

End App.
